(** * eemeter weather sources: a shallow embedding and its properties

    Two generations of the weather code are embedded here:

    - [Legacy]: [eemeter/weather.py], where a source keeps a dict from a
      formatted date string to a [Quantity] and averages by looping over
      the days or hours of a consumption period;
    - [NOAA]: [eemeter/weather/noaa.py], where a source keeps a pandas
      series [tempC], fetches whole years from a client on demand and
      merges them with [append / sort_index / resample / mean].

    Conventions of the embedding.  A Python [float] is an exact rational
    or [NaN] (rounding is not modelled).  A [datetime] is the number of
    seconds since the midnight that precedes proleptic ordinal 1, so that
    [t / 86400] is [date.toordinal()].  Exceptions are values of the type
    [exception] carried by [result]. *)

From Stdlib Require Import QArith Qcanon ZArith Lia.
From stdpp Require Import numbers strings sorting gmap list.

Local Open Scope Z_scope.

(** ** Exceptions and the error monad *)

Inductive exception :=
| KeyError (key : string)
| ValueError (message : string)
| NotImplementedError (message : string)
| UndefinedUnitError (name : string).

Inductive result (A : Type) :=
| Ok (a : A)
| Raise (e : exception).
Arguments Ok {A} a.
Arguments Raise {A} e.

Global Instance result_bind : MBind result := λ A B k r,
  match r with
  | Ok a => k a
  | Raise e => Raise e
  end.

Global Instance result_ret : MRet result := λ A a, Ok a.

(** A [for] loop that appends one computed element per iteration and
    stops at the first exception. *)
Fixpoint for_append {A B} (body : A → result B) (l : list A) : result (list B) :=
  match l with
  | [] => Ok []
  | a :: l' => b ← body a; bs ← for_append body l'; Ok (b :: bs)
  end.

(** [xrange(n)] and [range(a, b)]. *)
Definition xrange (n : Z) : list Z := seqZ 0 n.
Definition range (a b : Z) : list Z := seqZ a (b - a).

(** ** Calendar arithmetic of [datetime] *)

Module Calendar.

(** A [datetime] is a count of seconds. *)
Abbreviation datetime := Z (only parsing).

Record timedelta := { days : Z; seconds : Z }.

Definition _is_leap (year : Z) : bool :=
  (year mod 4 =? 0) && (negb (year mod 100 =? 0) || (year mod 400 =? 0)).

Definition _days_before_year (year : Z) : Z :=
  let y := year - 1 in y * 365 + y / 4 - y / 100 + y / 400.

Definition _days_in_month (year month : Z) : Z :=
  if (month =? 2) && _is_leap year then 29
  else nth (Z.to_nat month) [0; 31; 28; 31; 30; 31; 30; 31; 31; 30; 31; 30; 31] 0.

Definition _DAYS_BEFORE_MONTH : list Z :=
  [0; 0; 31; 59; 90; 120; 151; 181; 212; 243; 273; 304; 334].

Definition _days_before_month (year month : Z) : Z :=
  nth (Z.to_nat month) _DAYS_BEFORE_MONTH 0
  + (if (2 <? month) && _is_leap year then 1 else 0).

Definition _ymd2ord (year month day : Z) : Z :=
  _days_before_year year + _days_before_month year month + day.

Definition _ord2ymd (ordinal : Z) : Z * Z * Z :=
  let n := ordinal - 1 in
  let n400 := n / 146097 in
  let n := n mod 146097 in
  let year := n400 * 400 + 1 in
  let n100 := n / 36524 in
  let n := n mod 36524 in
  let n4 := n / 1461 in
  let n := n mod 1461 in
  let n1 := n / 365 in
  let n := n mod 365 in
  let year := year + n100 * 100 + n4 * 4 + n1 in
  if (n1 =? 4) || (n100 =? 4) then (year - 1, 12, 31)
  else
    let leapyear := (n1 =? 3) && (negb (n4 =? 24) || (n100 =? 3)) in
    let month := (n + 50) / 32 in
    let preceding :=
      nth (Z.to_nat month) _DAYS_BEFORE_MONTH 0
      + (if (2 <? month) && leapyear then 1 else 0) in
    if n <? preceding then
      let month := month - 1 in
      let preceding := preceding - _days_in_month year month in
      (year, month, n - preceding + 1)
    else (year, month, n - preceding + 1).

Definition toordinal (t : datetime) : Z := t / 86400.
Definition year (t : datetime) : Z := (_ord2ymd (toordinal t)).1.1.
Definition month (t : datetime) : Z := (_ord2ymd (toordinal t)).1.2.
Definition day (t : datetime) : Z := (_ord2ymd (toordinal t)).2.
Definition hour (t : datetime) : Z := (t mod 86400) / 3600.

(** [datetime(year, month, day, hour)]. *)
Definition mk_datetime (y m d h : Z) : datetime :=
  _ymd2ord y m d * 86400 + h * 3600.

(** [t + timedelta(days=d)] and [t + timedelta(seconds=s)]. *)
Definition add_days (t : datetime) (d : Z) : datetime := t + d * 86400.
Definition add_seconds (t : datetime) (s : Z) : datetime := t + s.

(** Zero-padded decimal fields of [strftime]. *)
Definition digit (d : Z) : Ascii.ascii :=
  Ascii.ascii_of_nat (48 + Z.to_nat (d mod 10)).

Definition pad2 (n : Z) : string :=
  String (digit (n / 10)) (String (digit n) EmptyString).

Definition pad4 (n : Z) : string :=
  String (digit (n / 1000)) (String (digit (n / 100)) (pad2 n)).

(** [t.strftime("%Y%m%d")] and [t.strftime("%Y%m%d%H")]. *)
Definition strftime_Ymd (t : datetime) : string :=
  pad4 (year t) +:+ pad2 (month t) +:+ pad2 (day t).

Definition strftime_YmdH (t : datetime) : string :=
  strftime_Ymd t +:+ pad2 (hour t).

End Calendar.

(** ** Floats, units of measure and numpy means *)

Module Numeric.

Inductive pyfloat :=
| Num (q : Qc)
| NaN.

Definition isnan (x : pyfloat) : bool :=
  match x with NaN => true | Num _ => false end.

Definition fadd (x y : pyfloat) : pyfloat :=
  match x, y with
  | Num a, Num b => Num (a + b)%Qc
  | _, _ => NaN
  end.

(** Division of a float by a count; [0.0 / 0] is [nan] in numpy. *)
Definition fdiv_count (x : pyfloat) (n : nat) : pyfloat :=
  match x, n with
  | Num a, S _ => Num (a / Qc_of_Z (Z.of_nat n))%Qc
  | _, _ => NaN
  end.

Definition fsum (l : list pyfloat) : pyfloat := foldr fadd (Num 0%Qc) l.

(** [np.mean] of a list of floats: a [nan] element makes the mean [nan],
    and so does the empty list. *)
Definition np_mean (l : list pyfloat) : pyfloat :=
  fdiv_count (fsum l) (length l).

(** A numpy scalar result: a float, or the [numpy.ma.masked] constant. *)
Inductive npscalar :=
| Float (x : pyfloat)
| masked.

(** [np.mean(np.ma.masked_array(data, np.isnan(data)))]: the mean of the
    entries that are not masked, and [masked] when none is left. *)
Definition unmasked (data : list pyfloat) : list pyfloat :=
  filter (λ x, isnan x = false) data.

Definition masked_nan_mean (data : list pyfloat) : npscalar :=
  match unmasked data with
  | [] => masked
  | kept => Float (fdiv_count (fsum kept) (length kept))
  end.

(** Temperature units of the pint registry. *)
Inductive Unit := degC | degF.

Global Instance Unit_eq_dec : EqDecision Unit.
Proof. solve_decision. Defined.

(** Modelled from the spec: the unit registry and its conversion live in
    the pint package; the spec fixes the conversion as linear,
    [degF = degC * 9/5 + 32], and names [degC] and [degF]. *)
Definition convert (from to : Unit) (x : Qc) : Qc :=
  match from, to with
  | degC, degF => (x * Q2Qc (9 # 5) + Q2Qc (32 # 1))%Qc
  | degF, degC => ((x - Q2Qc (32 # 1)) * Q2Qc (5 # 9))%Qc
  | _, _ => x
  end.

Definition parse_expression (unit_name : string) : result Unit :=
  if String.eqb unit_name "degC" then Ok degC
  else if String.eqb unit_name "degF" then Ok degF
  else Raise (UndefinedUnitError unit_name).

Record Quantity := Q_ { magnitude : pyfloat; units : Unit }.

Definition to (q : Quantity) (unit : Unit) : Quantity :=
  match magnitude q with
  | Num x => Q_ (Num (convert (units q) unit x)) unit
  | NaN => Q_ NaN unit
  end.

(** The arithmetic mean of exact values, as the spec words it. *)
Definition arithmetic_mean (l : list Qc) : Qc :=
  (foldr Qcplus 0%Qc l / Qc_of_Z (Z.of_nat (length l)))%Qc.

End Numeric.

(** ** [eemeter/weather.py] *)

Module Legacy.
Import Calendar Numeric.

(** The fields of [eemeter.consumption.Consumption] that the sources read. *)
Record Consumption := { start : datetime; timedelta : Calendar.timedelta }.

(** [ConsumptionHistory.get(fuel_type)] yields the consumptions of one
    fuel type; the class itself is a collaborator. *)
Record ConsumptionHistory := { get : string → list Consumption }.

Class WeatherSourceBase (Source : Type) := {
  get_consumption_average_temperature :
    Source → Consumption → Unit → result npscalar
}.

Definition get_average_temperature {Source} `{WeatherSourceBase Source} (self : Source)
    (consumption_history : ConsumptionHistory) (fuel_type unit_name : string)
    : result (list npscalar) :=
  unit ← parse_expression unit_name;
  for_append (λ consumption, get_consumption_average_temperature self consumption unit)
             (get consumption_history fuel_type).

Module GSODWeatherSource.

Record t := { _data : gmap string Quantity; _source_unit : Unit }.

(** Resolution limit: daily.  [self._data[key]] raises [KeyError] on a
    day that is not in the dict. *)
Definition get_consumption_average_temperature (self : t)
    (consumption : Consumption) (unit : Unit) : result npscalar :=
  avg_temps ←
    for_append (λ days,
        let key := strftime_Ymd (add_days (start consumption) days) in
        match _data self !! key with
        | Some temp => Ok (magnitude (to temp unit))
        | None => Raise (KeyError key)
        end)
      (xrange (Calendar.days (timedelta consumption)));
  Ok (Float (np_mean avg_temps)).

End GSODWeatherSource.

Module ISDWeatherSource.

Record t := { _data : gmap string Quantity; _source_unit : Unit }.

(** Resolution limit: hourly.  A missing hour reads as [nan], and [nan]s
    are masked before the mean. *)
Definition get_consumption_average_temperature (self : t)
    (consumption : Consumption) (unit : Unit) : result npscalar :=
  let null := Q_ NaN (_source_unit self) in
  let n_hours := Calendar.days (timedelta consumption) * 24
                 + Calendar.seconds (timedelta consumption) / 3600 in
  avg_temps ←
    for_append (λ hours,
        let hour := add_seconds (start consumption) (hours * 3600) in
        let hourly :=
          magnitude (to (default null (_data self !! strftime_YmdH hour)) unit) in
        Ok hourly)
      (xrange n_hours);
  Ok (masked_nan_mean avg_temps).

End ISDWeatherSource.

Global Instance GSOD_WeatherSource : WeatherSourceBase GSODWeatherSource.t :=
  {| get_consumption_average_temperature :=
       GSODWeatherSource.get_consumption_average_temperature |}.

Global Instance ISD_WeatherSource : WeatherSourceBase ISDWeatherSource.t :=
  {| get_consumption_average_temperature :=
       ISDWeatherSource.get_consumption_average_temperature |}.

(** The sub-periods a source reads for one consumption, as dict keys. *)
Definition gsod_keys (consumption : Consumption) : list string :=
  (λ d, strftime_Ymd (add_days (start consumption) d))
    <$> xrange (Calendar.days (timedelta consumption)).

Definition isd_keys (consumption : Consumption) : list string :=
  (λ h, strftime_YmdH (add_seconds (start consumption) (h * 3600)))
    <$> xrange (Calendar.days (timedelta consumption) * 24
                + Calendar.seconds (timedelta consumption) / 3600).

(** An object of either class, with dynamic dispatch of the method. *)
Inductive NOAASource :=
| GSOD (self : GSODWeatherSource.t)
| ISD (self : ISDWeatherSource.t).

Definition source_data (s : NOAASource) : gmap string Quantity :=
  match s with
  | GSOD self => GSODWeatherSource._data self
  | ISD self => ISDWeatherSource._data self
  end.

Definition sub_period_keys (s : NOAASource) (consumption : Consumption) : list string :=
  match s with
  | GSOD _ => gsod_keys consumption
  | ISD _ => isd_keys consumption
  end.

Global Instance NOAASource_WeatherSource : WeatherSourceBase NOAASource :=
  {| get_consumption_average_temperature s :=
       match s with
       | GSOD self => GSODWeatherSource.get_consumption_average_temperature self
       | ISD self => ISDWeatherSource.get_consumption_average_temperature self
       end |}.

(** A dict entry that holds the known value [v.1] in the unit [v.2]. *)
Definition known_at (data : gmap string Quantity) (key : string) (v : Qc * Unit) : Prop :=
  data !! key = Some (Q_ (Num v.1) v.2).

(** A dict entry that is absent, or present and [nan]. *)
Definition null_at (data : gmap string Quantity) (key : string) : Prop :=
  data !! key = None ∨ ∃ u, data !! key = Some (Q_ NaN u).

End Legacy.

(** ** The pandas operations the NOAA sources use *)

Module Pandas.
Import Calendar Numeric.

(** A float series: index labels (timestamps) with their values, in
    order; labels may repeat, as they do after [append]. *)
Abbreviation Series := (list (datetime * pyfloat)) (only parsing).

Definition index (s : Series) : list datetime := s.*1.

(** [key in series]. *)
Definition contains (key : datetime) (s : Series) : bool :=
  bool_decide (key ∈ index s).

(** The value at a label (the first one, should the label repeat). *)
Definition at_label (key : datetime) (s : Series) : option pyfloat :=
  (list_find (λ e, e.1 = key) s) ≫= λ ie, Some ie.2.2.

Definition isnull (x : pyfloat) : bool := isnan x.

(** [series[key] = value]: overwrite at the label, or enlarge the series
    when the label is new. *)
Definition setitem (s : Series) (key : datetime) (value : pyfloat) : Series :=
  if contains key s
  then (λ e, if bool_decide (e.1 = key) then (key, value) else e) <$> s
  else s ++ [(key, value)].

Definition append (s1 s2 : Series) : Series := s1 ++ s2.

Fixpoint insert_by_label (e : datetime * pyfloat) (s : Series) : Series :=
  match s with
  | [] => [e]
  | e' :: s' => if e.1 <=? e'.1 then e :: e' :: s'
                else e' :: insert_by_label e s'
  end.

Definition sort_index (s : Series) : Series := foldr insert_by_label [] s.

(** Offsets of the two resampling rules. *)
Inductive Freq := D | H.

Definition offset (freq : Freq) : Z :=
  match freq with D => 86400 | H => 3600 end.

(** The left edge of the bin that holds [t]. *)
Definition bin (width : Z) (t : datetime) : datetime := width * (t / width).

Definition bin_values (width : Z) (b : datetime) (s : Series) : list pyfloat :=
  (filter (λ e, bin width e.1 = b) s).*2.

(** The mean of a bin skips [nan]; a bin without a value is [nan]. *)
Definition nanmean (values : list pyfloat) : pyfloat :=
  match unmasked values with
  | [] => NaN
  | kept => fdiv_count (fsum kept) (length kept)
  end.

Definition first_label (s : Series) : option datetime :=
  match index s with
  | [] => None
  | k :: ks => Some (foldr Z.min k ks)
  end.

Definition last_label (s : Series) : option datetime :=
  match index s with
  | [] => None
  | k :: ks => Some (foldr Z.max k ks)
  end.

(** [series.resample(freq).mean()]: one bin per offset from the bin of
    the smallest label to the bin of the largest, each labelled by its
    left edge and holding the mean of the values that fall in it. *)
Definition resample_mean (freq : Freq) (s : Series) : Series :=
  match first_label s, last_label s with
  | Some lo, Some hi =>
      let w := offset freq in
      (λ i, let b := bin w lo + w * i in (b, nanmean (bin_values w b s)))
        <$> seqZ 0 ((bin w hi - bin w lo) / w + 1)
  | _, _ => []
  end.

(** [pd.date_range(start, end, freq=freq)], both ends included. *)
Definition date_range (start end_ : datetime) (freq : Freq) : list datetime :=
  (λ i, start + offset freq * i) <$> seqZ 0 ((end_ - start) / offset freq + 1).

(** [pd.Series(None, index=dates, dtype=float)]. *)
Definition null_series (dates : list datetime) : Series := (λ t, (t, NaN)) <$> dates.

(** The frequency of an index is a pandas offset.  A [Tick] (a number of
    days, hours, minutes, seconds or fractions of a second) is a fixed
    span of time, held here in nanoseconds; every other offset (months,
    business days, ...) follows the calendar.  [repr] is the text that
    formatting the offset gives, such as [<15 * Minutes>]. *)
Inductive DateOffset :=
| Tick (nanos : Z) (repr : string)
| CalendarOffset (repr : string).

Definition repr (o : DateOffset) : string :=
  match o with
  | Tick _ text => text
  | CalendarOffset text => text
  end.

(** [offset == 'D'] and [offset == 'H'], as pandas compares an offset
    with the name of a rule: the name is turned into its offset, two
    Ticks are equal when their spans are, and a calendar offset never
    equals a Tick.  So 24 hours or 1440 minutes equal ['D'], and 60
    minutes equal ['H']. *)
Definition offset_eq (o : DateOffset) (rule : Freq) : bool :=
  match o with
  | Tick nanos _ => nanos =? offset rule * 1000000000
  | CalendarOffset _ => false
  end.

(** An index without a frequency has [freq = None]. *)
Record DatetimeIndex := { values : list datetime; freq : option DateOffset }.

(** [index.freq == rule]; [None] equals no rule. *)
Definition freq_is (idx : DatetimeIndex) (rule : Freq) : bool :=
  match freq idx with
  | Some o => offset_eq o rule
  | None => false
  end.

(** [series[index]]: the values at the labels of [index]. *)
Definition select (s : Series) (idx : DatetimeIndex) : result Series :=
  for_append (λ t, match at_label t s with
                   | Some v => Ok (t, v)
                   | None => Raise (KeyError (strftime_YmdH t))
                   end)
             (values idx).

End Pandas.

(** ** [eemeter/weather/noaa.py] *)

Module NOAA.
Import Calendar Numeric Pandas.

(** One record of the client's answer: [day["date"]] or
    [hour["datetime"]], and [["temp_C"]]. *)
Record Reading := { date : datetime; temp_C : pyfloat }.

Inductive Request :=
| get_gsod_data (station : string) (year : Z)
| get_isd_data (station : string) (year : Z).

Global Instance Request_eq_dec : EqDecision Request.
Proof. solve_decision. Defined.

(** The client is a collaborator: its answer to a request may depend on
    the requests made before; an empty answer is a fetch without data. *)
Record NOAAClient := { respond : list Request → Request → list Reading }.

Inductive SourceClass := GSODWeatherSource | ISDWeatherSource.

Record NOAAWeatherSource := {
  cls : SourceClass;
  station : string;
  tempC : Series;
  _year_fetches_attempted : gset Z;
  cache_file : Series;
  client : NOAAClient;
  requests : list Request
}.

Definition set_tempC (self : NOAAWeatherSource) (s : Series) : NOAAWeatherSource :=
  {| cls := cls self; station := station self; tempC := s;
     _year_fetches_attempted := _year_fetches_attempted self;
     cache_file := cache_file self; client := client self;
     requests := requests self |}.

(** Modelled from the spec: [save_to_cache] belongs to
    [CachedWeatherSourceBase] (eemeter/weather/cache.py); the spec has
    [save(station_id, series)] overwrite the prior contents. *)
Definition save_to_cache (self : NOAAWeatherSource) : NOAAWeatherSource :=
  {| cls := cls self; station := station self; tempC := tempC self;
     _year_fetches_attempted := _year_fetches_attempted self;
     cache_file := tempC self; client := client self;
     requests := requests self |}.

Definition mark_attempted (self : NOAAWeatherSource) (year : Z) : NOAAWeatherSource :=
  {| cls := cls self; station := station self; tempC := tempC self;
     _year_fetches_attempted := {[ year ]} ∪ _year_fetches_attempted self;
     cache_file := cache_file self; client := client self;
     requests := requests self |}.

(** A call of a client method: the answer, and the request logged. *)
Definition call_client (self : NOAAWeatherSource) (r : Request)
    : list Reading * NOAAWeatherSource :=
  (respond (client self) (requests self) r,
   {| cls := cls self; station := station self; tempC := tempC self;
      _year_fetches_attempted := _year_fetches_attempted self;
      cache_file := cache_file self; client := client self;
      requests := requests self ++ [r] |}).

Definition freq_of (c : SourceClass) : Freq :=
  match c with GSODWeatherSource => D | ISDWeatherSource => H end.

(** The client method a class calls for a year, and the year of a request. *)
Definition request_for (c : SourceClass) (station_id : string) (year : Z) : Request :=
  match c with
  | GSODWeatherSource => get_gsod_data station_id year
  | ISDWeatherSource => get_isd_data station_id year
  end.

Definition request_year (r : Request) : Z :=
  match r with
  | get_gsod_data _ year => year
  | get_isd_data _ year => year
  end.

(** How many of the requests in a log ask for [year]. *)
Definition fetches_of (year : Z) (log : list Request) : nat :=
  length (filter (λ r, request_year r = year) log).

(** The timestamp that [year_existence_format.format(year)] names. *)
Definition year_existence (year : Z) : datetime := mk_datetime year 1 1 0.

Definition _year_fetch_attempted (self : NOAAWeatherSource) (year : Z) : bool :=
  bool_decide (year ∈ _year_fetches_attempted self).

Definition _year_in_series (self : NOAAWeatherSource) (year : Z) : bool :=
  contains (year_existence year) (tempC self).

Definition merge (freq : Freq) (series new_series : Series) : Series :=
  resample_mean freq (sort_index (append series new_series)).

Module GSOD.

Definition freq : Freq := D.

Definition _empty_series (year : Z) : Series :=
  null_series (date_range (mk_datetime year 1 1 0) (mk_datetime year 12 31 0) freq).

Definition add_year (self : NOAAWeatherSource) (year : Z) (force : bool)
    : NOAAWeatherSource :=
  if negb force && _year_fetch_attempted self year then
    if _year_in_series self year then self
    else
      let new_series := _empty_series year in
      save_to_cache (set_tempC self (merge freq (tempC self) new_series))
  else
    let '(data, self) := call_client self (get_gsod_data (station self) year) in
    let new_series :=
      foldl (λ new_series day,
               if negb (isnull (temp_C day))
               then setitem new_series (date day) (temp_C day)
               else new_series)
            (_empty_series year) data in
    let self := set_tempC self (merge freq (tempC self) new_series) in
    let self := save_to_cache self in
    mark_attempted self year.

End GSOD.

Module ISD.

Definition freq : Freq := H.

Definition _empty_series (year : Z) : Series :=
  null_series
    (removelast (date_range (mk_datetime year 1 1 0) (mk_datetime (year + 1) 1 1 0) freq)).

Definition add_year (self : NOAAWeatherSource) (year : Z) (force : bool)
    : NOAAWeatherSource :=
  if negb force && _year_fetch_attempted self year then
    if _year_in_series self year then self
    else
      let new_series := _empty_series year in
      save_to_cache (set_tempC self (merge freq (tempC self) new_series))
  else
    let '(data, self) := call_client self (get_isd_data (station self) year) in
    let new_series :=
      foldl (λ new_series hour,
               if negb (isnull (temp_C hour))
               then
                 let dt := date hour in
                 let new_dt := mk_datetime (Calendar.year dt) (Calendar.month dt)
                                           (Calendar.day dt) (Calendar.hour dt) in
                 setitem new_series new_dt (temp_C hour)
               else new_series)
            (_empty_series year) data in
    let self := set_tempC self (merge freq (tempC self) new_series) in
    let self := save_to_cache self in
    mark_attempted self year.

End ISD.

(** Method dispatch on the class of the object. *)
Definition add_year (self : NOAAWeatherSource) (year : Z) (force : bool)
    : NOAAWeatherSource :=
  match cls self with
  | GSODWeatherSource => GSOD.add_year self year force
  | ISDWeatherSource => ISD.add_year self year force
  end.

Definition _empty_series (c : SourceClass) (year : Z) : Series :=
  match c with
  | GSODWeatherSource => GSOD._empty_series year
  | ISDWeatherSource => ISD._empty_series year
  end.

Definition add_year_range (self : NOAAWeatherSource) (start_year end_year : Z)
    (force : bool) : NOAAWeatherSource :=
  foldl (λ self year, add_year self year force) self (range start_year (end_year + 1)).

(** [date.today()] is an input: a proleptic ordinal. *)
Definition _check_for_recent_data (self : NOAAWeatherSource) (today : Z)
    : NOAAWeatherSource :=
  let yesterday := today - 1 in
  let key := yesterday * 86400 in
  if contains key (tempC self)
     && from_option isnull false (at_label key (tempC self))
  then add_year self (_ord2ymd yesterday).1.1 true
  else self.

(** Modelled from the spec: the constructor of [CachedWeatherSourceBase]
    (eemeter/weather/cache.py) restores the series from the cache,
    [load(station_id) -> TemperatureSeries or empty]; [cached] is what it
    restores. *)
Definition restored (c : SourceClass) (station_id : string) (cached : Series)
    (noaa : NOAAClient) (history : list Request) : NOAAWeatherSource :=
  {| cls := c; station := station_id; tempC := cached;
     _year_fetches_attempted := ∅; cache_file := cached;
     client := noaa; requests := history |}.

(** The constructor up to, and without, its last statement. *)
Definition init_years (c : SourceClass) (station_id : string)
    (start_year end_year : option Z) (cached : Series)
    (noaa : NOAAClient) (history : list Request) (today : Z)
    : NOAAWeatherSource :=
  let self := restored c station_id cached noaa history in
  match start_year, end_year with
  | Some start_year, Some end_year => add_year_range self start_year end_year false
  | Some start_year, None => add_year_range self start_year (_ord2ymd today).1.1 false
  | None, Some end_year => add_year_range self (_ord2ymd today).1.1 end_year false
  | None, None => self
  end.

Definition __init__ (c : SourceClass) (station_id : string)
    (start_year end_year : option Z) (cached : Series)
    (noaa : NOAAClient) (history : list Request) (today : Z)
    : NOAAWeatherSource :=
  let self := init_years c station_id start_year end_year cached noaa history today in
  _check_for_recent_data self today.

Definition _verify_index_presence (self : NOAAWeatherSource) (idx : DatetimeIndex)
    : NOAAWeatherSource :=
  match values idx with
  | [] => self
  | _ =>
      let years := remove_dups (Calendar.year <$> values idx) in
      foldl (λ self year, add_year self year false) self years
  end.

(** Modelled from the spec: [_unit_convert] belongs to
    [CachedWeatherSourceBase] (eemeter/weather/cache.py); the series is
    kept in degC and converted to the unit named. *)
Definition _unit_convert (x : Series) (unit : string) : result Series :=
  u ← parse_expression unit;
  Ok ((λ e, (e.1, magnitude (to (Q_ e.2 degC) u))) <$> x).

Definition _daily_indexed_temperatures (self : NOAAWeatherSource)
    (idx : DatetimeIndex) (unit : string) : result Series :=
  tempC ← select (resample_mean D (tempC self)) idx;
  _unit_convert tempC unit.

Definition dquote : string := String (Ascii.ascii_of_nat 34) EmptyString.

(** ["{}".format(index.freq)]. *)
Definition format_freq (f : option DateOffset) : string :=
  match f with
  | Some o => repr o
  | None => "None"
  end.

Definition _hourly_indexed_temperatures (self : NOAAWeatherSource)
    (idx : DatetimeIndex) (unit : string) : result Series :=
  match cls self with
  | GSODWeatherSource =>
      Raise (ValueError
        ("DatetimeIndex frequency " +:+ dquote +:+ "H" +:+ dquote
         +:+ " not supported, please resample to at least daily frequency ("
         +:+ dquote +:+ "D" +:+ dquote +:+ ")."))
  | ISDWeatherSource =>
      tempC ← select (resample_mean H (tempC self)) idx;
      _unit_convert tempC unit
  end.

Definition indexed_temperatures (self : NOAAWeatherSource)
    (idx : DatetimeIndex) (unit : string)
    : NOAAWeatherSource * result Series :=
  let self := _verify_index_presence self idx in
  (self,
   if freq_is idx D
   then _daily_indexed_temperatures self idx unit
   else if freq_is idx H
   then _hourly_indexed_temperatures self idx unit
   else Raise (ValueError
          ("DatetimeIndex frequency " +:+ dquote +:+ format_freq (Pandas.freq idx)
           +:+ dquote +:+ " not supported, please resample."))).

(** The values of a list of floats that are not [nan]. *)
Definition known_values (vs : list pyfloat) : list Qc :=
  omap (λ v, match v with Num q => Some q | NaN => None end) vs.

(** A stored series and a batch agree when, in every bin in which each
    of them holds a value, their two bin means are equal. *)
Definition agree (freq : Freq) (series batch : Series) : Prop :=
  ∀ b x y,
    nanmean (bin_values (offset freq) b series) = Num x →
    nanmean (bin_values (offset freq) b batch) = Num y →
    x = y.

(** The timestamps of a year at the native frequency of a class. *)
Definition native_timestamp (c : SourceClass) (year : Z) (t : datetime) : Prop :=
  Calendar.year t = year ∧ bin (offset (freq_of c)) t = t.

(** A series whose labels all sit on the native frequency of a class. *)
Definition aligned (c : SourceClass) (s : Series) : Prop :=
  ∀ t, t ∈ index s → bin (offset (freq_of c)) t = t.

(** What the operations keep true of a source: its labels sit on the
    native frequency, and the series holds every native timestamp of
    every year in the set of attempted years. *)
Definition series_invariant (self : NOAAWeatherSource) : Prop :=
  aligned (cls self) (tempC self)
  ∧ ∀ year, year ∈ _year_fetches_attempted self →
      ∀ t, native_timestamp (cls self) year t → t ∈ index (tempC self).

(** The operations that touch a source after its series was restored. *)
Inductive operation :=
| op_add_year (year : Z) (force : bool)
| op_add_year_range (start_year end_year : Z) (force : bool)
| op_check_for_recent_data (today : Z)
| op_indexed_temperatures (idx : DatetimeIndex) (unit : string).

Definition perform (op : operation) (self : NOAAWeatherSource) : NOAAWeatherSource :=
  match op with
  | op_add_year year force => add_year self year force
  | op_add_year_range start_year end_year force =>
      add_year_range self start_year end_year force
  | op_check_for_recent_data today => _check_for_recent_data self today
  | op_indexed_temperatures idx unit => (indexed_temperatures self idx unit).1
  end.

(** The states of a source: restored from a cache whose labels sit on the
    native frequency, then any sequence of operations. *)
Inductive reachable : NOAAWeatherSource → Prop :=
| reachable_restored c station_id cached noaa history :
    aligned c cached → reachable (restored c station_id cached noaa history)
| reachable_perform self op :
    reachable self → reachable (perform op self).

End NOAA.

Module LegacyExamples.
Import Calendar Numeric Legacy.

Definition jan1_2020 : datetime := mk_datetime 2020 1 1 0.

Definition two_days : Consumption :=
  {| start := jan1_2020; timedelta := {| days := 2; seconds := 0 |} |}.

Definition one_day : Consumption :=
  {| start := jan1_2020; timedelta := {| days := 1; seconds := 0 |} |}.

Definition gsod_10_20 : GSODWeatherSource.t :=
  {| GSODWeatherSource._data :=
       <["20200101" := Q_ (Num (Qc_of_Z 10)) degC]>
         (<["20200102" := Q_ (Num (Qc_of_Z 20)) degC]> ∅);
     GSODWeatherSource._source_unit := degC |}.

Definition gsod_no_data : GSODWeatherSource.t :=
  {| GSODWeatherSource._data := ∅; GSODWeatherSource._source_unit := degF |}.

Definition isd_no_data : ISDWeatherSource.t :=
  {| ISDWeatherSource._data := ∅; ISDWeatherSource._source_unit := degC |}.



End LegacyExamples.

Module NOAAExamples.
Import Calendar Numeric Pandas NOAA.

(** A client without data for any station or year. *)
Definition silent_client : NOAAClient := {| respond := λ _ _, [] |}.

Definition gsod_fresh : NOAAWeatherSource :=
  restored GSODWeatherSource "725300" [] silent_client [].

Definition index_15min : DatetimeIndex :=
  {| values := [mk_datetime 2020 1 1 0; mk_datetime 2020 1 1 0 + 900];
     freq := Some (Tick 900000000000 "<15 * Minutes>") |}.

(** A daily index of two days, and an hourly index of two hours. *)
Definition index_two_days : DatetimeIndex :=
  {| values := [mk_datetime 2020 1 1 0; mk_datetime 2020 1 2 0];
     freq := Some (Tick 86400000000000 "<Day>") |}.

Definition index_two_hours : DatetimeIndex :=
  {| values := [mk_datetime 2020 1 1 0; mk_datetime 2020 1 1 1];
     freq := Some (Tick 3600000000000 "<Hour>") |}.

Definition isd_fresh : NOAAWeatherSource :=
  restored ISDWeatherSource "725300" [] silent_client [].

(** An index of two irregular timestamps, which has no frequency, and an
    index of two days that was built with a frequency of 24 hours. *)
Definition index_without_freq : DatetimeIndex :=
  {| values := [mk_datetime 2020 1 1 0; mk_datetime 2020 1 1 5]; freq := None |}.

Definition index_24_hours : DatetimeIndex :=
  {| values := [mk_datetime 2020 1 1 0; mk_datetime 2020 1 2 0];
     freq := Some (Tick 86400000000000 "<24 * Hours>") |}.

Definition jan1_2021 : Z := _ymd2ord 2021 1 1.

(** A cached series whose only entry is 31 December 2020, without a value. *)
Definition cached_dec31_null : Series := [(mk_datetime 2020 12 31 0, NaN)].

Definition jan1_2020 : datetime := mk_datetime 2020 1 1 0.

Definition ten : pyfloat := Num (Qc_of_Z 10).
Definition twenty : pyfloat := Num (Qc_of_Z 20).

(** A client that reports 20 degC for 1 January 2020, whatever is asked. *)
Definition client_20 : NOAAClient :=
  {| respond := λ _ _, [ {| date := jan1_2020; temp_C := twenty |} ] |}.

(** A source with an empty series in front of that client. *)
Definition gsod_fresh_20 : NOAAWeatherSource :=
  restored GSODWeatherSource "725300" [] client_20 [].

(** A source restored from a cache that holds 10 degC on that day. *)
Definition gsod_holding_10 : NOAAWeatherSource :=
  restored GSODWeatherSource "725300" [(jan1_2020, ten)] client_20 [].

Definition jan2_2020 : datetime := mk_datetime 2020 1 2 0.

(** A client whose only reading, for 2 January 2020, has no value: what
    the client makes of a sentinel in the file of the station. *)
Definition client_sentinel : NOAAClient :=
  {| respond := λ _ _, [ {| date := jan2_2020; temp_C := NaN |} ] |}.

Definition gsod_fresh_sentinel : NOAAWeatherSource :=
  restored GSODWeatherSource "725300" [] client_sentinel [].



(** A source after [add_year(2020)] whose attribute [tempC] was then
    assigned from outside: 2020 is among the attempted years, and the
    series holds 1 January 2021 only. *)
Definition gsod_assigned : NOAAWeatherSource :=
  {| cls := GSODWeatherSource; station := "725300";
     tempC := [(mk_datetime 2021 1 1 0, ten)];
     _year_fetches_attempted := {[ 2020 ]}; cache_file := [];
     client := client_20; requests := [] |}.

End NOAAExamples.

(** ** Further notions about the NOAA sources *)

Module NOAAFacts.
Import Calendar Numeric Pandas NOAA.

(** The label under which a class files a reading of the client. *)
Definition reading_label (c : SourceClass) (r : Reading) : datetime :=
  match c with
  | GSODWeatherSource => date r
  | ISDWeatherSource =>
      mk_datetime (Calendar.year (date r)) (Calendar.month (date r))
                  (Calendar.day (date r)) (Calendar.hour (date r))
  end.

(** The answer of the client to the request [add_year] makes from [self]. *)
Definition fetched (self : NOAAWeatherSource) (year : Z) : list Reading :=
  respond (client self) (requests self)
          (request_for (cls self) (station self) year).

(** The loop of [add_year] over the answer of the client: each reading
    with a value is written into the new series at its label. *)
Definition fill (c : SourceClass) (new_series : Series) (data : list Reading) : Series :=
  foldl (λ new_series r,
           if negb (isnull (temp_C r))
           then setitem new_series (reading_label c r) (temp_C r)
           else new_series)
        new_series data.

(** A series whose labels are [lo], [lo + offset], [lo + 2 * offset], ...
    from a label [lo] on the grid: ascending, without repeats or gaps. *)
Definition contiguous (f : Freq) (s : Series) : Prop :=
  ∃ lo n, bin (offset f) lo = lo
          ∧ index s = (λ i, lo + offset f * i) <$> seqZ 0 n.

(** The years the constructor adds, from its two optional arguments. *)
Definition init_range (start_year end_year : option Z) (today : Z) : list Z :=
  match start_year, end_year with
  | Some start_year, Some end_year => range start_year (end_year + 1)
  | Some start_year, None => range start_year ((_ord2ymd today).1.1 + 1)
  | None, Some end_year => range (_ord2ymd today).1.1 (end_year + 1)
  | None, None => []
  end.

End NOAAFacts.

(** ** The remaining sources and the file readers of [eemeter/weather.py] *)

Module LegacyFiles.
Import Calendar Numeric Legacy.

(** [t.strftime("%m%d%H")]. *)
Definition strftime_mdH (t : datetime) : string :=
  pad2 (month t) +:+ pad2 (day t) +:+ pad2 (hour t).

Module TMY3WeatherSource.

Record t := {
  station_id : string;
  _data : gmap string Quantity;
  _source_unit : Unit
}.

(** Normal-year data: the key of an hour leaves the year out. *)
Definition get_consumption_average_temperature (self : t)
    (consumption : Consumption) (unit : Unit) : result npscalar :=
  let null := Q_ NaN (_source_unit self) in
  let n_hours := Calendar.days (timedelta consumption) * 24
                 + Calendar.seconds (timedelta consumption) / 3600 in
  avg_temps ←
    for_append (λ hours,
        let hour := add_seconds (start consumption) (hours * 3600) in
        let hourly :=
          magnitude (to (default null (_data self !! strftime_mdH hour)) unit) in
        Ok hourly)
      (xrange n_hours);
  Ok (masked_nan_mean avg_temps).

End TMY3WeatherSource.

Module WeatherUndergroundWeatherSource.

Record t := { _data : gmap string (gmap string Quantity) }.

(** Resolution limit: daily.  Both subscripts raise [KeyError]: the day
    that is not in the dict, and the day without a ["meantempi"] entry. *)
Definition get_consumption_average_temperature (self : t)
    (consumption : Consumption) (unit : Unit) : result npscalar :=
  avg_temps ←
    for_append (λ days,
        let date_string := strftime_Ymd (add_days (start consumption) days) in
        match _data self !! date_string with
        | Some day =>
            match day !! "meantempi"%string with
            | Some temp => Ok (magnitude (to temp unit))
            | None => Raise (KeyError "meantempi")
            end
        | None => Raise (KeyError date_string)
        end)
      (xrange (Calendar.days (timedelta consumption)));
  Ok (Float (np_mean avg_temps)).

End WeatherUndergroundWeatherSource.

Global Instance TMY3_WeatherSource : WeatherSourceBase TMY3WeatherSource.t :=
  {| Legacy.get_consumption_average_temperature :=
       TMY3WeatherSource.get_consumption_average_temperature |}.

Global Instance WeatherUnderground_WeatherSource :
    WeatherSourceBase WeatherUndergroundWeatherSource.t :=
  {| Legacy.get_consumption_average_temperature :=
       WeatherUndergroundWeatherSource.get_consumption_average_temperature |}.

(** The hours the normal-year source reads for one consumption, as keys. *)
Definition tmy3_keys (consumption : Consumption) : list string :=
  (λ h, strftime_mdH (add_seconds (start consumption) (h * 3600)))
    <$> xrange (Calendar.days (timedelta consumption) * 24
                + Calendar.seconds (timedelta consumption) / 3600).

(** The known values among the entries of a dict at a list of keys, each
    with its unit: absent keys and [nan] magnitudes are left out. *)
Definition known_temperatures (data : gmap string Quantity) (keys : list string)
    : list (Qc * Unit) :=
  omap (λ key,
          match data !! key with
          | Some (Q_ (Num x) u) => Some (x, u)
          | _ => None
          end) keys.

(** The dict of daily means that a Weather Underground source holds. *)
Definition meantempi (data : gmap string (gmap string Quantity))
    : gmap string Quantity :=
  omap (λ day : gmap string Quantity, day !! "meantempi"%string) data.

(** *** Reading the files *)

(** [s[i:j]] for [0 <= i <= j]: the slice stops at the end of [s]. *)
Definition slice (s : string) (i j : nat) : string :=
  String.substring i (j - i) s.

(** [str.split()]: the maximal runs of characters that are not
    whitespace. *)
Definition isspace (a : Ascii.ascii) : bool :=
  bool_decide (Ascii.nat_of_ascii a ∈ [9; 10; 11; 12; 13; 32]%nat).

Fixpoint split_from (word : option string) (s : string) : list string :=
  match s with
  | EmptyString => option_list word
  | String a s' =>
      if isspace a then option_list word ++ split_from None s'
      else split_from (Some (default EmptyString word +:+ String a EmptyString)) s'
  end.

Definition split (s : string) : list string := split_from None s.

(** [str.split(sep)] for a separator of one character: the fields
    between the separators, empty ones included. *)
Fixpoint split_at_from (sep : Ascii.ascii) (field : string) (s : string)
    : list string :=
  match s with
  | EmptyString => [field]
  | String a s' =>
      if Ascii.eqb a sep then field :: split_at_from sep EmptyString s'
      else split_at_from sep (field +:+ String a EmptyString) s'
  end.

Definition split_at (sep : Ascii.ascii) (s : string) : list string :=
  split_at_from sep EmptyString s.

Definition comma : Ascii.ascii := Ascii.ascii_of_nat 44.

(** [x / 10] on floats. *)
Definition fdiv10 (x : pyfloat) : pyfloat :=
  match x with
  | Num q => Num (q / Qc_of_Z 10)%Qc
  | NaN => NaN
  end.

(** What stops a reader: a subscript out of range, or an exception of
    the kinds above. *)
Inductive interruption :=
| IndexError
| Exception (e : exception).

(** A [for] loop over the lines of a file that updates the object in
    place: at the first line that raises, the loop stops and the object
    keeps what the lines before have stored. *)
Fixpoint for_lines {Source} (body : Source → string → Source * option interruption)
    (self : Source) (lines : list string) : Source * option interruption :=
  match lines with
  | [] => (self, None)
  | line :: lines' =>
      match body self line with
      | (self, None) => for_lines body self lines'
      | stopped => stopped
      end
  end.

Module ISDFile.
Section Reader.

(** The builtin [float] on strings, which returns a float or raises. *)
Variable float : string → result pyfloat.

(** The body of the loop of [ISDWeatherSource._add_file]. *)
Definition _add_line (self : ISDWeatherSource.t) (line : string)
    : ISDWeatherSource.t * option interruption :=
  match float (slice line 87 92) with
  | Raise e => (self, Some (Exception e))
  | Ok x =>
      let air_temperature := Q_ (fdiv10 x) (ISDWeatherSource._source_unit self) in
      let air_temperature :=
        if String.eqb (slice line 87 92) "+9999"
        then Q_ NaN (ISDWeatherSource._source_unit self)
        else air_temperature in
      ({| ISDWeatherSource._data :=
            <[slice line 15 25 := air_temperature]> (ISDWeatherSource._data self);
          ISDWeatherSource._source_unit := ISDWeatherSource._source_unit self |},
       None)
  end.

Definition _add_file (self : ISDWeatherSource.t) (lines : list string)
    : ISDWeatherSource.t * option interruption :=
  for_lines _add_line self lines.

End Reader.
End ISDFile.

Module GSODFile.
Section Reader.

Variable float : string → result pyfloat.

(** The body of the loop of [GSODWeatherSource._add_file]: the right-hand
    side of the assignment is evaluated before the subscript of its
    target. *)
Definition _add_line (self : GSODWeatherSource.t) (line : string)
    : GSODWeatherSource.t * option interruption :=
  let columns := split line in
  match columns !! 3%nat with
  | None => (self, Some IndexError)
  | Some column =>
      match float column with
      | Raise e => (self, Some (Exception e))
      | Ok x =>
          match columns !! 2%nat with
          | None => (self, Some IndexError)
          | Some key =>
              ({| GSODWeatherSource._data :=
                    <[key := Q_ x (GSODWeatherSource._source_unit self)]>
                      (GSODWeatherSource._data self);
                  GSODWeatherSource._source_unit :=
                    GSODWeatherSource._source_unit self |},
               None)
          end
      end
  end.

(** The first line of the file is its header. *)
Definition _add_file (self : GSODWeatherSource.t) (lines : list string)
    : GSODWeatherSource.t * option interruption :=
  for_lines _add_line self (drop 1 lines).

End Reader.
End GSODFile.

(** [row[0][0:2] + row[0][3:5] + row[1][0:2]], the month, day and hour
    of a row of a TMY3 file. *)
Definition date_string (row : list string) : option string :=
  row0 ← row !! 0%nat;
  row1 ← row !! 1%nat;
  Some (slice row0 0 2 +:+ slice row0 3 5 +:+ slice row1 0 2).

Module TMY3File.
Section Reader.

Variable float : string → result pyfloat.

(** The body of the loop of [TMY3WeatherSource.__init__]. *)
Definition _add_line (self : TMY3WeatherSource.t) (line : string)
    : TMY3WeatherSource.t * option interruption :=
  let row := split_at comma line in
  match date_string row with
  | None => (self, Some IndexError)
  | Some date_string =>
      match row !! 31%nat with
      | None => (self, Some IndexError)
      | Some column =>
          match float column with
          | Raise e => (self, Some (Exception e))
          | Ok x =>
              ({| TMY3WeatherSource.station_id := TMY3WeatherSource.station_id self;
                  TMY3WeatherSource._data :=
                    <[date_string := Q_ x (TMY3WeatherSource._source_unit self)]>
                      (TMY3WeatherSource._data self);
                  TMY3WeatherSource._source_unit :=
                    TMY3WeatherSource._source_unit self |},
               None)
          end
      end
  end.

(** The constructor over the lines of the file of the station: the
    first three lines are skipped, and an exception of the loop leaves
    no object. *)
Definition __init__ (station_id : string) (lines : list string)
    : TMY3WeatherSource.t + interruption :=
  let self := {| TMY3WeatherSource.station_id := station_id;
                 TMY3WeatherSource._data := ∅;
                 TMY3WeatherSource._source_unit := degC |} in
  let lines := drop 2 lines in
  match for_lines _add_line self (drop 1 lines) with
  | (self, None) => inl self
  | (_, Some stopped) => inr stopped
  end.

End Reader.
End TMY3File.

End LegacyFiles.

Module LegacyFilesExamples.
Import Calendar Numeric Legacy LegacyFiles LegacyExamples.

Definition three_days : Consumption :=
  {| start := jan1_2020; timedelta := {| days := 3; seconds := 0 |} |}.

(** A consumption of half an hour. *)
Definition half_hour : Consumption :=
  {| start := jan1_2020; timedelta := {| days := 0; seconds := 1800 |} |}.

(** The daily source of 10 and 20 degC asked for two days, then three. *)
Definition history_beyond_data : ConsumptionHistory :=
  {| get := λ _, [two_days; three_days] |}.

(** A daily source that holds 10 degC on one day and [nan] on the next. *)
Definition gsod_10_nan : GSODWeatherSource.t :=
  {| GSODWeatherSource._data :=
       <["20200101" := Q_ (Num (Qc_of_Z 10)) degC]>
         (<["20200102" := Q_ NaN degC]> ∅);
     GSODWeatherSource._source_unit := degC |}.

Definition wunderground_50 : WeatherUndergroundWeatherSource.t :=
  {| WeatherUndergroundWeatherSource._data :=
       {[ "20200101" := {[ "meantempi" := Q_ (Num (Qc_of_Z 50)) degF ]} ]} |}.

Definition tmy3_no_data : TMY3WeatherSource.t :=
  {| TMY3WeatherSource.station_id := "725300";
     TMY3WeatherSource._data := ∅;
     TMY3WeatherSource._source_unit := degC |}.

(** The values of [float] on the fields of the sample lines below; the
    empty string and anything else is rejected. *)
Definition sample_float (s : string) : result pyfloat :=
  if String.eqb s "+0215" then Ok (Num (Qc_of_Z 215))
  else if String.eqb s "+9999" then Ok (Num (Qc_of_Z 9999))
  else if String.eqb s "50.0" then Ok (Num (Qc_of_Z 50))
  else if String.eqb s "9999.9" then Ok (Num (Q2Qc (99999 # 10)))
  else Raise (ValueError ("could not convert string to float: " +:+ s)).

Fixpoint zeros (n : nat) : string :=
  match n with
  | O => EmptyString
  | S n => String (digit 0) (zeros n)
  end.

(** An ISD line with the given date and hour at columns 15 to 24 and the
    given air temperature at columns 87 to 91. *)
Definition isd_line (key field : string) : string :=
  zeros 15 +:+ key +:+ zeros 62 +:+ field +:+ "1".

(** A row of a TMY3 file: date, time, 29 further fields, and the
    dry-bulb temperature as the field of index 31. *)
Fixpoint fields (n : nat) : string :=
  match n with
  | O => EmptyString
  | S n => "0," +:+ fields n
  end.

Definition tmy3_row (date time field : string) : string :=
  date +:+ "," +:+ time +:+ "," +:+ fields 29 +:+ field +:+ ",0".

(** One o'clock on 1 January 2020, and the hour that starts then. *)
Definition jan1_2020_1h : datetime := mk_datetime 2020 1 1 1.

Definition gsod_header : string :=
  "STN--- WBAN   YEARMODA    TEMP       DEWP".

Definition gsod_row (key field : string) : string :=
  "725300 94846  " +:+ key +:+ "    " +:+ field +:+ " 24    40.1 24".

End LegacyFilesExamples.

Import Calendar Numeric.

(** Closed equations between computed values: evaluate both sides, then
    compare the rationals by their canonical fractions. *)
Ltac qc_eval :=
  vm_compute;
  repeat (first [ reflexivity
                | apply Qc_is_canon; reflexivity
                | f_equal ]).

Example strftime_jan1 : strftime_YmdH LegacyExamples.jan1_2020 = "2020010100"%string.
Proof. vm_compute. reflexivity. Qed.

Example gsod_two_days_59F :
  Legacy.get_consumption_average_temperature
    LegacyExamples.gsod_10_20 LegacyExamples.two_days degF
  = Ok (Float (Num (Qc_of_Z 59))).
Proof. qc_eval. Qed.

(** An index built with a frequency of 24 hours is a daily index for
    [indexed_temperatures], and one of 15 minutes is neither daily nor
    hourly. *)
Example frequency_of_24_hours_is_daily :
  Pandas.freq_is NOAAExamples.index_24_hours Pandas.D = true
  ∧ Pandas.freq_is NOAAExamples.index_15min Pandas.D = false
  ∧ Pandas.freq_is NOAAExamples.index_15min Pandas.H = false.
Proof. by repeat split. Qed.

(** * Properties of [eemeter/weather.py] *)

Section LegacyProperties.
Import Legacy.

Lemma for_append_ok {A B} (body : A → result B) (f : A → B) (l : list A) :
  (∀ a, a ∈ l → body a = Ok (f a)) → for_append body l = Ok (f <$> l).
Proof.
  induction l as [|a l IH]; intros Hbody; [reflexivity|].
  cbn [for_append]. rewrite (Hbody a) by left.
  rewrite IH by (intros; apply Hbody; by right). reflexivity.
Qed.

Lemma for_append_Forall2 {A B} (body : A → result B) (l : list A) (bs : list B) :
  Forall2 (λ a b, body a = Ok b) l bs → for_append body l = Ok bs.
Proof.
  induction 1 as [|a b l bs Hab _ IH]; [reflexivity|].
  cbn [for_append]. rewrite Hab, IH. reflexivity.
Qed.


Lemma fsum_Num (qs : list Qc) :
  fsum (Num <$> qs) = Num (foldr Qcplus 0%Qc qs).
Proof.
  induction qs as [|q qs IH]; [reflexivity|].
  cbn [fmap list_fmap]. unfold fsum in *. cbn [foldr]. rewrite IH. reflexivity.
Qed.

Lemma np_mean_Num (qs : list Qc) :
  qs ≠ [] → np_mean (Num <$> qs) = Num (arithmetic_mean qs).
Proof.
  intros Hne. unfold np_mean, arithmetic_mean.
  rewrite fsum_Num, length_fmap.
  destruct qs; [done|]. reflexivity.
Qed.

Lemma unmasked_Num (qs : list Qc) : unmasked (Num <$> qs) = Num <$> qs.
Proof.
  unfold unmasked. induction qs as [|q qs IH]; [reflexivity|].
  cbn [fmap list_fmap]. rewrite filter_cons_True by reflexivity.
  f_equal. exact IH.
Qed.

Lemma masked_nan_mean_Num (qs : list Qc) :
  qs ≠ [] → masked_nan_mean (Num <$> qs) = Float (Num (arithmetic_mean qs)).
Proof.
  intros Hne. unfold masked_nan_mean. rewrite unmasked_Num.
  pose proof (fsum_Num qs) as Hsum. pose proof (length_fmap Num qs) as Hlen.
  destruct qs as [|q qs]; [done|].
  cbn [fmap list_fmap] in *. rewrite Hsum, Hlen. reflexivity.
Qed.

Lemma unmasked_all_nan (data : list pyfloat) :
  Forall (λ x, x = NaN) data → unmasked data = [].
Proof.
  unfold unmasked. induction 1 as [|x l -> _ IH]; [reflexivity|].
  rewrite filter_cons_False by (cbn; discriminate). exact IH.
Qed.

Lemma fsum_all_nan (data : list pyfloat) :
  data ≠ [] → Forall (λ x, x = NaN) data → fsum data = NaN.
Proof.
  intros Hne Hall. destruct Hall as [|x l -> _]; [done|]. reflexivity.
Qed.

Lemma np_mean_all_nan (data : list pyfloat) :
  Forall (λ x, x = NaN) data → np_mean data = NaN.
Proof.
  intros Hall. unfold np_mean. destruct data as [|x l]; [reflexivity|].
  rewrite fsum_all_nan; [reflexivity | done | done].
Qed.

(** The affine conversion commutes with the mean of a non-empty list. *)
Lemma Qc_of_nat_pos (n : nat) : Qc_of_Z (Z.of_nat (S n)) ≠ 0%Qc.
Proof.
  rewrite <- Z2Qc_inj_0. intros H%Z2Qc_inj. lia.
Qed.

Lemma Qc_of_nat_S (n : nat) :
  Qc_of_Z (Z.of_nat (S n)) = (1 + Qc_of_Z (Z.of_nat n))%Qc.
Proof.
  rewrite Nat2Z.inj_succ, <- Z.add_1_l, Z2Qc_inj_add, Z2Qc_inj_1. reflexivity.
Qed.

Lemma sum_convert (u unit : Unit) (qs : list Qc) :
  foldr Qcplus 0%Qc (convert u unit <$> qs)
  = (convert u unit (foldr Qcplus 0%Qc qs)
     + (Qc_of_Z (Z.of_nat (length qs)) - 1) * convert u unit 0)%Qc.
Proof.
  induction qs as [|q qs IH].
  - cbn [fmap list_fmap foldr length]. change (Z.of_nat 0) with 0.
    rewrite Z2Qc_inj_0. ring.
  - cbn [fmap list_fmap foldr length]. rewrite IH, Qc_of_nat_S.
    destruct u, unit; cbn [convert]; ring.
Qed.

Lemma convert_arithmetic_mean (u unit : Unit) (qs : list Qc) :
  qs ≠ [] →
  arithmetic_mean (convert u unit <$> qs) = convert u unit (arithmetic_mean qs).
Proof.
  intros Hne. unfold arithmetic_mean. rewrite sum_convert, length_fmap.
  destruct qs as [|q qs]; [done|].
  pose proof (Qc_of_nat_pos (length qs)) as Hpos.
  cbn [length]. set (n := Qc_of_Z (Z.of_nat (S (length qs)))) in *.
  set (s := foldr Qcplus 0%Qc (q :: qs)).
  destruct u, unit; cbn [convert]; field; exact Hpos.
Qed.

Lemma gsod_loop_known (self : GSODWeatherSource.t) (c : Consumption) (unit : Unit)
    (l : list Z) (temps : list (Qc * Unit)) :
  Forall2 (known_at (GSODWeatherSource._data self))
          ((λ d, strftime_Ymd (add_days (start c) d)) <$> l) temps →
  for_append (λ days,
      let key := strftime_Ymd (add_days (start c) days) in
      match GSODWeatherSource._data self !! key with
      | Some temp => Ok (magnitude (to temp unit))
      | None => Raise (KeyError key)
      end) l
  = Ok (Num <$> ((λ v, convert v.2 unit v.1) <$> temps)).
Proof.
  intros Hall. apply for_append_Forall2.
  rewrite Forall2_fmap_l in Hall. rewrite !Forall2_fmap_r.
  eapply Forall2_impl; [exact Hall|].
  intros d [v u] Hk. unfold known_at in Hk. cbn in Hk |- *.
  rewrite Hk. reflexivity.
Qed.

Lemma isd_loop_known (self : ISDWeatherSource.t) (c : Consumption) (unit : Unit)
    (l : list Z) (temps : list (Qc * Unit)) :
  Forall2 (known_at (ISDWeatherSource._data self))
          ((λ h, strftime_YmdH (add_seconds (start c) (h * 3600))) <$> l) temps →
  for_append (λ hours,
      let hour := add_seconds (start c) (hours * 3600) in
      let hourly :=
        magnitude (to (default (Q_ NaN (ISDWeatherSource._source_unit self))
                         (ISDWeatherSource._data self !! strftime_YmdH hour)) unit) in
      Ok hourly) l
  = Ok (Num <$> ((λ v, convert v.2 unit v.1) <$> temps)).
Proof.
  intros Hall. apply for_append_Forall2.
  rewrite Forall2_fmap_l in Hall. rewrite !Forall2_fmap_r.
  eapply Forall2_impl; [exact Hall|].
  intros d [v u] Hk. unfold known_at in Hk. cbn in Hk |- *.
  rewrite Hk. reflexivity.
Qed.

Lemma isd_loop_null (self : ISDWeatherSource.t) (c : Consumption) (unit : Unit)
    (l : list Z) :
  Forall (null_at (ISDWeatherSource._data self))
         ((λ h, strftime_YmdH (add_seconds (start c) (h * 3600))) <$> l) →
  for_append (λ hours,
      let hour := add_seconds (start c) (hours * 3600) in
      let hourly :=
        magnitude (to (default (Q_ NaN (ISDWeatherSource._source_unit self))
                         (ISDWeatherSource._data self !! strftime_YmdH hour)) unit) in
      Ok hourly) l
  = Ok ((λ _, NaN) <$> l).
Proof.
  intros Hall. apply for_append_ok. intros h Hh.
  rewrite Forall_fmap, Forall_forall in Hall.
  destruct (Hall h Hh) as [Hnone | [u Hnan]].
  - cbn in Hnone |- *. rewrite Hnone. reflexivity.
  - cbn in Hnan |- *. rewrite Hnan. reflexivity.
Qed.

(** The hourly source answers an interval without a single known value
    with the [masked] constant, and raises nothing. *)
Lemma isd_all_null_is_masked (self : ISDWeatherSource.t) (c : Consumption) (unit : Unit) :
  Forall (null_at (ISDWeatherSource._data self)) (isd_keys c) →
  ISDWeatherSource.get_consumption_average_temperature self c unit = Ok masked.
Proof.
  intros Hall. unfold ISDWeatherSource.get_consumption_average_temperature.
  cbv zeta. unfold isd_keys in Hall. rewrite (isd_loop_null _ _ _ _ Hall).
  cbn [mbind result_bind]. f_equal. unfold masked_nan_mean.
  rewrite unmasked_all_nan; [reflexivity|].
  rewrite Forall_fmap. apply Forall_true. reflexivity.
Qed.

(** The daily source answers [nan] when every day of the interval is in
    the dict with a [nan] magnitude. *)
Lemma gsod_all_nan_is_nan (self : GSODWeatherSource.t) (c : Consumption) (unit : Unit) :
  Forall (λ key, ∃ u, GSODWeatherSource._data self !! key = Some (Q_ NaN u))
         (gsod_keys c) →
  GSODWeatherSource.get_consumption_average_temperature self c unit = Ok (Float NaN).
Proof.
  intros Hall. unfold GSODWeatherSource.get_consumption_average_temperature.
  unfold gsod_keys in Hall. rewrite Forall_fmap, Forall_forall in Hall.
  rewrite (for_append_ok _ (λ _, NaN)).
  - cbn [mbind result_bind]. do 2 f_equal. apply np_mean_all_nan.
    rewrite Forall_fmap. apply Forall_true. reflexivity.
  - intros d Hd. destruct (Hall d Hd) as [u Hu]. cbn in Hu |- *.
    rewrite Hu. reflexivity.
Qed.

End LegacyProperties.

Section LegacyClaims.
Import Legacy LegacyExamples.

(** C1.  When every sub-period of a consumption (each day for the GSOD
    source, each hour for the ISD source) is in the dict with a known
    value, [get_consumption_average_temperature] returns the arithmetic
    mean of those values converted to the target unit; when the values
    share one unit this is also the conversion of their mean. *)
Theorem average_temperature_is_arithmetic_mean
    (s : NOAASource) (c : Consumption) (unit : Unit) (temps : list (Qc * Unit)) :
  temps ≠ [] →
  Forall2 (known_at (source_data s)) (sub_period_keys s c) temps →
  get_consumption_average_temperature s c unit
    = Ok (Float (Num (arithmetic_mean ((λ v, convert v.2 unit v.1) <$> temps))))
  ∧ ∀ u, Forall (λ v, v.2 = u) temps →
      get_consumption_average_temperature s c unit
      = Ok (Float (Num (convert u unit (arithmetic_mean temps.*1)))).
Proof.
  intros Hne Hall.
  assert (Hmean : get_consumption_average_temperature s c unit
    = Ok (Float (Num (arithmetic_mean ((λ v, convert v.2 unit v.1) <$> temps))))).
  { assert (Hne' : (λ v : Qc * Unit, convert v.2 unit v.1) <$> temps ≠ [])
      by (by destruct temps).
    destruct s as [self | self]; cbn in Hall |- *.
    - unfold GSODWeatherSource.get_consumption_average_temperature.
      rewrite (gsod_loop_known _ _ _ _ _ Hall). cbn [mbind result_bind].
      rewrite np_mean_Num by exact Hne'. reflexivity.
    - unfold ISDWeatherSource.get_consumption_average_temperature. cbv zeta.
      rewrite (isd_loop_known _ _ _ _ _ Hall). cbn [mbind result_bind].
      rewrite masked_nan_mean_Num by exact Hne'. reflexivity. }
  split; [exact Hmean|].
  intros u Hu. rewrite Hmean. do 3 f_equal.
  rewrite <- convert_arithmetic_mean by (by destruct temps).
  f_equal. rewrite <- list_fmap_compose.
  apply Forall_fmap_ext_1. eapply Forall_impl; [exact Hu|].
  intros [v u'] Hv. cbn in Hv |- *. by subst.
Qed.

Lemma average_temperature_is_arithmetic_mean_witness :
  let temps := [(Qc_of_Z 10, degC); (Qc_of_Z 20, degC)] in
  temps ≠ []
  ∧ Forall2 (known_at (source_data (GSOD gsod_10_20)))
            (sub_period_keys (GSOD gsod_10_20) two_days) temps
  ∧ get_consumption_average_temperature (GSOD gsod_10_20) two_days degF
    = Ok (Float (Num (arithmetic_mean ((λ v, convert v.2 degF v.1) <$> temps)))).
Proof.
  assert (Hne : [(Qc_of_Z 10, degC); (Qc_of_Z 20, degC)] ≠ []) by discriminate.
  assert (Hall : Forall2 (known_at (source_data (GSOD gsod_10_20)))
            (sub_period_keys (GSOD gsod_10_20) two_days)
            [(Qc_of_Z 10, degC); (Qc_of_Z 20, degC)]).
  { repeat constructor; vm_compute; reflexivity. }
  split; [exact Hne|]. split; [exact Hall|].
  exact (proj1 (average_temperature_is_arithmetic_mean
                  (GSOD gsod_10_20) two_days degF _ Hne Hall)).
Defined.

(** C3.  The daily source indexes the dict directly: over an interval
    whose day is missing from the dict it raises [KeyError] instead of
    returning an undefined value. *)
Theorem gsod_missing_day_raises :
  get_consumption_average_temperature (GSOD gsod_no_data) one_day degF
  = Raise (KeyError "20200101")
  ∧ get_consumption_average_temperature (ISD isd_no_data) one_day degF
    = Ok masked.
Proof. split; vm_compute; reflexivity. Qed.




End LegacyClaims.

(** * Properties of [eemeter/weather/noaa.py]: fetching *)

Section FetchProperties.
Import Pandas NOAA.

(** What [add_year] leaves alone, and what it does to the request log
    and to the set of attempted years. *)
Lemma add_year_cls self year force : cls (add_year self year force) = cls self.
Proof.
  unfold add_year, GSOD.add_year, ISD.add_year.
  destruct (cls self) eqn:Hc;
    destruct (negb force && _year_fetch_attempted self year);
    try destruct (_year_in_series self year); cbn; by rewrite ?Hc.
Qed.

Lemma add_year_station self year force :
  station (add_year self year force) = station self.
Proof.
  unfold add_year, GSOD.add_year, ISD.add_year.
  destruct (cls self);
    destruct (negb force && _year_fetch_attempted self year);
    try destruct (_year_in_series self year); reflexivity.
Qed.

Lemma add_year_requests self year force :
  requests (add_year self year force)
  = requests self
    ++ (if negb force && _year_fetch_attempted self year then []
        else [request_for (cls self) (station self) year]).
Proof.
  unfold add_year, GSOD.add_year, ISD.add_year.
  destruct (cls self);
    destruct (negb force && _year_fetch_attempted self year);
    try destruct (_year_in_series self year); cbn;
    by rewrite ?app_nil_r.
Qed.

Lemma add_year_attempted self year force :
  _year_fetches_attempted (add_year self year force)
  = if negb force && _year_fetch_attempted self year
    then _year_fetches_attempted self
    else {[ year ]} ∪ _year_fetches_attempted self.
Proof.
  unfold add_year, GSOD.add_year, ISD.add_year.
  destruct (cls self);
    destruct (negb force && _year_fetch_attempted self year);
    try destruct (_year_in_series self year); reflexivity.
Qed.

Lemma fetches_of_app year l1 l2 :
  fetches_of year (l1 ++ l2) = (fetches_of year l1 + fetches_of year l2)%nat.
Proof. unfold fetches_of. by rewrite filter_app, length_app. Qed.

Lemma request_year_for c station_id year :
  request_year (request_for c station_id year) = year.
Proof. by destruct c. Qed.

(** A loop of unforced [add_year] calls asks for a year at most once, and
    not at all when the year was attempted before the loop. *)
Lemma unforced_loop_fetches (years : list Z) self :
  let self' := foldl (λ self year, add_year self year false) self years in
  ∃ fetched,
    requests self' = requests self ++ fetched
    ∧ _year_fetches_attempted self ⊆ _year_fetches_attempted self'
    ∧ (∀ year, year ∈ years → year ∈ _year_fetches_attempted self')
    ∧ ∀ year, (fetches_of year fetched
               ≤ if _year_fetch_attempted self year then 0 else 1)%nat.
Proof.
  revert self. induction years as [|y years IH]; intros self; cbn [foldl].
  - exists []. rewrite app_nil_r. split; [done|]. split; [done|].
    split; [by intros ? ?%elem_of_nil|]. intros year. cbn.
    destruct (_year_fetch_attempted self year); lia.
  - pose proof (add_year_requests self y false) as Hr1.
    pose proof (add_year_attempted self y false) as Ha1.
    cbn [negb andb] in Hr1, Ha1. unfold _year_fetch_attempted in *.
    destruct (IH (add_year self y false)) as (fetched & Hreq & Hsub & Hin & Hcnt).
    set (self' := foldl _ (add_year self y false) years) in *.
    clearbody self'. clear IH.
    rewrite Hr1 in Hreq. rewrite Ha1 in Hsub. clear Hr1.
    destruct (bool_decide (y ∈ _year_fetches_attempted self)) eqn:Hy.
    + apply bool_decide_eq_true in Hy.
      exists fetched. rewrite app_nil_r in Hreq.
      split; [exact Hreq|]. split; [exact Hsub|]. split.
      * intros year [-> | Hyear]%elem_of_cons; [by apply Hsub | by apply Hin].
      * intros year. specialize (Hcnt year). by rewrite Ha1 in Hcnt.
    + apply bool_decide_eq_false in Hy.
      exists (request_for (cls self) (station self) y :: fetched).
      split; [by rewrite Hreq, <- app_assoc|].
      split; [intros x Hx; apply Hsub, elem_of_union; by right|]. split.
      * intros year [-> | Hyear]%elem_of_cons;
          [apply Hsub, elem_of_union; left; by apply elem_of_singleton
          | by apply Hin].
      * intros year. specialize (Hcnt year). rewrite Ha1 in Hcnt.
        change (?r :: fetched) with ([r] ++ fetched).
        rewrite fetches_of_app. unfold fetches_of at 1.
        destruct (decide (year = y)) as [-> | Hne].
        -- rewrite filter_cons_True by apply request_year_for.
           rewrite bool_decide_eq_true_2 in Hcnt
             by (apply elem_of_union; left; by apply elem_of_singleton).
           rewrite (bool_decide_eq_false_2 _ Hy). cbn. lia.
        -- rewrite filter_cons_False by (rewrite request_year_for; congruence).
           cbn [filter length Nat.add].
           destruct (bool_decide (year ∈ _year_fetches_attempted self)) eqn:Hyear.
           ++ apply bool_decide_eq_true in Hyear.
              rewrite bool_decide_eq_true_2 in Hcnt
                by (apply elem_of_union; by right).
              exact Hcnt.
           ++ apply bool_decide_eq_false in Hyear.
              rewrite bool_decide_eq_false_2 in Hcnt
                by (intros [?%elem_of_singleton | ?]%elem_of_union; done).
              exact Hcnt.
Qed.

Lemma unforced_loop_no_fetch (years : list Z) self :
  (∀ year, year ∈ years → year ∈ _year_fetches_attempted self) →
  requests (foldl (λ self year, add_year self year false) self years)
  = requests self.
Proof.
  revert self. induction years as [|y years IH]; intros self Hall; [reflexivity|].
  cbn [foldl].
  assert (Hy : _year_fetch_attempted self y = true).
  { apply bool_decide_eq_true. apply Hall. by left. }
  rewrite IH.
  - rewrite add_year_requests. cbn [negb andb]. rewrite Hy. apply app_nil_r.
  - intros year Hyear. rewrite add_year_attempted. cbn [negb andb]. rewrite Hy.
    apply Hall. by right.
Qed.

End FetchProperties.

Section FetchClaims.
Import Pandas NOAA NOAAExamples.

Lemma add_year_range_cls_station self start_year end_year force :
  cls (add_year_range self start_year end_year force) = cls self
  ∧ station (add_year_range self start_year end_year force) = station self.
Proof.
  unfold add_year_range. generalize (range start_year (end_year + 1)) as years.
  intros years. revert self.
  induction years as [|y years IH]; intros self; cbn [foldl]; [done|].
  destruct (IH (add_year self y force)) as [-> ->].
  by rewrite add_year_cls, add_year_station.
Qed.

Lemma check_for_recent_data_requests self today :
  contains ((today - 1) * 86400) (tempC self) = true →
  at_label ((today - 1) * 86400) (tempC self) = Some NaN →
  requests (_check_for_recent_data self today)
  = requests self
    ++ [request_for (cls self) (station self) (_ord2ymd (today - 1)).1.1].
Proof.
  intros Hin Hnull. unfold _check_for_recent_data. cbv zeta.
  rewrite Hin, Hnull. cbn [from_option isnull isnan andb].
  by rewrite add_year_requests.
Qed.

Lemma unforced_loop_cls (years : list Z) self :
  cls (foldl (λ self year, add_year self year false) self years) = cls self.
Proof.
  revert self. induction years as [|y years IH]; intros self; cbn [foldl]; [done|].
  by rewrite IH, add_year_cls.
Qed.

Lemma verify_index_presence_cls self idx :
  cls (_verify_index_presence self idx) = cls self.
Proof.
  unfold _verify_index_presence. destruct (values idx); [done|].
  apply unforced_loop_cls.
Qed.

(** C4.  Two unforced [add_year_range] calls over the same range ask the
    client for any one year at most once in total: the second call asks
    for nothing, since the first left every year of the range in the set
    of attempted years. *)
Theorem add_year_range_twice_fetches_once self (start_year end_year year : Z) :
  let once := add_year_range self start_year end_year false in
  let twice := add_year_range once start_year end_year false in
  ∃ fetched,
    requests once = requests self ++ fetched
    ∧ requests twice = requests once
    ∧ (fetches_of year fetched ≤ 1)%nat
    ∧ (∀ y, y ∈ range start_year (end_year + 1) → _year_fetch_attempted once y = true).
Proof.
  intros once twice. subst once twice. unfold add_year_range.
  destruct (unforced_loop_fetches (range start_year (end_year + 1)) self)
    as (fetched & Hreq & _ & Hin & Hcnt).
  exists fetched. split; [exact Hreq|]. split.
  - apply unforced_loop_no_fetch. exact Hin.
  - split.
    + specialize (Hcnt year). destruct (_year_fetch_attempted self year); lia.
    + intros y Hy. apply bool_decide_eq_true. by apply Hin.
Qed.

(** C5.  With an index whose frequency is not daily and, on the hourly
    class, not hourly either, [indexed_temperatures] returns no series:
    it raises [ValueError], with the message of the base class for an
    hourly index on the daily class and the message that names the
    frequency otherwise.  A frequency is daily or hourly in the sense of
    [index.freq == 'D'] and [index.freq == 'H']: 24 hours are daily, and
    an index without a frequency is neither. *)
Theorem indexed_temperatures_unsupported_frequency
    self (idx : DatetimeIndex) (unit : string) :
  freq_is idx D = false →
  (cls self = ISDWeatherSource → freq_is idx H = false) →
  (indexed_temperatures self idx unit).2
  = Raise (ValueError
      (if freq_is idx H
       then "DatetimeIndex frequency " +:+ dquote +:+ "H" +:+ dquote
            +:+ " not supported, please resample to at least daily frequency ("
            +:+ dquote +:+ "D" +:+ dquote +:+ ")."
       else "DatetimeIndex frequency " +:+ dquote +:+ format_freq (Pandas.freq idx)
            +:+ dquote +:+ " not supported, please resample.")).
Proof.
  intros HD HH. unfold indexed_temperatures. cbn [snd].
  rewrite HD. destruct (freq_is idx H) eqn:Hfreq; [|reflexivity].
  unfold _hourly_indexed_temperatures.
  destruct (cls (_verify_index_presence self idx)) eqn:Hc; [reflexivity|].
  rewrite verify_index_presence_cls in Hc.
  by specialize (HH Hc).
Qed.

Lemma indexed_temperatures_unsupported_frequency_witness :
  (indexed_temperatures gsod_fresh index_15min "degF").2
  = Raise (ValueError
      ("DatetimeIndex frequency " +:+ dquote +:+ "<15 * Minutes>" +:+ dquote
       +:+ " not supported, please resample."))
  ∧ (indexed_temperatures gsod_fresh index_two_hours "degF").2
    = Raise (ValueError
        ("DatetimeIndex frequency " +:+ dquote +:+ "H" +:+ dquote
         +:+ " not supported, please resample to at least daily frequency ("
         +:+ dquote +:+ "D" +:+ dquote +:+ ")."))
  ∧ (indexed_temperatures isd_fresh index_without_freq "degF").2
    = Raise (ValueError
        ("DatetimeIndex frequency " +:+ dquote +:+ "None" +:+ dquote
         +:+ " not supported, please resample.")).
Proof.
  split; [|split].
  - apply (indexed_temperatures_unsupported_frequency gsod_fresh index_15min "degF");
      [reflexivity | discriminate].
  - apply (indexed_temperatures_unsupported_frequency gsod_fresh index_two_hours "degF");
      [reflexivity | discriminate].
  - apply (indexed_temperatures_unsupported_frequency isd_fresh index_without_freq "degF");
      [reflexivity | reflexivity].
Defined.

(** C6.  [add_year] with [force=True] calls the client once for the
    year, whatever the set of attempted years and the series hold. *)
Theorem forced_add_year_fetches self (year : Z) :
  requests (add_year self year true)
  = requests self ++ [request_for (cls self) (station self) year].
Proof. by rewrite add_year_requests. Qed.

(** C8.  When, at the end of the constructor, yesterday's timestamp is in
    the series without a value, the constructor forces one more client
    call, for the year that contains yesterday. *)
Theorem recent_data_refetches_year_of_yesterday
    (c : SourceClass) (station_id : string) (start_year end_year : option Z)
    (cached : Series) (noaa : NOAAClient) (history : list Request) (today : Z) :
  let before :=
    init_years c station_id start_year end_year cached noaa history today in
  contains ((today - 1) * 86400) (tempC before) = true →
  at_label ((today - 1) * 86400) (tempC before) = Some NaN →
  requests (__init__ c station_id start_year end_year cached noaa history today)
  = requests before ++ [request_for c station_id (_ord2ymd (today - 1)).1.1].
Proof.
  intros before Hin Hnull. unfold __init__. cbv zeta. fold before.
  rewrite check_for_recent_data_requests by assumption.
  assert (Hcs : cls before = c ∧ station before = station_id).
  { subst before. unfold init_years.
    destruct start_year, end_year; cbv zeta;
      rewrite ?(proj1 (add_year_range_cls_station _ _ _ _)),
              ?(proj2 (add_year_range_cls_station _ _ _ _)); done. }
  by destruct Hcs as [-> ->].
Qed.

Lemma recent_data_refetches_year_of_yesterday_witness :
  contains ((jan1_2021 - 1) * 86400) cached_dec31_null = true
  ∧ at_label ((jan1_2021 - 1) * 86400) cached_dec31_null = Some NaN
  ∧ requests (__init__ GSODWeatherSource "725300" None None cached_dec31_null
                silent_client [] jan1_2021)
    = [] ++ [request_for GSODWeatherSource "725300" (_ord2ymd (jan1_2021 - 1)).1.1].
Proof.
  assert (Hin : contains ((jan1_2021 - 1) * 86400) cached_dec31_null = true)
    by (vm_compute; reflexivity).
  assert (Hnull : at_label ((jan1_2021 - 1) * 86400) cached_dec31_null = Some NaN)
    by (vm_compute; reflexivity).
  split; [exact Hin|]. split; [exact Hnull|].
  exact (recent_data_refetches_year_of_yesterday GSODWeatherSource "725300"
           None None cached_dec31_null silent_client [] jan1_2021 Hin Hnull).
Defined.

(** C8, as the claim words it, fails on 1 January: yesterday is in the
    series without a value, the current year is 2021, and the one forced
    call asks for 2020. *)
Lemma recent_data_refetch_is_not_current_year :
  let self := __init__ GSODWeatherSource "725300" None None cached_dec31_null
                silent_client [] jan1_2021 in
  contains ((jan1_2021 - 1) * 86400) cached_dec31_null = true
  ∧ at_label ((jan1_2021 - 1) * 86400) cached_dec31_null = Some NaN
  ∧ (_ord2ymd jan1_2021).1.1 = 2021
  ∧ requests self = [get_gsod_data "725300" 2020]
  ∧ fetches_of 2021 (requests self) = 0%nat.
Proof.
  cbv zeta.
  assert (Hreq : requests (__init__ GSODWeatherSource "725300" None None
                   cached_dec31_null silent_client [] jan1_2021)
                 = [get_gsod_data "725300" 2020]).
  { unfold __init__, init_years. cbv zeta.
    rewrite check_for_recent_data_requests by (vm_compute; reflexivity).
    vm_compute. reflexivity. }
  rewrite Hreq. repeat split; vm_compute; reflexivity.
Qed.

End FetchClaims.

(** * Calendar facts *)

Section CalendarProperties.
Import Calendar.
Lemma days_before_next_year (y : Z) :
  _days_before_year (y + 1)
  = _days_before_year y + 365 + (if _is_leap y then 1 else 0).
Proof.
  unfold _days_before_year, _is_leap. cbv zeta.
  replace (y + 1 - 1) with y by lia.
  destruct (Z.eqb_spec (y mod 4) 0); destruct (Z.eqb_spec (y mod 100) 0);
    destruct (Z.eqb_spec (y mod 400) 0); cbn [negb andb orb]; Z.div_mod_to_equations; lia.
Qed.

Lemma days_before_year_decomp (a b c d : Z) :
  0 ≤ b ≤ 3 → 0 ≤ c ≤ 24 → 0 ≤ d ≤ 3 →
  _days_before_year (400 * a + 100 * b + 4 * c + d + 1)
  = 146097 * a + 36524 * b + 1461 * c + 365 * d.
Proof.
  intros Hb Hc Hd. unfold _days_before_year. cbv zeta.
  replace (400 * a + 100 * b + 4 * c + d + 1 - 1)
    with (400 * a + 100 * b + 4 * c + d) by lia.
  assert (H4 : (400 * a + 100 * b + 4 * c + d) / 4 = 100 * a + 25 * b + c)
    by (symmetry; apply (Z.div_unique _ _ _ d); lia).
  assert (H100 : (400 * a + 100 * b + 4 * c + d) / 100 = 4 * a + b)
    by (symmetry; apply (Z.div_unique _ _ _ (4 * c + d)); lia).
  assert (H400 : (400 * a + 100 * b + 4 * c + d) / 400 = a)
    by (symmetry; apply (Z.div_unique _ _ _ (100 * b + 4 * c + d)); lia).
  rewrite H4, H100, H400. lia.
Qed.

Lemma is_leap_end_of_cycle (a b c : Z) :
  0 ≤ c ≤ 23 → _is_leap (400 * a + 100 * b + 4 * c + 4) = true.
Proof.
  intros Hc. unfold _is_leap.
  assert (H4 : (400 * a + 100 * b + 4 * c + 4) mod 4 = 0)
    by (symmetry; apply (Z.mod_unique _ _ (100 * a + 25 * b + c + 1)); lia).
  assert (H100 : (400 * a + 100 * b + 4 * c + 4) mod 100 = 4 * c + 4)
    by (symmetry; apply (Z.mod_unique _ _ (4 * a + b)); lia).
  rewrite H4, H100. cbn [Z.eqb andb].
  destruct (Z.eqb_spec (4 * c + 4) 0); [lia | reflexivity].
Qed.

Lemma is_leap_400 (a : Z) : _is_leap (400 * a) = true.
Proof.
  unfold _is_leap.
  assert (H4 : (400 * a) mod 4 = 0)
    by (symmetry; apply (Z.mod_unique _ _ (100 * a)); lia).
  assert (H400 : (400 * a) mod 400 = 0)
    by (symmetry; apply (Z.mod_unique _ _ a); lia).
  rewrite H4, H400. cbn. apply orb_true_r.
Qed.

Lemma ord2ymd_year_bounds (n : Z) :
  let y := (_ord2ymd n).1.1 in
  _days_before_year y < n ≤ _days_before_year (y + 1).
Proof.
  cbv zeta. rewrite days_before_next_year.
  unfold _ord2ymd. cbv zeta.
  set (n0 := n - 1).
  set (n400 := n0 / 146097). set (r1 := n0 mod 146097).
  set (n100 := r1 / 36524). set (r2 := r1 mod 36524).
  set (n4 := r2 / 1461). set (r3 := r2 mod 1461).
  set (n1 := r3 / 365). set (r4 := r3 mod 365).
  assert (n0 = 146097 * n400 + r1 ∧ 0 ≤ r1 < 146097)
    by (subst n400 r1; Z.div_mod_to_equations; lia).
  assert (r1 = 36524 * n100 + r2 ∧ 0 ≤ r2 < 36524)
    by (subst n100 r2; Z.div_mod_to_equations; lia).
  assert (r2 = 1461 * n4 + r3 ∧ 0 ≤ r3 < 1461)
    by (subst n4 r3; Z.div_mod_to_equations; lia).
  assert (r3 = 365 * n1 + r4 ∧ 0 ≤ r4 < 365)
    by (subst n1 r4; Z.div_mod_to_equations; lia).
  clearbody n400 r1 n100 r2 n4 r3 n1 r4. subst n0.
  assert (0 ≤ n100 ≤ 4 ∧ 0 ≤ n4 ≤ 24 ∧ 0 ≤ n1 ≤ 4) as (Hb & Hc & Hd) by lia.
  destruct (Z.eqb_spec n100 4) as [Hn100 | Hn100].
  { rewrite orb_true_r. cbn [fst].
    assert (r2 = 0 ∧ n4 = 0 ∧ r3 = 0 ∧ n1 = 0 ∧ r4 = 0) as (-> & -> & -> & -> & ->) by lia.
    subst n100.
    replace (n400 * 400 + 1 + 4 * 100 + 0 * 4 + 0 - 1) with (400 * (n400 + 1)) by lia.
    rewrite is_leap_400.
    replace (400 * (n400 + 1)) with (400 * n400 + 100 * 3 + 4 * 24 + 3 + 1) by lia.
    rewrite days_before_year_decomp by lia. lia. }
  destruct (Z.eqb_spec n1 4) as [Hn1 | Hn1].
  { cbn [orb fst]. subst n1.
    assert (r4 = 0) as -> by lia. assert (n4 ≤ 23) by lia.
    replace (n400 * 400 + 1 + n100 * 100 + n4 * 4 + 4 - 1)
      with (400 * n400 + 100 * n100 + 4 * n4 + 4) by lia.
    rewrite is_leap_end_of_cycle by lia.
    replace (400 * n400 + 100 * n100 + 4 * n4 + 4)
      with (400 * n400 + 100 * n100 + 4 * n4 + 3 + 1) by lia.
    rewrite days_before_year_decomp by lia. lia. }
  cbn [orb].
  assert (Hyear : ∀ (b : bool) (p q : Z * Z * Z), p.1.1 = q.1.1 →
            (if b then p else q).1.1 = q.1.1) by (by intros [] ? ? ?).
  rewrite Hyear by reflexivity. cbn [fst].
  replace (n400 * 400 + 1 + n100 * 100 + n4 * 4 + n1)
    with (400 * n400 + 100 * n100 + 4 * n4 + n1 + 1) by lia.
  rewrite days_before_year_decomp by lia.
  destruct (_is_leap _); lia.
Qed.
End CalendarProperties.

Section YearBounds.
Import Calendar Pandas NOAA.

Lemma year_existence_eq (year : Z) :
  year_existence year = (_days_before_year year + 1) * 86400.
Proof.
  unfold year_existence, mk_datetime, _ymd2ord, _days_before_month.
  change (nth (Z.to_nat 1) _DAYS_BEFORE_MONTH 0) with 0.
  change (2 <? 1) with false. cbn [andb]. lia.
Qed.

Lemma december_31_eq (year : Z) :
  mk_datetime year 12 31 0 = _days_before_year (year + 1) * 86400.
Proof.
  rewrite days_before_next_year.
  unfold mk_datetime, _ymd2ord, _days_before_month.
  change (nth (Z.to_nat 12) _DAYS_BEFORE_MONTH 0) with 334.
  change (2 <? 12) with true. cbn [andb].
  destruct (_is_leap year); lia.
Qed.

(** A timestamp lies in its calendar year. *)
Lemma year_bounds (t : datetime) :
  year_existence (Calendar.year t) ≤ t < year_existence (Calendar.year t + 1).
Proof.
  rewrite !year_existence_eq. unfold Calendar.year, toordinal.
  pose proof (ord2ymd_year_bounds (t / 86400)) as Hb. cbv zeta in Hb.
  set (y := (_ord2ymd (t / 86400)).1.1) in *. clearbody y.
  Z.div_mod_to_equations. lia.
Qed.

End YearBounds.

(** * Properties of the pandas operations *)

Section SeriesProperties.
Import Pandas NOAA.

Lemma offset_pos (f : Freq) : 0 < offset f.
Proof. by destruct f. Qed.

(** ** Bins *)

Lemma bin_le w t : 0 < w → bin w t ≤ t.
Proof. intros Hw. unfold bin. Z.div_mod_to_equations. nia. Qed.

Lemma bin_mono w a b : 0 < w → a ≤ b → bin w a ≤ bin w b.
Proof.
  intros Hw Hab. unfold bin.
  apply Z.mul_le_mono_nonneg_l; [lia|]. by apply Z.div_le_mono.
Qed.

Lemma bin_step w a i : 0 < w → bin w (bin w a + w * i) = bin w a + w * i.
Proof.
  intros Hw. unfold bin.
  replace (w * (a / w) + w * i) with ((a / w + i) * w) by lia.
  rewrite Z.div_mul by lia. lia.
Qed.

Lemma bin_idem w a : 0 < w → bin w (bin w a) = bin w a.
Proof.
  intros Hw. pose proof (bin_step w a 0 Hw) as H.
  by rewrite Z.mul_0_r, Z.add_0_r in H.
Qed.

(** An aligned label between two bins is one of the steps between them. *)
Lemma bin_between w lo hi b :
  0 < w → bin w lo ≤ b ≤ bin w hi → bin w b = b →
  ∃ i, 0 ≤ i < (bin w hi - bin w lo) / w + 1 ∧ b = bin w lo + w * i.
Proof.
  intros Hw Hb Hal. exists (b / w - lo / w). unfold bin in *.
  replace (w * (hi / w) - w * (lo / w)) with ((hi / w - lo / w) * w) by lia.
  rewrite Z.div_mul by lia. nia.
Qed.

(** ** The smallest and the largest label *)

Lemma foldr_min_spec (k : Z) (ks : list Z) :
  foldr Z.min k ks ∈ k :: ks ∧ ∀ x, x ∈ k :: ks → foldr Z.min k ks ≤ x.
Proof.
  induction ks as [|a ks [IHin IHle]]; cbn [foldr].
  - split; [by left|]. by intros x ->%list_elem_of_singleton.
  - split.
    + destruct (Z.min_spec a (foldr Z.min k ks)) as [[_ ->] | [_ ->]];
        [apply elem_of_cons; right; by left|].
      apply elem_of_cons in IHin as [-> | Hin]; [by left|].
      apply elem_of_cons; right; by right.
    + intros x Hx.
      assert (x = a ∨ x ∈ k :: ks) as [-> | Hx']; [|lia|].
      { apply elem_of_cons in Hx as [-> | Hx]; [by right; left|].
        apply elem_of_cons in Hx as [-> | Hx]; [by left | by right; right]. }
      specialize (IHle x Hx'). lia.
Qed.

Lemma foldr_max_spec (k : Z) (ks : list Z) :
  foldr Z.max k ks ∈ k :: ks ∧ ∀ x, x ∈ k :: ks → x ≤ foldr Z.max k ks.
Proof.
  induction ks as [|a ks [IHin IHle]]; cbn [foldr].
  - split; [by left|]. by intros x ->%list_elem_of_singleton.
  - split.
    + destruct (Z.max_spec a (foldr Z.max k ks)) as [[_ ->] | [_ ->]];
        [|apply elem_of_cons; right; by left].
      apply elem_of_cons in IHin as [-> | Hin]; [by left|].
      apply elem_of_cons; right; by right.
    + intros x Hx.
      assert (x = a ∨ x ∈ k :: ks) as [-> | Hx']; [|lia|].
      { apply elem_of_cons in Hx as [-> | Hx]; [by right; left|].
        apply elem_of_cons in Hx as [-> | Hx]; [by left | by right; right]. }
      specialize (IHle x Hx'). lia.
Qed.

Lemma first_label_spec (s : Series) (lo : datetime) :
  first_label s = Some lo ↔ lo ∈ index s ∧ ∀ x, x ∈ index s → lo ≤ x.
Proof.
  unfold first_label. destruct (index s) as [|k ks] eqn:Hidx.
  - split; [discriminate|]. by intros [?%elem_of_nil _].
  - pose proof (foldr_min_spec k ks) as [Hin Hle]. split.
    + by intros [= <-].
    + intros [Hin' Hle']. f_equal.
      specialize (Hle lo Hin'). specialize (Hle' _ Hin). lia.
Qed.

Lemma last_label_spec (s : Series) (hi : datetime) :
  last_label s = Some hi ↔ hi ∈ index s ∧ ∀ x, x ∈ index s → x ≤ hi.
Proof.
  unfold last_label. destruct (index s) as [|k ks] eqn:Hidx.
  - split; [discriminate|]. by intros [?%elem_of_nil _].
  - pose proof (foldr_max_spec k ks) as [Hin Hle]. split.
    + by intros [= <-].
    + intros [Hin' Hle']. f_equal.
      specialize (Hle hi Hin'). specialize (Hle' _ Hin). lia.
Qed.

Lemma first_label_None (s : Series) : first_label s = None ↔ s = [].
Proof.
  unfold first_label, index. destruct s; cbn; split; done.
Qed.

Lemma last_label_None (s : Series) : last_label s = None ↔ s = [].
Proof.
  unfold last_label, index. destruct s; cbn; split; done.
Qed.

Lemma labels_of_nonempty (s : Series) :
  s ≠ [] →
  ∃ lo hi, first_label s = Some lo ∧ last_label s = Some hi ∧ lo ≤ hi.
Proof.
  intros Hne.
  destruct (first_label s) as [lo|] eqn:Hlo; [|by apply first_label_None in Hlo].
  destruct (last_label s) as [hi|] eqn:Hhi; [|by apply last_label_None in Hhi].
  exists lo, hi. split; [done|]. split; [done|].
  apply first_label_spec in Hlo as [Hin _].
  apply last_label_spec in Hhi as [_ Hle]. by apply Hle.
Qed.

(** Two series with the same set of labels have the same end labels. *)
Lemma first_label_same_labels (s s' : Series) :
  (∀ x, x ∈ index s ↔ x ∈ index s') → first_label s = first_label s'.
Proof.
  intros Hsame. destruct (first_label s') as [lo|] eqn:Hlo.
  - apply first_label_spec. apply first_label_spec in Hlo as [Hin Hle].
    split; [by apply Hsame|]. intros x Hx. by apply Hle, Hsame.
  - apply first_label_None in Hlo as ->. apply first_label_None.
    destruct s as [|e s]; [done|]. exfalso.
    apply (elem_of_nil e.1). apply (Hsame e.1). cbn. by left.
Qed.

Lemma last_label_same_labels (s s' : Series) :
  (∀ x, x ∈ index s ↔ x ∈ index s') → last_label s = last_label s'.
Proof.
  intros Hsame. destruct (last_label s') as [hi|] eqn:Hhi.
  - apply last_label_spec. apply last_label_spec in Hhi as [Hin Hle].
    split; [by apply Hsame|]. intros x Hx. by apply Hle, Hsame.
  - apply last_label_None in Hhi as ->. apply last_label_None.
    destruct s as [|e s]; [done|]. exfalso.
    apply (elem_of_nil e.1). apply (Hsame e.1). cbn. by left.
Qed.

(** ** The mean of a bin *)

Lemma unmasked_known (vs : list pyfloat) : unmasked vs = Num <$> known_values vs.
Proof.
  unfold unmasked, known_values. induction vs as [|[q|] vs IH]; [reflexivity| |].
  - rewrite filter_cons_True by reflexivity. cbn. by rewrite IH.
  - rewrite filter_cons_False by (cbn; discriminate). exact IH.
Qed.

Lemma nanmean_known (vs : list pyfloat) :
  nanmean vs = match known_values vs with
               | [] => NaN
               | qs => Num (arithmetic_mean qs)
               end.
Proof.
  unfold nanmean. rewrite unmasked_known.
  pose proof (fsum_Num (known_values vs)) as Hsum.
  pose proof (length_fmap Num (known_values vs)) as Hlen.
  destruct (known_values vs) as [|q qs]; [reflexivity|].
  cbn [fmap list_fmap] in *. rewrite Hsum, Hlen. reflexivity.
Qed.

Lemma sum_perm (qs qs' : list Qc) :
  qs ≡ₚ qs' → foldr Qcplus 0%Qc qs = foldr Qcplus 0%Qc qs'.
Proof.
  induction 1 as [|q l l' _ IH|q q' l|l l' l'' _ IH1 _ IH2]; cbn [foldr].
  - reflexivity.
  - by rewrite IH.
  - ring.
  - by rewrite IH1.
Qed.

Lemma arithmetic_mean_perm (qs qs' : list Qc) :
  qs ≡ₚ qs' → arithmetic_mean qs = arithmetic_mean qs'.
Proof.
  intros Hp. unfold arithmetic_mean.
  by rewrite (sum_perm _ _ Hp), (Permutation_length Hp).
Qed.

Lemma nanmean_perm (vs vs' : list pyfloat) :
  vs ≡ₚ vs' → nanmean vs = nanmean vs'.
Proof.
  intros Hp. rewrite !nanmean_known.
  assert (Hk : known_values vs ≡ₚ known_values vs')
    by (unfold known_values; by rewrite Hp).
  pose proof (arithmetic_mean_perm _ _ Hk) as Hmean.
  destruct (known_values vs) as [|q qs], (known_values vs') as [|q' qs'];
    [reflexivity | by apply Permutation_nil_cons in Hk
     | symmetry in Hk; by apply Permutation_nil_cons in Hk | by rewrite Hmean].
Qed.

Lemma known_values_app (vs vs' : list pyfloat) :
  known_values (vs ++ vs') = known_values vs ++ known_values vs'.
Proof. unfold known_values. apply omap_app. Qed.

Lemma bin_values_app w b (s s' : Series) :
  bin_values w b (s ++ s') = bin_values w b s ++ bin_values w b s'.
Proof. unfold bin_values. by rewrite filter_app, fmap_app. Qed.

Lemma bin_values_perm w b (s s' : Series) :
  s ≡ₚ s' → bin_values w b s ≡ₚ bin_values w b s'.
Proof. intros Hp. unfold bin_values. by rewrite Hp. Qed.

(** ** Sorting by label *)

Lemma insert_by_label_perm e (s : Series) : insert_by_label e s ≡ₚ e :: s.
Proof.
  induction s as [|e' s IH]; cbn [insert_by_label]; [reflexivity|].
  destruct (e.1 <=? e'.1); [reflexivity|].
  rewrite IH. apply Permutation_swap.
Qed.

Lemma sort_index_perm (s : Series) : sort_index s ≡ₚ s.
Proof.
  unfold sort_index. induction s as [|e s IH]; cbn [foldr]; [reflexivity|].
  by rewrite insert_by_label_perm, IH.
Qed.

Lemma insert_by_label_sorted e (s : Series) :
  Sorted (λ a b, a.1 ≤ b.1) s → Sorted (λ a b, a.1 ≤ b.1) (insert_by_label e s).
Proof.
  induction 1 as [|e' s Hs IH Hhd]; cbn [insert_by_label].
  - repeat constructor.
  - destruct (Z.leb_spec e.1 e'.1).
    + constructor; [by constructor | by constructor].
    + constructor; [exact IH|].
      destruct s as [|e'' s]; cbn [insert_by_label].
      * constructor. lia.
      * destruct (Z.leb_spec e.1 e''.1); constructor; [lia|].
        by inversion Hhd.
Qed.

Lemma sort_index_sorted (s : Series) : Sorted (λ a b, a.1 ≤ b.1) (sort_index s).
Proof.
  unfold sort_index. induction s as [|e s IH]; cbn [foldr]; [constructor|].
  by apply insert_by_label_sorted.
Qed.

(** ** Resampling *)

Lemma index_perm (s s' : Series) : s ≡ₚ s' → ∀ x, x ∈ index s ↔ x ∈ index s'.
Proof. intros Hp x. unfold index. by rewrite Hp. Qed.

Lemma resample_mean_perm f (s s' : Series) :
  s ≡ₚ s' → resample_mean f s = resample_mean f s'.
Proof.
  intros Hp. unfold resample_mean.
  rewrite (first_label_same_labels s s') by by apply index_perm.
  rewrite (last_label_same_labels s s') by by apply index_perm.
  destruct (first_label s') as [lo|]; [|reflexivity].
  destruct (last_label s') as [hi|]; [|reflexivity].
  apply list_fmap_ext. intros _ i _. cbv zeta. f_equal.
  apply nanmean_perm, bin_values_perm, Hp.
Qed.

Lemma merge_unsorted f (series new_series : Series) :
  merge f series new_series = resample_mean f (series ++ new_series).
Proof. unfold merge, append. apply resample_mean_perm, sort_index_perm. Qed.

Lemma resample_mean_nil f : resample_mean f [] = [].
Proof. reflexivity. Qed.

Lemma resample_mean_unfold f (s : Series) lo hi :
  first_label s = Some lo → last_label s = Some hi →
  resample_mean f s
  = (λ i, (bin (offset f) lo + offset f * i,
           nanmean (bin_values (offset f) (bin (offset f) lo + offset f * i) s)))
      <$> seqZ 0 ((bin (offset f) hi - bin (offset f) lo) / offset f + 1).
Proof. intros Hlo Hhi. unfold resample_mean. by rewrite Hlo, Hhi. Qed.

(** The labels of a resampled series: every bin edge from the bin of the
    first label to the bin of the last. *)
Lemma elem_of_index_resample f (s : Series) lo hi b :
  first_label s = Some lo → last_label s = Some hi →
  b ∈ index (resample_mean f s)
  ↔ bin (offset f) lo ≤ b ≤ bin (offset f) hi ∧ bin (offset f) b = b.
Proof.
  intros Hlo Hhi. rewrite (resample_mean_unfold f s lo hi Hlo Hhi).
  pose proof (offset_pos f) as Hw. set (w := offset f) in *.
  unfold index. rewrite <- list_fmap_compose. rewrite list_elem_of_fmap.
  setoid_rewrite elem_of_seqZ. cbn. split.
  - intros (i & -> & Hi). split; [|by apply bin_step].
    assert (w * i ≤ bin w hi - bin w lo); [|lia].
    assert (i ≤ (bin w hi - bin w lo) / w) as Hle by lia.
    apply (Z.mul_le_mono_nonneg_l _ _ w) in Hle; [|lia].
    pose proof (Z.mul_div_le (bin w hi - bin w lo) w Hw). lia.
  - intros [Hb Hal]. destruct (bin_between w lo hi b Hw Hb Hal) as (i & Hi & ->).
    exists i. split; [done | lia].
Qed.

Lemma resample_mean_aligned f (s : Series) b :
  b ∈ index (resample_mean f s) → bin (offset f) b = b.
Proof.
  destruct (decide (s = [])) as [-> | Hne]; [by intros ?%elem_of_nil|].
  destruct (labels_of_nonempty s Hne) as (lo & hi & Hlo & Hhi & _).
  rewrite (elem_of_index_resample f s lo hi b Hlo Hhi). by intros [_ ?].
Qed.

(** Resampling keeps the bin of every label. *)
Lemma bin_in_index_resample f (s : Series) t :
  t ∈ index s → bin (offset f) t ∈ index (resample_mean f s).
Proof.
  intros Ht. pose proof (offset_pos f) as Hw.
  assert (Hne : s ≠ []) by (intros ->; by apply elem_of_nil in Ht).
  destruct (labels_of_nonempty s Hne) as (lo & hi & Hlo & Hhi & _).
  rewrite (elem_of_index_resample f s lo hi _ Hlo Hhi).
  apply first_label_spec in Hlo as [_ Hlo]. apply last_label_spec in Hhi as [_ Hhi].
  split; [split; apply bin_mono; auto | by apply bin_idem].
Qed.

(** The entries of a resampled series that fall in one bin. *)
Lemma filter_steps w lo (g : Z → pyfloat) b (n : nat) (m : Z) :
  0 < w →
  (filter (λ e : Z * pyfloat, bin w e.1 = b)
     ((λ i, (bin w lo + w * i, g i)) <$> seqZ m (Z.of_nat n))).*2
  = if decide (b = bin w lo + w * ((b - bin w lo) / w)
               ∧ m ≤ (b - bin w lo) / w < m + Z.of_nat n)
    then [g ((b - bin w lo) / w)] else [].
Proof.
  intros Hw. revert m. induction n as [|n IH]; intros m.
  - cbn. case_decide; [lia | reflexivity].
  - rewrite seqZ_cons by lia. cbn [fmap list_fmap].
    replace (Z.pred (Z.of_nat (S n))) with (Z.of_nat n) by lia.
    assert (Hj : (bin w lo + w * m - bin w lo) / w = m).
    { replace (bin w lo + w * m - bin w lo) with (m * w) by lia.
      apply Z.div_mul. lia. }
    destruct (decide (bin w lo + w * m = b)) as [<- | Hne].
    + rewrite filter_cons_True by (cbn; by apply bin_step).
      cbn [fmap list_fmap snd]. rewrite IH, Hj.
      rewrite decide_False by lia. rewrite decide_True by lia. reflexivity.
    + rewrite filter_cons_False by (cbn; rewrite bin_step by done; done).
      rewrite IH. clear IH Hj. set (j := (b - bin w lo) / w) in *. clearbody j.
      assert (Hjm : b = bin w lo + w * j → j ≠ m) by (intros Hbj ->; done).
      destruct (decide (b = bin w lo + w * j ∧ Z.succ m ≤ j < Z.succ m + Z.of_nat n))
        as [Ha | Ha];
        destruct (decide (b = bin w lo + w * j ∧ m ≤ j < m + Z.of_nat (S n)))
        as [Hb | Hb]; try reflexivity.
      * exfalso. apply Hb. lia.
      * exfalso. apply Ha. destruct Hb as [Hb1 Hb2]. specialize (Hjm Hb1). lia.
Qed.

Lemma bin_values_resample f (s : Series) lo hi b :
  first_label s = Some lo → last_label s = Some hi →
  bin (offset f) lo ≤ b ≤ bin (offset f) hi → bin (offset f) b = b →
  bin_values (offset f) b (resample_mean f s)
  = [nanmean (bin_values (offset f) b s)].
Proof.
  intros Hlo Hhi Hb Hal. rewrite (resample_mean_unfold f s lo hi Hlo Hhi).
  pose proof (offset_pos f) as Hw. set (w := offset f) in *.
  destruct (bin_between w lo hi b Hw Hb Hal) as (i & Hi & Hbi).
  unfold bin_values.
  assert (Hn : (bin w hi - bin w lo) / w + 1
               = Z.of_nat (Z.to_nat ((bin w hi - bin w lo) / w + 1))) by lia.
  rewrite Hn.
  rewrite (filter_steps w lo
             (λ i, nanmean (filter (λ e, bin w e.1 = bin w lo + w * i) s).*2)
             b _ 0 Hw).
  assert (Hj : (b - bin w lo) / w = i).
  { rewrite Hbi. replace (bin w lo + w * i - bin w lo) with (i * w) by lia.
    apply Z.div_mul. lia. }
  rewrite Hj, <- Hbi. rewrite decide_True by lia. reflexivity.
Qed.

(** ** Merging a batch again *)

Lemma arithmetic_mean_eq (qs : list Qc) (a : Qc) :
  qs ≠ [] →
  arithmetic_mean qs = a
  ↔ foldr Qcplus 0%Qc qs = (a * Qc_of_Z (Z.of_nat (length qs)))%Qc.
Proof.
  intros Hne. unfold arithmetic_mean.
  destruct qs as [|q qs]; [done|].
  pose proof (Qc_of_nat_pos (length qs)) as Hpos. cbn [length].
  set (n := Qc_of_Z (Z.of_nat (S (length qs)))) in *.
  set (t := foldr Qcplus 0%Qc (q :: qs)). split.
  - intros <-. field. exact Hpos.
  - intros ->. field. exact Hpos.
Qed.

Lemma nanmean_reabsorb (vs vb : list pyfloat) :
  (∀ x y, nanmean vs = Num x → nanmean vb = Num y → x = y) →
  nanmean (nanmean (vs ++ vb) :: vb) = nanmean (vs ++ vb).
Proof.
  intros Hagree. rewrite (nanmean_known (vs ++ vb)), known_values_app.
  rewrite (nanmean_known vs), (nanmean_known vb) in Hagree.
  destruct (known_values vs) as [|q qs] eqn:Hs;
    destruct (known_values vb) as [|q' qb] eqn:Hb.
  - cbn [app]. rewrite nanmean_known. cbn [known_values omap list_omap].
    fold (known_values vb). by rewrite Hb.
  - cbn [app]. rewrite nanmean_known. cbn [known_values omap list_omap].
    fold (known_values vb). rewrite Hb. f_equal.
    apply arithmetic_mean_eq; [done|]. cbn [foldr length].
    assert (Hm : foldr Qcplus 0%Qc (q' :: qb)
                 = (arithmetic_mean (q' :: qb)
                    * Qc_of_Z (Z.of_nat (length (q' :: qb))))%Qc)
      by by apply arithmetic_mean_eq.
    cbn [foldr length] in Hm. rewrite Hm at 1.
    rewrite (Qc_of_nat_S (S (length qb))). ring.
  - rewrite app_nil_r. rewrite nanmean_known. cbn [known_values omap list_omap].
    fold (known_values vb). rewrite Hb. f_equal.
    apply arithmetic_mean_eq; [done|]. cbn [foldr length].
    change (Z.of_nat 1) with 1. rewrite Z2Qc_inj_1. ring.
  - specialize (Hagree _ _ eq_refl eq_refl).
    set (a := arithmetic_mean (q' :: qb)) in *.
    assert (Hsb : foldr Qcplus 0%Qc (q' :: qb)
                  = (a * Qc_of_Z (Z.of_nat (length (q' :: qb))))%Qc)
      by by apply arithmetic_mean_eq.
    assert (Hss : foldr Qcplus 0%Qc (q :: qs)
                  = (a * Qc_of_Z (Z.of_nat (length (q :: qs))))%Qc)
      by by apply arithmetic_mean_eq.
    assert (Hall : arithmetic_mean ((q :: qs) ++ q' :: qb) = a).
    { apply arithmetic_mean_eq; [done|].
      rewrite foldr_app, length_app, Nat2Z.inj_add, Z2Qc_inj_add.
      assert (Hshift : ∀ (l : list Qc) (z : Qc),
                foldr Qcplus z l = (foldr Qcplus 0%Qc l + z)%Qc).
      { induction l as [|x l IHl]; intros z; cbn [foldr]; [ring|].
        rewrite IHl. ring. }
      rewrite Hshift, Hss, Hsb. ring. }
    change ((q :: qs) ++ q' :: qb) with (q :: (qs ++ q' :: qb)) in *.
    cbv beta iota. rewrite Hall.
    rewrite nanmean_known. cbn [known_values omap list_omap].
    fold (known_values vb). rewrite Hb. f_equal.
    apply arithmetic_mean_eq; [done|]. cbn [foldr length].
    cbn [foldr length] in Hsb. rewrite Hsb at 1.
    rewrite (Qc_of_nat_S (S (length qb))). ring.
Qed.

End SeriesProperties.

(** * Properties of [eemeter/weather/noaa.py]: the series *)

Section MergeClaims.
Import Pandas NOAA NOAAExamples.

Lemma index_app (s s' : list (Z * pyfloat)) : index (s ++ s') = index s ++ index s'.
Proof. unfold index. apply fmap_app. Qed.

(** C2.  Merging a batch a second time leaves the series as the first
    merge made it, provided that the stored series and the batch agree:
    in every bin where both hold a value, the two bin means are equal
    (as they are when the stored series has no value in the bins of the
    batch).  Where they differ, each merge averages the stored value
    with the batch once more. *)
Theorem merge_twice_when_agree f (series batch : list (Z * pyfloat)) :
  agree f series batch →
  merge f (merge f series batch) batch = merge f series batch.
Proof.
  intros Hagree. rewrite (merge_unsorted f (merge f series batch) batch).
  rewrite (merge_unsorted f series batch).
  pose proof (offset_pos f) as Hw.
  destruct (decide (series ++ batch = [])) as [Hnil | Hne].
  { apply app_eq_nil in Hnil as [-> ->]. reflexivity. }
  destruct (labels_of_nonempty _ Hne) as (lo & hi & Hlo & Hhi & Hlohi).
  set (R := resample_mean f (series ++ batch)).
  assert (HinR : ∀ b, b ∈ index R ↔
            bin (offset f) lo ≤ b ≤ bin (offset f) hi ∧ bin (offset f) b = b)
    by (intros b; by apply elem_of_index_resample).
  pose proof Hlo as Hlo'. pose proof Hhi as Hhi'.
  apply first_label_spec in Hlo' as [_ Hlo_le].
  apply last_label_spec in Hhi' as [_ Hhi_le].
  assert (HinB : ∀ x, x ∈ index batch → lo ≤ x ≤ hi).
  { intros x Hx. split; [apply Hlo_le | apply Hhi_le];
      rewrite index_app; apply elem_of_app; by right. }
  assert (Hfirst : first_label (R ++ batch) = Some (bin (offset f) lo)).
  { apply first_label_spec. rewrite index_app. split.
    - apply elem_of_app. left. apply HinR.
      split; [split; [lia | by apply bin_mono] | by apply bin_idem].
    - intros x [Hx | Hx]%elem_of_app.
      + apply HinR in Hx. lia.
      + pose proof (HinB x Hx). pose proof (bin_le (offset f) lo Hw). lia. }
  assert (Hlast : ∃ hi', last_label (R ++ batch) = Some hi'
                         ∧ bin (offset f) hi' = bin (offset f) hi).
  { destruct (last_label (R ++ batch)) as [hi'|] eqn:Hhi'.
    - exists hi'. split; [done|].
      apply last_label_spec in Hhi' as [Hin Hmax]. rewrite index_app in Hin, Hmax.
      assert (bin (offset f) hi ≤ hi').
      { apply Hmax, elem_of_app. left. apply HinR.
        split; [split; [by apply bin_mono | lia] | by apply bin_idem]. }
      assert (hi' ≤ hi).
      { apply elem_of_app in Hin as [Hin | Hin].
        - apply HinR in Hin. pose proof (bin_le (offset f) hi Hw). lia.
        - by apply HinB. }
      apply Z.le_antisymm; [by apply bin_mono|].
      rewrite <- (bin_idem (offset f) hi) by done. by apply bin_mono.
    - apply last_label_None in Hhi'. apply app_eq_nil in Hhi' as [HR _].
      exfalso. apply (elem_of_nil (bin (offset f) lo)).
      change [] with (index (@nil (Z * pyfloat))). rewrite <- HR. apply HinR.
      split; [split; [lia | by apply bin_mono] | by apply bin_idem]. }
  destruct Hlast as (hi' & Hlast & Hbin).
  rewrite (resample_mean_unfold f (R ++ batch) _ _ Hfirst Hlast).
  rewrite bin_idem, Hbin by done.
  etrans; [|symmetry; exact (resample_mean_unfold f (series ++ batch) _ _ Hlo Hhi)].
  apply list_fmap_ext. intros _ i Hi%list_elem_of_lookup_2.
  apply elem_of_seqZ in Hi. cbv beta. f_equal.
  set (b := bin (offset f) lo + offset f * i).
  assert (Hb : bin (offset f) lo ≤ b ≤ bin (offset f) hi ∧ bin (offset f) b = b).
  { apply HinR. subst R.
    rewrite (resample_mean_unfold f (series ++ batch) _ _ Hlo Hhi).
    unfold index. rewrite <- list_fmap_compose. apply list_elem_of_fmap.
    exists i. split; [reflexivity | by apply elem_of_seqZ]. }
  rewrite bin_values_app. subst R.
  rewrite (bin_values_resample f _ lo hi b Hlo Hhi (proj1 Hb) (proj2 Hb)).
  rewrite bin_values_app. cbn [app].
  apply nanmean_reabsorb. intros x y. apply Hagree.
Qed.

(** The same through [add_year]: the cache holds 10 on 1 January 2020,
    the client reports 20; one forced fetch stores 15, a second 17.5. *)
Example add_year_twice_drifts :
  at_label jan1_2020 (tempC (add_year gsod_holding_10 2020 true))
    = Some (Num (Q2Qc (15 # 1)))
  ∧ at_label jan1_2020
      (tempC (add_year (add_year gsod_holding_10 2020 true) 2020 true))
    = Some (Num (Q2Qc (35 # 2))).
Proof. split; qc_eval. Qed.

Example jan1_2020_is_native :
  native_timestamp GSODWeatherSource 2020 jan1_2020
  ∧ native_timestamp ISDWeatherSource 2020 (jan1_2020 + 3600).
Proof. repeat split; vm_compute; reflexivity. Qed.

Lemma merge_twice_when_agree_witness :
  agree D [(jan1_2020, twenty)] [(jan1_2020, twenty)]
  ∧ merge D (merge D [(jan1_2020, twenty)] [(jan1_2020, twenty)])
            [(jan1_2020, twenty)]
    = merge D [(jan1_2020, twenty)] [(jan1_2020, twenty)].
Proof.
  assert (Hagree : agree D [(jan1_2020, twenty)] [(jan1_2020, twenty)]).
  { intros b x y Hx Hy. rewrite Hx in Hy. by injection Hy. }
  split; [exact Hagree|].
  exact (merge_twice_when_agree D [(jan1_2020, twenty)] [(jan1_2020, twenty)] Hagree).
Defined.

(** C2, as the claim words it, fails when the stored series holds 10 on
    the day for which the batch brings 20: one merge leaves 15, a second
    merge of the same batch leaves 17.5. *)
Lemma merge_twice_differs :
  merge D [(jan1_2020, ten)] [(jan1_2020, twenty)]
    = [(jan1_2020, Num (Q2Qc (15 # 1)))]
  ∧ merge D (merge D [(jan1_2020, ten)] [(jan1_2020, twenty)]) [(jan1_2020, twenty)]
    = [(jan1_2020, Num (Q2Qc (35 # 2)))]
  ∧ merge D (merge D [(jan1_2020, ten)] [(jan1_2020, twenty)]) [(jan1_2020, twenty)]
    ≠ merge D [(jan1_2020, ten)] [(jan1_2020, twenty)].
Proof.
  assert (H1 : merge D [(jan1_2020, ten)] [(jan1_2020, twenty)]
               = [(jan1_2020, Num (Q2Qc (15 # 1)))]) by qc_eval.
  assert (H2 : merge D (merge D [(jan1_2020, ten)] [(jan1_2020, twenty)])
                 [(jan1_2020, twenty)]
               = [(jan1_2020, Num (Q2Qc (35 # 2)))]) by qc_eval.
  split; [exact H1|]. split; [exact H2|].
  rewrite H2, H1. intros Heq. by inversion Heq.
Qed.

(** ** The empty series of a year *)

Lemma index_null_series (dates : list Z) : index (null_series dates) = dates.
Proof.
  unfold index, null_series. rewrite <- list_fmap_compose.
  induction dates as [|t dates IH]; [reflexivity|]. cbn. by f_equal.
Qed.

Lemma null_series_all_null (dates : list Z) :
  Forall (λ e, e.2 = NaN) (null_series dates).
Proof. unfold null_series. rewrite Forall_fmap. by apply Forall_true. Qed.

Lemma elem_of_date_range start end_ f t :
  t ∈ date_range start end_ f
  ↔ ∃ i, 0 ≤ i < (end_ - start) / offset f + 1 ∧ t = start + offset f * i.
Proof.
  unfold date_range. rewrite list_elem_of_fmap. setoid_rewrite elem_of_seqZ.
  split; intros (i & H1 & H2); exists i; (split; [lia | done]) || (split; [done | lia]).
Qed.

Lemma removelast_date_range start end_ f :
  0 ≤ (end_ - start) / offset f →
  removelast (date_range start end_ f)
  = (λ i, start + offset f * i) <$> seqZ 0 ((end_ - start) / offset f).
Proof.
  intros Hn. unfold date_range.
  rewrite seqZ_app by lia. rewrite fmap_app.
  change (seqZ (0 + (end_ - start) / offset f) 1)
    with [0 + (end_ - start) / offset f].
  cbn [fmap list_fmap]. apply removelast_last.
Qed.

Lemma gsod_empty_series_covers (year t : Z) :
  native_timestamp GSODWeatherSource year t → t ∈ index (GSOD._empty_series year).
Proof.
  intros [Hy Hal]. unfold GSOD._empty_series. rewrite index_null_series.
  apply elem_of_date_range. pose proof (year_bounds t) as Hb.
  rewrite Hy, !year_existence_eq in Hb.
  fold (year_existence year). rewrite year_existence_eq, december_31_eq.
  cbn [freq_of offset GSOD.freq] in *. unfold bin in Hal.
  exists (t / 86400 - (_days_before_year year + 1)).
  replace (_days_before_year (year + 1) * 86400
           - (_days_before_year year + 1) * 86400)
    with ((_days_before_year (year + 1) - _days_before_year year - 1) * 86400)
    by lia.
  rewrite Z.div_mul by lia. lia.
Qed.

Lemma isd_empty_series_covers (year t : Z) :
  native_timestamp ISDWeatherSource year t → t ∈ index (ISD._empty_series year).
Proof.
  intros [Hy Hal]. unfold ISD._empty_series, ISD.freq.
  rewrite index_null_series.
  pose proof (year_bounds t) as Hb.
  rewrite Hy, !year_existence_eq in Hb.
  fold (year_existence year) (year_existence (year + 1)).
  rewrite !year_existence_eq.
  cbn [freq_of offset] in *. unfold bin in Hal.
  assert (Hspan : ((_days_before_year (year + 1) + 1) * 86400
                   - (_days_before_year year + 1) * 86400) / 3600
                  = (_days_before_year (year + 1) - _days_before_year year) * 24).
  { replace ((_days_before_year (year + 1) + 1) * 86400
             - (_days_before_year year + 1) * 86400)
      with ((_days_before_year (year + 1) - _days_before_year year) * 24 * 3600)
      by lia.
    apply Z.div_mul. lia. }
  rewrite removelast_date_range by (cbn [offset]; rewrite Hspan; lia).
  cbn [offset]. rewrite Hspan.
  apply list_elem_of_fmap.
  exists (t / 3600 - (_days_before_year year + 1) * 24).
  split; [lia|]. apply elem_of_seqZ. lia.
Qed.

Lemma empty_series_covers c (year t : Z) :
  native_timestamp c year t → t ∈ index (_empty_series c year).
Proof.
  destruct c; [apply gsod_empty_series_covers | apply isd_empty_series_covers].
Qed.

Lemma empty_series_all_null c (year : Z) :
  Forall (λ e, e.2 = NaN) (_empty_series c year).
Proof. destruct c; apply null_series_all_null. Qed.

(** ** Filling the batch of a year *)

Lemma setitem_index (s : list (Z * pyfloat)) key value x :
  x ∈ index s → x ∈ index (setitem s key value).
Proof.
  intros Hx. unfold setitem. destruct (contains key s).
  - unfold index in *. rewrite <- list_fmap_compose.
    apply list_elem_of_fmap in Hx as (e & -> & He).
    apply list_elem_of_fmap. exists e. split; [|done].
    cbn. case_bool_decide; [by subst | done].
  - rewrite index_app. apply elem_of_app. by left.
Qed.

Lemma fill_index {A} (step : list (Z * pyfloat) → A → list (Z * pyfloat))
    (data : list A) (init : list (Z * pyfloat)) x :
  (∀ s a y, y ∈ index s → y ∈ index (step s a)) →
  x ∈ index init → x ∈ index (foldl step init data).
Proof.
  intros Hstep. revert init.
  induction data as [|a data IH]; intros init Hx; cbn [foldl]; [done|].
  by apply IH, Hstep.
Qed.

(** ** What [add_year] does to the series *)

Lemma merge_index_l f (series batch : list (Z * pyfloat)) t :
  t ∈ index series → bin (offset f) t = t → t ∈ index (merge f series batch).
Proof.
  intros Ht Hal. rewrite merge_unsorted, <- Hal.
  apply bin_in_index_resample. rewrite index_app. apply elem_of_app. by left.
Qed.

Lemma merge_index_r f (series batch : list (Z * pyfloat)) t :
  t ∈ index batch → bin (offset f) t = t → t ∈ index (merge f series batch).
Proof.
  intros Ht Hal. rewrite merge_unsorted, <- Hal.
  apply bin_in_index_resample. rewrite index_app. apply elem_of_app. by right.
Qed.

Lemma merge_aligned f (series batch : list (Z * pyfloat)) t :
  t ∈ index (merge f series batch) → bin (offset f) t = t.
Proof. rewrite merge_unsorted. apply resample_mean_aligned. Qed.

(** Either [add_year] returns at once, or it merges a batch that holds
    every label of the empty series of the year. *)
Lemma add_year_series self year force :
  (negb force && _year_fetch_attempted self year = true
   ∧ _year_in_series self year = true
   ∧ add_year self year force = self)
  ∨ ∃ batch,
      tempC (add_year self year force)
      = merge (freq_of (cls self)) (tempC self) batch
      ∧ cache_file (add_year self year force) = tempC (add_year self year force)
      ∧ ∀ t, t ∈ index (_empty_series (cls self) year) → t ∈ index batch.
Proof.
  assert (Hfill : ∀ (key : Reading → Z) data init t,
            t ∈ index init →
            t ∈ index (foldl (λ new_series r,
                                if negb (isnull (temp_C r))
                                then setitem new_series (key r) (temp_C r)
                                else new_series) init data)).
  { intros key data init t Ht. apply fill_index; [|exact Ht].
    intros s a y Hy. destruct (negb (isnull (temp_C a))); [|done].
    by apply setitem_index. }
  unfold add_year, GSOD.add_year, ISD.add_year.
  destruct (cls self) eqn:Hc;
    destruct (negb force && _year_fetch_attempted self year) eqn:Hskip.
  - destruct (_year_in_series self year) eqn:Hin; [left; done | right].
    exists (GSOD._empty_series year).
    split; [reflexivity|]. split; [reflexivity|]. intros t Ht. exact Ht.
  - right. eexists. split; [reflexivity|]. split; [reflexivity|].
    intros t Ht. by apply (Hfill date).
  - destruct (_year_in_series self year) eqn:Hin; [left; done | right].
    exists (ISD._empty_series year).
    split; [reflexivity|]. split; [reflexivity|]. intros t Ht. exact Ht.
  - right. eexists. split; [reflexivity|]. split; [reflexivity|].
    intros t Ht.
    by apply (Hfill (λ hour, mk_datetime (Calendar.year (date hour))
                               (Calendar.month (date hour))
                               (Calendar.day (date hour))
                               (Calendar.hour (date hour)))).
Qed.

Lemma add_year_invariant self year force :
  series_invariant self → series_invariant (add_year self year force).
Proof.
  intros [Hal Hcov]. unfold series_invariant.
  rewrite add_year_cls, add_year_attempted.
  destruct (add_year_series self year force)
    as [(Hskip & _ & ->) | (batch & Htemp & _ & Hbatch)].
  { rewrite Hskip. by split. }
  rewrite Htemp. split.
  - intros t Ht. by apply merge_aligned in Ht.
  - intros y Hy t Hn.
    assert (Hold : y ∈ _year_fetches_attempted self →
                   t ∈ index (merge (freq_of (cls self)) (tempC self) batch)).
    { intros Hy'. apply merge_index_l; [by eapply Hcov | apply Hn]. }
    destruct (negb force && _year_fetch_attempted self year); [by apply Hold|].
    apply elem_of_union in Hy as [->%elem_of_singleton | Hy]; [|by apply Hold].
    apply merge_index_r; [|apply Hn]. by apply Hbatch, empty_series_covers.
Qed.


Lemma add_year_grows self year force t :
  series_invariant self → t ∈ index (tempC self) →
  t ∈ index (tempC (add_year self year force)).
Proof.
  intros [Hal _] Ht.
  destruct (add_year_series self year force)
    as [(_ & _ & ->) | (batch & -> & _ & _)]; [done|].
  apply merge_index_l; [done | by apply Hal].
Qed.

Lemma add_year_loop_invariant (years : list Z) force self :
  series_invariant self →
  series_invariant (foldl (λ self year, add_year self year force) self years)
  ∧ ∀ t, t ∈ index (tempC self) →
         t ∈ index (tempC (foldl (λ self year, add_year self year force) self years)).
Proof.
  revert self. induction years as [|y years IH]; intros self Hinv; cbn [foldl]; [done|].
  destruct (IH (add_year self y force)) as [Hinv' Hgrow];
    [by apply add_year_invariant|].
  split; [done|]. intros t Ht. by apply Hgrow, add_year_grows.
Qed.

Lemma perform_invariant op self :
  series_invariant self →
  series_invariant (perform op self)
  ∧ ∀ t, t ∈ index (tempC self) → t ∈ index (tempC (perform op self)).
Proof.
  intros Hinv. destruct op as [year force | a b force | today | idx unit]; cbn [perform].
  - split; [by apply add_year_invariant | intros; by apply add_year_grows].
  - by apply add_year_loop_invariant.
  - unfold _check_for_recent_data. cbv zeta.
    destruct (_ && _); [|done].
    split; [by apply add_year_invariant | intros; by apply add_year_grows].
  - unfold indexed_temperatures. cbn [fst]. unfold _verify_index_presence.
    destruct (values idx); [done|]. by apply add_year_loop_invariant.
Qed.

Lemma reachable_invariant self : reachable self → series_invariant self.
Proof.
  induction 1 as [c station_id cached noaa history Hal | self op _ IH].
  - split; [exact Hal|]. intros year Hy. by apply elem_of_empty in Hy.
  - by apply perform_invariant.
Qed.

(** A constructed source is a reachable state. *)
Lemma init_reachable c station_id start_year end_year cached noaa history today :
  aligned c cached →
  reachable (__init__ c station_id start_year end_year cached noaa history today).
Proof.
  intros Hal. unfold __init__. cbv zeta.
  apply (reachable_perform _ (op_check_for_recent_data today)).
  unfold init_years. cbv zeta.
  pose proof (reachable_restored c station_id cached noaa history Hal) as Hr.
  destruct start_year as [a|], end_year as [b|]; [| | |exact Hr].
  - exact (reachable_perform _ (op_add_year_range a b false) Hr).
  - exact (reachable_perform _ (op_add_year_range a _ false) Hr).
  - exact (reachable_perform _ (op_add_year_range _ b false) Hr).
Qed.

Lemma at_label_in_index (s : list (Z * pyfloat)) t :
  t ∈ index s → ∃ v, at_label t s = Some v.
Proof.
  intros (e & -> & He)%list_elem_of_fmap. unfold at_label.
  destruct (list_find_elem_of (λ e' : Z * pyfloat, e'.1 = e.1) s e He eq_refl)
    as [[i e'] Hfind].
  rewrite Hfind. by eexists.
Qed.

End MergeClaims.

(** * Further properties of [eemeter/weather/noaa.py] *)

Section SessionProperties.
Import Pandas NOAA NOAAFacts NOAAExamples.

Lemma add_year_loop_cls_station (years : list Z) force self :
  cls (foldl (λ self year, add_year self year force) self years) = cls self
  ∧ station (foldl (λ self year, add_year self year force) self years)
    = station self.
Proof.
  revert self. induction years as [|y years IH]; intros self; cbn [foldl]; [done|].
  destruct (IH (add_year self y force)) as [-> ->].
  by rewrite add_year_cls, add_year_station.
Qed.

(** A loop of [add_year] calls that each reach the client logs one request
    per year, in the order of the loop. *)
Lemma fetching_loop_requests (years : list Z) force self :
  (force = true
   ∨ (NoDup years ∧ ∀ y, y ∈ years → y ∉ _year_fetches_attempted self)) →
  requests (foldl (λ self year, add_year self year force) self years)
  = requests self ++ (request_for (cls self) (station self) <$> years).
Proof.
  revert self. induction years as [|y years IH]; intros self Hfetch; cbn [foldl].
  { by rewrite app_nil_r. }
  rewrite IH.
  - rewrite add_year_requests, add_year_cls, add_year_station.
    assert (negb force && _year_fetch_attempted self y = false) as ->.
    { destruct Hfetch as [-> | [_ Hnew]]; [reflexivity|].
      apply andb_false_iff. right. apply bool_decide_eq_false, Hnew. by left. }
    by rewrite <- app_assoc.
  - destruct Hfetch as [-> | [Hnd Hnew]]; [by left | right].
    apply NoDup_cons in Hnd as [Hy Hnd]. split; [exact Hnd|].
    intros y' Hy'. rewrite add_year_attempted.
    assert (negb force && _year_fetch_attempted self y = false) as ->.
    { apply andb_false_iff. right. apply bool_decide_eq_false, Hnew. by left. }
    intros [->%elem_of_singleton | Hin]%elem_of_union; [done|].
    apply (Hnew y'); [by right | done].
Qed.

Lemma range_NoDup (a b : Z) : NoDup (range a b).
Proof. apply NoDup_seqZ. Qed.

(** X1.  An unforced [add_year] for a year that was not attempted in this
    session calls the client and marks the year, whether or not the
    series already holds the year. *)
Theorem unattempted_year_is_fetched self (year : Z) :
  _year_fetch_attempted self year = false →
  requests (add_year self year false)
    = requests self ++ [request_for (cls self) (station self) year]
  ∧ _year_fetch_attempted (add_year self year false) year = true.
Proof.
  intros Hnew. rewrite add_year_requests. unfold _year_fetch_attempted in *.
  rewrite add_year_attempted. unfold _year_fetch_attempted.
  cbn [negb andb]. rewrite Hnew. split; [reflexivity|].
  apply bool_decide_eq_true, elem_of_union. left. by apply elem_of_singleton.
Qed.

Lemma unattempted_year_is_fetched_witness :
  _year_fetch_attempted gsod_holding_10 2020 = false
  ∧ _year_in_series gsod_holding_10 2020 = true
  ∧ requests (add_year gsod_holding_10 2020 false)
    = requests gsod_holding_10
      ++ [request_for (cls gsod_holding_10) (station gsod_holding_10) 2020].
Proof.
  assert (Hnew : _year_fetch_attempted gsod_holding_10 2020 = false)
    by (vm_compute; reflexivity).
  split; [exact Hnew|]. split; [vm_compute; reflexivity|].
  exact (proj1 (unattempted_year_is_fetched gsod_holding_10 2020 Hnew)).
Defined.

(** X2.  A forced [add_year_range] logs exactly one request per year of
    [range(start_year, end_year + 1)], in ascending order, and so none
    when [end_year < start_year]. *)
Theorem forced_add_year_range_requests self (start_year end_year : Z) :
  requests (add_year_range self start_year end_year true)
  = requests self
    ++ (request_for (cls self) (station self) <$> range start_year (end_year + 1)).
Proof. unfold add_year_range. apply fetching_loop_requests. by left. Qed.

(** X3.  Up to its last statement the constructor logs exactly one
    request per year of the range its arguments give, in ascending
    order, whatever the restored series holds; its last statement adds
    at most the forced request for the year of yesterday. *)
Theorem constructor_requests
    (c : SourceClass) (station_id : string) (start_year end_year : option Z)
    (cached : list (Z * pyfloat)) (noaa : NOAAClient) (history : list Request)
    (today : Z) :
  let before :=
    init_years c station_id start_year end_year cached noaa history today in
  let self :=
    __init__ c station_id start_year end_year cached noaa history today in
  requests before
    = history ++ (request_for c station_id <$> init_range start_year end_year today)
  ∧ (requests self = requests before
     ∨ requests self
       = requests before ++ [request_for c station_id (_ord2ymd (today - 1)).1.1]).
Proof.
  intros before self.
  assert (Hloop : ∀ a b,
    requests (add_year_range (restored c station_id cached noaa history) a b false)
    = history ++ (request_for c station_id <$> range a (b + 1))).
  { intros a b. unfold add_year_range. rewrite fetching_loop_requests; [done|].
    right. split; [apply range_NoDup|]. intros y _. apply not_elem_of_empty. }
  assert (Hcs : cls before = c ∧ station before = station_id).
  { subst before. unfold init_years. cbv zeta.
    destruct start_year, end_year;
      rewrite ?(proj1 (add_year_range_cls_station _ _ _ _)),
              ?(proj2 (add_year_range_cls_station _ _ _ _)); done. }
  split.
  - subst before. unfold init_years, init_range. cbv zeta.
    destruct start_year, end_year; rewrite ?Hloop; [done..|].
    cbn. by rewrite app_nil_r.
  - subst self. unfold __init__. cbv zeta. fold before.
    unfold _check_for_recent_data. cbv zeta.
    destruct (_ && _); [right | by left].
    rewrite add_year_requests. cbn [negb andb]. by destruct Hcs as [-> ->].
Qed.

(** ** The anchor of a year *)

Lemma year_length_pos (year : Z) :
  0 < _days_before_year (year + 1) - _days_before_year year.
Proof. rewrite days_before_next_year. destruct (_is_leap year); lia. Qed.

Lemma year_existence_aligned c (year : Z) :
  bin (offset (freq_of c)) (year_existence year) = year_existence year.
Proof.
  rewrite year_existence_eq. unfold bin.
  destruct c; cbn [freq_of offset].
  - rewrite Z.div_mul by lia. lia.
  - replace ((_days_before_year year + 1) * 86400)
      with ((_days_before_year year + 1) * 24 * 3600) by lia.
    rewrite Z.div_mul by lia. lia.
Qed.

Lemma year_existence_in_empty_series c (year : Z) :
  year_existence year ∈ index (_empty_series c year).
Proof.
  pose proof (year_length_pos year) as Hlen.
  destruct c; cbn [_empty_series].
  - unfold GSOD._empty_series, GSOD.freq. rewrite index_null_series.
    apply elem_of_date_range. exists 0. fold (year_existence year).
    rewrite year_existence_eq, december_31_eq. cbn [offset].
    replace (_days_before_year (year + 1) * 86400
             - (_days_before_year year + 1) * 86400)
      with ((_days_before_year (year + 1) - _days_before_year year - 1) * 86400)
      by lia.
    rewrite Z.div_mul by lia. lia.
  - unfold ISD._empty_series, ISD.freq. rewrite index_null_series.
    fold (year_existence year) (year_existence (year + 1)).
    rewrite !year_existence_eq. cbn [offset].
    assert (Hspan : ((_days_before_year (year + 1) + 1) * 86400
                     - (_days_before_year year + 1) * 86400) / 3600
                    = (_days_before_year (year + 1) - _days_before_year year) * 24).
    { replace ((_days_before_year (year + 1) + 1) * 86400
               - (_days_before_year year + 1) * 86400)
        with ((_days_before_year (year + 1) - _days_before_year year) * 24 * 3600)
        by lia.
      apply Z.div_mul. lia. }
    rewrite removelast_date_range by (cbn [offset]; rewrite Hspan; lia).
    cbn [offset]. rewrite Hspan. apply list_elem_of_fmap.
    exists 0. split; [lia|]. apply elem_of_seqZ. lia.
Qed.

Lemma contains_true key (s : list (Z * pyfloat)) :
  contains key s = true ↔ key ∈ index s.
Proof. unfold contains. apply bool_decide_eq_true. Qed.

Lemma add_year_in_series self year force :
  _year_in_series (add_year self year force) year = true.
Proof.
  destruct (add_year_series self year force)
    as [(_ & Hin & ->) | (batch & Htemp & _ & Hbatch)]; [exact Hin|].
  unfold _year_in_series. apply contains_true. rewrite Htemp.
  apply merge_index_r; [|apply year_existence_aligned].
  apply Hbatch, year_existence_in_empty_series.
Qed.

Lemma add_year_attempts self year force :
  _year_fetch_attempted (add_year self year force) year = true.
Proof.
  unfold _year_fetch_attempted at 1. rewrite add_year_attempted.
  destruct (negb force && _year_fetch_attempted self year) eqn:Hskip.
  - by apply andb_true_iff in Hskip as [_ Hatt].
  - apply bool_decide_eq_true, elem_of_union. left. by apply elem_of_singleton.
Qed.

Lemma add_year_noop self year :
  _year_fetch_attempted self year = true → _year_in_series self year = true →
  add_year self year false = self.
Proof.
  intros Hatt Hin. unfold add_year, GSOD.add_year, ISD.add_year.
  destruct (cls self); cbn [negb andb]; by rewrite Hatt, Hin.
Qed.

(** [add_year] keeps the years attempted and the anchors present. *)
Lemma add_year_keeps_attempted self year force y :
  _year_fetch_attempted self y = true →
  _year_fetch_attempted (add_year self year force) y = true.
Proof.
  unfold _year_fetch_attempted. rewrite add_year_attempted.
  intros Hy%bool_decide_eq_true. apply bool_decide_eq_true.
  destruct (negb force && _); [done|]. apply elem_of_union. by right.
Qed.

Lemma add_year_keeps_in_series self year force y :
  _year_in_series self y = true →
  _year_in_series (add_year self year force) y = true.
Proof.
  unfold _year_in_series. rewrite !contains_true. intros Hy.
  destruct (add_year_series self year force)
    as [(_ & _ & ->) | (batch & -> & _ & _)]; [done|].
  apply merge_index_l; [done | apply year_existence_aligned].
Qed.

(** X4.  After [add_year] for a year, with or without [force], the year
    is attempted and its anchor is in the series; an unforced [add_year]
    for the same year then changes nothing at all. *)
Theorem add_year_again_is_noop self (year : Z) (force : bool) :
  let self' := add_year self year force in
  _year_fetch_attempted self' year = true
  ∧ _year_in_series self' year = true
  ∧ add_year self' year false = self'.
Proof.
  intros self'. subst self'.
  pose proof (add_year_attempts self year force) as Hatt.
  pose proof (add_year_in_series self year force) as Hin.
  split; [exact Hatt|]. split; [exact Hin|]. by apply add_year_noop.
Qed.

Lemma add_year_loop_settles (years : list Z) force self :
  let self' := foldl (λ self year, add_year self year force) self years in
  (∀ y, _year_fetch_attempted self y = true → _year_fetch_attempted self' y = true)
  ∧ (∀ y, _year_in_series self y = true → _year_in_series self' y = true)
  ∧ ∀ y, y ∈ years →
      _year_fetch_attempted self' y = true ∧ _year_in_series self' y = true.
Proof.
  revert self. induction years as [|y years IH]; intros self; cbn [foldl].
  { split; [done|]. split; [done|]. by intros y ?%elem_of_nil. }
  destruct (IH (add_year self y force)) as (Hatt & Hin & Hall).
  split; [intros y' Hy'; by apply Hatt, add_year_keeps_attempted|].
  split; [intros y' Hy'; by apply Hin, add_year_keeps_in_series|].
  intros y' [-> | Hy']%elem_of_cons; [|by apply Hall].
  split; [apply Hatt, add_year_attempts | apply Hin, add_year_in_series].
Qed.

Lemma unforced_loop_noop (years : list Z) self :
  (∀ y, y ∈ years →
        _year_fetch_attempted self y = true ∧ _year_in_series self y = true) →
  foldl (λ self year, add_year self year false) self years = self.
Proof.
  induction years as [|y years IH]; intros Hall; cbn [foldl]; [done|].
  destruct (Hall y) as [Hatt Hin]; [by left|].
  rewrite add_year_noop by done. apply IH. intros y' Hy'. apply Hall. by right.
Qed.

(** X5.  After [add_year_range], forced or not, an unforced
    [add_year_range] over the same years changes nothing: no request, no
    merge, no save. *)
Theorem add_year_range_again_is_noop self (start_year end_year : Z) (force : bool) :
  let self' := add_year_range self start_year end_year force in
  add_year_range self' start_year end_year false = self'.
Proof.
  intros self'. subst self'. unfold add_year_range.
  apply unforced_loop_noop.
  apply (add_year_loop_settles (range start_year (end_year + 1)) force self).
Qed.

(** X6.  Whenever [add_year] changes the series, the new series has its
    labels on the grid of the class, ascending by one offset from the
    first to the last: no label repeats and none is missing in between;
    and the cache holds the series. *)
Theorem add_year_series_is_contiguous self (year : Z) (force : bool) :
  add_year self year force = self
  ∨ (contiguous (freq_of (cls self)) (tempC (add_year self year force))
     ∧ tempC (add_year self year force) ≠ []
     ∧ cache_file (add_year self year force) = tempC (add_year self year force)).
Proof.
  destruct (add_year_series self year force)
    as [(_ & _ & Hsame) | (batch & Htemp & Hcache & Hbatch)]; [by left | right].
  rewrite Hcache, Htemp, merge_unsorted.
  assert (Hne : tempC self ++ batch ≠ []).
  { pose proof (Hbatch _ (year_existence_in_empty_series (cls self) year)) as Hin.
    intros [_ ->]%app_eq_nil. by apply elem_of_nil in Hin. }
  destruct (labels_of_nonempty _ Hne) as (lo & hi & Hlo & Hhi & Hle).
  pose proof (offset_pos (freq_of (cls self))) as Hw.
  rewrite (resample_mean_unfold _ _ lo hi Hlo Hhi).
  split; [|split; [|done]].
  - exists (bin (offset (freq_of (cls self))) lo).
    eexists. split; [by apply bin_idem|].
    unfold index. by rewrite <- list_fmap_compose.
  - assert (0 ≤ (bin (offset (freq_of (cls self))) hi
                 - bin (offset (freq_of (cls self))) lo)
                / offset (freq_of (cls self))).
    { apply Z.div_pos; [|done].
      pose proof (bin_mono (offset (freq_of (cls self))) lo hi Hw Hle). lia. }
    rewrite seqZ_cons by lia. discriminate.
Qed.

(** X7.  In every state that a source reaches from its restored series,
    the cache holds exactly the series: each path of [add_year] that
    changes [tempC] saves it. *)
Theorem cache_holds_series self :
  reachable self → cache_file self = tempC self.
Proof.
  assert (Hstep : ∀ s year force,
            cache_file s = tempC s →
            cache_file (add_year s year force) = tempC (add_year s year force)).
  { intros s year force Hs.
    destruct (add_year_series s year force)
      as [(_ & _ & ->) | (batch & _ & Hcache & _)]; done. }
  assert (Hloop : ∀ years force s,
            cache_file s = tempC s →
            cache_file (foldl (λ s year, add_year s year force) s years)
            = tempC (foldl (λ s year, add_year s year force) s years)).
  { induction years as [|y years IH]; intros force s Hs; cbn [foldl]; [done|].
    by apply IH, Hstep. }
  induction 1 as [c station_id cached noaa history _ | s op _ IH]; [reflexivity|].
  destruct op as [year force | a b force | today | idx unit]; cbn [perform].
  - by apply Hstep.
  - by apply Hloop.
  - unfold _check_for_recent_data. cbv zeta. destruct (_ && _); [|done].
    by apply Hstep.
  - unfold indexed_temperatures. cbn [fst]. unfold _verify_index_presence.
    destruct (values idx); [done|]. by apply Hloop.
Qed.

Lemma cache_holds_series_witness :
  reachable (add_year gsod_fresh 2020 false)
  ∧ cache_file (add_year gsod_fresh 2020 false)
    = tempC (add_year gsod_fresh 2020 false).
Proof.
  assert (Hreach : reachable (add_year gsod_fresh 2020 false)).
  { apply (reachable_perform gsod_fresh (op_add_year 2020 false)).
    apply reachable_restored. intros t Ht. by apply elem_of_nil in Ht. }
  split; [exact Hreach|]. exact (cache_holds_series _ Hreach).
Defined.

End SessionProperties.

(** * Further properties of [eemeter/weather/noaa.py]: what a fetch stores *)

Section FetchedData.
Import Pandas NOAA NOAAFacts NOAAExamples.

(** The series after an [add_year] that reaches the client. *)
Lemma add_year_fetch_series self year force :
  negb force && _year_fetch_attempted self year = false →
  tempC (add_year self year force)
  = merge (freq_of (cls self)) (tempC self)
      (fill (cls self) (_empty_series (cls self) year) (fetched self year)).
Proof.
  intros Hfetch. unfold add_year, GSOD.add_year, ISD.add_year.
  destruct (cls self) eqn:Hc; rewrite Hfetch; unfold fetched; rewrite Hc;
    reflexivity.
Qed.

Lemma fill_null_readings c (s : list (Z * pyfloat)) (data : list Reading) :
  Forall (λ r, isnull (temp_C r) = true) data → fill c s data = s.
Proof.
  unfold fill. induction 1 as [|r data Hr _ IH]; cbn [foldl]; [done|].
  by rewrite Hr.
Qed.

Lemma null_readings_are_ignored_series self (year : Z) (force : bool) :
  negb force && _year_fetch_attempted self year = false →
  Forall (λ r, isnull (temp_C r) = true) (fetched self year) →
  tempC (add_year self year force)
  = merge (freq_of (cls self)) (tempC self) (_empty_series (cls self) year).
Proof.
  intros Hfetch Hnull. rewrite add_year_fetch_series by done.
  by rewrite fill_null_readings.
Qed.

(** X8.  Readings without a value change nothing: when every reading of
    the client's answer is null, the series after the fetch is the one the
    empty series of the year gives, as after an empty answer. *)
Theorem null_readings_are_ignored self (year : Z) (force : bool) :
  negb force && _year_fetch_attempted self year = false →
  Forall (λ r, isnull (temp_C r) = true) (fetched self year) →
  tempC (add_year self year force)
  = merge (freq_of (cls self)) (tempC self) (_empty_series (cls self) year).
Proof.
  intros Hfetch Hnull. rewrite add_year_fetch_series by done.
  by rewrite fill_null_readings.
Qed.

Lemma null_readings_are_ignored_witness :
  fetched gsod_fresh_sentinel 2020 = [ {| date := jan2_2020; temp_C := NaN |} ]
  ∧ tempC (add_year gsod_fresh_sentinel 2020 false)
    = merge (freq_of (cls gsod_fresh_sentinel)) (tempC gsod_fresh_sentinel)
        (_empty_series (cls gsod_fresh_sentinel) 2020).
Proof.
  split; [reflexivity|].
  apply (null_readings_are_ignored gsod_fresh_sentinel 2020 false).
  - vm_compute. reflexivity.
  - repeat constructor.
Defined.

(** ** Resampling a grid of nulls *)

Lemma nanmean_all_nan (vs : list pyfloat) :
  Forall (λ v, v = NaN) vs → nanmean vs = NaN.
Proof. intros Hall. unfold nanmean. by rewrite unmasked_all_nan. Qed.

Lemma bin_values_all_null w b (s : list (Z * pyfloat)) :
  Forall (λ e, e.2 = NaN) s → Forall (λ v, v = NaN) (bin_values w b s).
Proof.
  intros Hall. unfold bin_values. rewrite Forall_fmap.
  apply Forall_forall. intros e [_ He]%list_elem_of_filter.
  rewrite Forall_forall in Hall. by apply Hall.
Qed.

Lemma resample_null_grid f lo n :
  bin (offset f) lo = lo →
  resample_mean f (null_series ((λ i, lo + offset f * i) <$> seqZ 0 n))
  = null_series ((λ i, lo + offset f * i) <$> seqZ 0 n).
Proof.
  intros Hal. pose proof (offset_pos f) as Hw. set (w := offset f) in *.
  destruct (decide (n ≤ 0)) as [Hn | Hn]; [by rewrite seqZ_nil|].
  set (S := null_series ((λ i, lo + w * i) <$> seqZ 0 n)).
  assert (Hidx : ∀ x, x ∈ index S ↔ ∃ i, 0 ≤ i < n ∧ x = lo + w * i).
  { intros x. subst S. rewrite index_null_series, list_elem_of_fmap.
    setoid_rewrite elem_of_seqZ. split; intros (i & H1 & H2); exists i;
      (split; [lia | done]) || (split; [done | lia]). }
  assert (Hlo : first_label S = Some lo).
  { apply first_label_spec. split.
    - apply Hidx. exists 0. split; lia.
    - intros x (i & Hi & ->)%Hidx. nia. }
  assert (Hhi : last_label S = Some (lo + w * (n - 1))).
  { apply last_label_spec. split.
    - apply Hidx. exists (n - 1). split; lia.
    - intros x (i & Hi & ->)%Hidx. nia. }
  rewrite (resample_mean_unfold f S _ _ Hlo Hhi). fold w.
  assert (Hhi_al : bin w (lo + w * (n - 1)) = lo + w * (n - 1)).
  { rewrite <- Hal at 1. rewrite bin_step by done. by rewrite Hal. }
  rewrite Hhi_al, Hal.
  replace ((lo + w * (n - 1) - lo) / w + 1) with n.
  2:{ replace (lo + w * (n - 1) - lo) with ((n - 1) * w) by lia.
      rewrite Z.div_mul by lia. lia. }
  subst S. unfold null_series at 2. rewrite <- list_fmap_compose.
  apply list_fmap_ext. intros _ i _. cbn. f_equal.
  apply nanmean_all_nan, bin_values_all_null, null_series_all_null.
Qed.

(** The empty series of a year is a grid that starts on the anchor. *)
Lemma empty_series_grid c (year : Z) :
  ∃ n, 0 < n
       ∧ _empty_series c year
         = null_series ((λ i, year_existence year + offset (freq_of c) * i)
                          <$> seqZ 0 n).
Proof.
  pose proof (year_length_pos year) as Hlen.
  destruct c; cbn [_empty_series freq_of].
  - unfold GSOD._empty_series, GSOD.freq, date_range.
    fold (year_existence year). eexists. split; [|reflexivity].
    rewrite year_existence_eq, december_31_eq. cbn [offset].
    replace (_days_before_year (year + 1) * 86400
             - (_days_before_year year + 1) * 86400)
      with ((_days_before_year (year + 1) - _days_before_year year - 1) * 86400)
      by lia.
    rewrite Z.div_mul by lia. lia.
  - unfold ISD._empty_series, ISD.freq.
    fold (year_existence year) (year_existence (year + 1)).
    assert (Hspan : (year_existence (year + 1) - year_existence year) / 3600
                    = (_days_before_year (year + 1) - _days_before_year year) * 24).
    { rewrite !year_existence_eq.
      replace ((_days_before_year (year + 1) + 1) * 86400
               - (_days_before_year year + 1) * 86400)
        with ((_days_before_year (year + 1) - _days_before_year year) * 24 * 3600)
        by lia.
      apply Z.div_mul. lia. }
    rewrite removelast_date_range by (cbn [offset]; rewrite Hspan; lia).
    eexists. split; [|reflexivity]. cbn [offset]. rewrite Hspan. lia.
Qed.

(** X9.  A fetch that brings no value into an empty series leaves exactly
    the empty series of the year: every native timestamp from 1 January
    to the end of December is a label, and every value is null. *)
Theorem fetch_without_data_leaves_null_year self (year : Z) (force : bool) :
  tempC self = [] →
  Forall (λ r, isnull (temp_C r) = true) (fetched self year) →
  tempC (add_year self year force) = _empty_series (cls self) year
  ∧ _year_fetch_attempted (add_year self year force) year = true.
Proof.
  intros Hempty Hnull. split; [|apply add_year_attempts].
  assert (Hmerge : merge (freq_of (cls self)) [] (_empty_series (cls self) year)
                   = _empty_series (cls self) year).
  { rewrite merge_unsorted. cbn [app].
    destruct (empty_series_grid (cls self) year) as (n & _ & ->).
    apply resample_null_grid, year_existence_aligned. }
  destruct (negb force && _year_fetch_attempted self year) eqn:Hskip.
  - assert (Hin : _year_in_series self year = false)
      by (unfold _year_in_series; by rewrite Hempty).
    apply andb_true_iff in Hskip as [Hforce Hatt].
    destruct force; [discriminate|].
    unfold add_year, GSOD.add_year, ISD.add_year.
    destruct (cls self); cbn [negb andb]; rewrite Hatt, Hin;
      cbn [tempC save_to_cache set_tempC]; rewrite Hempty; exact Hmerge.
  - rewrite null_readings_are_ignored_series by done.
    rewrite Hempty. exact Hmerge.
Qed.

Lemma fetch_without_data_leaves_null_year_witness :
  tempC gsod_fresh = []
  ∧ Forall (λ r, isnull (temp_C r) = true) (fetched gsod_fresh 2020)
  ∧ tempC (add_year gsod_fresh 2020 false) = _empty_series (cls gsod_fresh) 2020.
Proof.
  assert (H1 : tempC gsod_fresh = []) by reflexivity.
  assert (H2 : Forall (λ r, isnull (temp_C r) = true) (fetched gsod_fresh 2020))
    by constructor.
  split; [exact H1|]. split; [exact H2|].
  exact (proj1 (fetch_without_data_leaves_null_year gsod_fresh 2020 false H1 H2)).
Defined.

(** ** The value a fetch leaves at a label *)

Lemma at_label_resample f (s : list (Z * pyfloat)) t :
  t ∈ index (resample_mean f s) →
  at_label t (resample_mean f s)
  = Some (nanmean (bin_values (offset f) t s)).
Proof.
  intros Ht. destruct (at_label_in_index _ _ Ht) as [v Hv]. rewrite Hv. f_equal.
  unfold at_label in Hv.
  destruct (list_find _ _) as [[i e]|] eqn:Hfind; [|discriminate].
  cbn in Hv. injection Hv as <-.
  apply list_find_Some in Hfind as (Hi & He & _).
  apply list_elem_of_lookup_2 in Hi.
  destruct (decide (s = [])) as [-> | Hne]; [by apply elem_of_nil in Hi|].
  destruct (labels_of_nonempty s Hne) as (lo & hi & Hlo & Hhi & _).
  rewrite (resample_mean_unfold f s lo hi Hlo Hhi) in Hi.
  apply list_elem_of_fmap in Hi as (j & -> & _). cbn in He |- *. by rewrite He.
Qed.

Lemma filter_fmap_same_label w t
    (g : Z * pyfloat → Z * pyfloat) (s : list (Z * pyfloat)) :
  (∀ e, (g e).1 = e.1) →
  filter (λ e, bin w e.1 = t) (g <$> s) = g <$> filter (λ e, bin w e.1 = t) s.
Proof.
  intros Hg. induction s as [|e s IH]; [reflexivity|].
  cbn [fmap list_fmap]. destruct (decide (bin w e.1 = t)) as [Hq | Hq].
  - rewrite !filter_cons_True by (by rewrite ?Hg). cbn [fmap list_fmap].
    by rewrite <- IH.
  - rewrite !filter_cons_False by (by rewrite ?Hg). exact IH.
Qed.

(** One [setitem] and the entries of a bin that holds the single entry
    [(t, v)]. *)
Lemma setitem_bin w t v key value (s : list (Z * pyfloat)) :
  filter (λ e, bin w e.1 = t) s = [(t, v)] →
  (bin w key = t → key = t) →
  filter (λ e, bin w e.1 = t) (setitem s key value)
  = [(t, if decide (key = t) then value else v)].
Proof.
  intros Hbin Hkey. unfold setitem.
  assert (Hin : (t, v) ∈ s).
  { assert ((t, v) ∈ filter (λ e, bin w e.1 = t) s) as Hf%list_elem_of_filter
      by (rewrite Hbin; by left).
    by destruct Hf. }
  destruct (contains key s) eqn:Hc.
  - rewrite filter_fmap_same_label.
    2:{ intros e. by case_bool_decide. }
    rewrite Hbin. cbn. case_bool_decide; case_decide; subst; done.
  - rewrite filter_app, Hbin.
    assert (Hne : key ≠ t).
    { intros ->. apply not_true_iff_false in Hc. apply Hc.
      apply contains_true, list_elem_of_fmap. by exists (t, v). }
    rewrite filter_cons_False by (cbn; intros ?; by apply Hne, Hkey).
    rewrite decide_False by done. reflexivity.
Qed.

Lemma fill_bin c w t x (data : list Reading) :
  (∀ r, r ∈ data → isnull (temp_C r) = false →
        bin w (reading_label c r) = t →
        reading_label c r = t ∧ temp_C r = Num x) →
  ∀ (s : list (Z * pyfloat)) v,
    filter (λ e, bin w e.1 = t) s = [(t, v)] →
    ∃ v', filter (λ e, bin w e.1 = t) (fill c s data) = [(t, v')]
          ∧ (v = Num x → v' = Num x)
          ∧ ((∃ r, r ∈ data ∧ reading_label c r = t ∧ temp_C r = Num x)
             → v' = Num x)
          ∧ ((∀ r, r ∈ data → isnull (temp_C r) = false
                   → reading_label c r ≠ t) → v' = v).
Proof.
  unfold fill. induction data as [|r data IH]; intros Hdata s v Hs; cbn [foldl].
  { exists v. split; [done|]. split; [done|].
    split; [by intros (r & ?%elem_of_nil & _) | done]. }
  assert (Hrest : ∀ r', r' ∈ data → isnull (temp_C r') = false →
            bin w (reading_label c r') = t →
            reading_label c r' = t ∧ temp_C r' = Num x)
    by (intros r' Hr'; apply Hdata; by right).
  destruct (isnull (temp_C r)) eqn:Hnull; cbn [negb].
  - destruct (IH Hrest s v Hs) as (v' & Hv' & Hkeep & Hset & Hnone).
    exists v'. split; [done|]. split; [done|]. split.
    + intros (r' & [-> | Hr']%elem_of_cons & Hl & Hx).
      * rewrite Hx in Hnull. discriminate.
      * apply Hset. by exists r'.
    + intros Hno. apply Hnone. intros r' Hr'. apply Hno. by right.
  - pose proof (Hdata r ltac:(by left) Hnull) as Hr.
    pose proof (setitem_bin w t v (reading_label c r) (temp_C r) s Hs
                  (λ H, proj1 (Hr H))) as Hset1.
    destruct (decide (reading_label c r = t)) as [Hl | Hl].
    + assert (Hb : bin w (reading_label c r) = t).
      { assert ((t, v) ∈ filter (λ e, bin w e.1 = t) s)
          as [Hb _]%list_elem_of_filter by (rewrite Hs; by left).
        by rewrite Hl. }
      destruct (Hr Hb) as [_ Hx]. rewrite Hx in Hset1.
      destruct (IH Hrest _ _ Hset1) as (v' & Hv' & Hkeep & _ & _).
      assert (v' = Num x) as -> by by apply Hkeep.
      exists (Num x). split; [by rewrite Hx|].
      split; [done|]. split; [done|].
      intros Hno. exfalso. apply (Hno r); [by left | done | done].
    + destruct (IH Hrest _ _ Hset1) as (v' & Hv' & Hkeep & Hset & Hnone).
      exists v'. split; [done|]. split; [exact Hkeep|]. split.
      * intros (r' & [-> | Hr']%elem_of_cons & Hl' & Hx); [done|].
        apply Hset. by exists r'.
      * intros Hno. apply Hnone. intros r' Hr'. apply Hno. by right.
Qed.

Lemma null_grid_bin w lo j (n : nat) (m : Z) :
  0 < w → bin w lo = lo →
  filter (λ e : Z * pyfloat, bin w e.1 = lo + w * j)
         (null_series ((λ i, lo + w * i) <$> seqZ m (Z.of_nat n)))
  = if decide (m ≤ j < m + Z.of_nat n) then [(lo + w * j, NaN)] else [].
Proof.
  intros Hw Hal. revert m. induction n as [|n IH]; intros m.
  - cbn. case_decide; [lia | reflexivity].
  - rewrite seqZ_cons by lia. unfold null_series in *. cbn [fmap list_fmap].
    replace (Z.pred (Z.of_nat (S n))) with (Z.of_nat n) by lia.
    assert (Hhead : bin w (lo + w * m) = lo + w * m).
    { rewrite <- Hal at 1. rewrite bin_step by done. by rewrite Hal. }
    destruct (decide (m = j)) as [-> | Hne].
    + rewrite filter_cons_True by (cbn; exact Hhead).
      rewrite IH. rewrite decide_False by lia. rewrite decide_True by lia.
      reflexivity.
    + rewrite filter_cons_False by (cbn; rewrite Hhead; nia).
      rewrite IH. repeat case_decide; (reflexivity || lia).
Qed.

Lemma empty_series_bin c (year t : Z) :
  native_timestamp c year t →
  filter (λ e, bin (offset (freq_of c)) e.1 = t) (_empty_series c year)
  = [(t, NaN)].
Proof.
  intros Hn. pose proof (empty_series_covers c year t Hn) as Hin.
  pose proof (offset_pos (freq_of c)) as Hw.
  destruct (empty_series_grid c year) as (n & Hpos & Hgrid).
  rewrite Hgrid in Hin |- *. rewrite index_null_series in Hin.
  apply list_elem_of_fmap in Hin as (j & -> & Hj%elem_of_seqZ).
  replace n with (Z.of_nat (Z.to_nat n)) by lia.
  rewrite null_grid_bin by (done || apply year_existence_aligned).
  rewrite decide_True by lia. reflexivity.
Qed.

Lemma fill_keeps_index c (s : list (Z * pyfloat)) (data : list Reading) t :
  t ∈ index s → t ∈ index (fill c s data).
Proof.
  intros Ht. unfold fill. apply fill_index; [|exact Ht].
  intros s' r y Hy. destruct (negb (isnull (temp_C r))); [|done].
  by apply setitem_index.
Qed.

Lemma nanmean_single_known (vs : list pyfloat) (x : Qc) :
  known_values vs = [x] → nanmean vs = Num x.
Proof.
  intros Hk. rewrite nanmean_known, Hk. f_equal.
  apply arithmetic_mean_eq; [done|]. cbn [foldr length].
  change (Z.of_nat 1) with 1. rewrite Z2Qc_inj_1. ring.
Qed.

(** The value at a native timestamp of the year after a fetch, when the
    stored series holds no value in the bin of the timestamp. *)
Lemma fetch_bin_value self (year : Z) (force : bool) (t : Z) (x : Qc) :
  negb force && _year_fetch_attempted self year = false →
  native_timestamp (cls self) year t →
  known_values (bin_values (offset (freq_of (cls self))) t (tempC self)) = [] →
  (∀ r, r ∈ fetched self year → isnull (temp_C r) = false →
        bin (offset (freq_of (cls self))) (reading_label (cls self) r) = t →
        reading_label (cls self) r = t ∧ temp_C r = Num x) →
  ∃ v, at_label t (tempC (add_year self year force)) = Some v
       ∧ ((∃ r, r ∈ fetched self year ∧ reading_label (cls self) r = t
                ∧ temp_C r = Num x) → v = Num x)
       ∧ ((∀ r, r ∈ fetched self year → isnull (temp_C r) = false
                → reading_label (cls self) r ≠ t) → v = NaN).
Proof.
  intros Hfetch Hn Hstored Hdata.
  rewrite add_year_fetch_series by done. rewrite merge_unsorted.
  set (c := cls self) in *. set (w := offset (freq_of c)) in *.
  set (N := fill c (_empty_series c year) (fetched self year)).
  destruct (fill_bin c w t x (fetched self year) Hdata
              (_empty_series c year) NaN (empty_series_bin c year t Hn))
    as (v' & Hbin & _ & Hset & Hnone).
  fold N in Hbin.
  assert (Hin : t ∈ index (resample_mean (freq_of c) (tempC self ++ N))).
  { rewrite <- (proj2 Hn). apply bin_in_index_resample.
    rewrite index_app. apply elem_of_app. right.
    by apply fill_keeps_index, empty_series_covers. }
  rewrite at_label_resample by done. fold w.
  assert (Hvals : bin_values w t (tempC self ++ N)
                  = bin_values w t (tempC self) ++ [v']).
  { rewrite bin_values_app. f_equal. unfold bin_values. by rewrite Hbin. }
  eexists. split; [reflexivity|]. split.
  - intros Hr. rewrite (Hset Hr) in Hvals.
    apply nanmean_single_known. rewrite Hvals, known_values_app, Hstored.
    reflexivity.
  - intros Hno. rewrite (Hnone Hno) in Hvals.
    rewrite nanmean_known, Hvals, known_values_app, Hstored. reflexivity.
Qed.

(** X10.  A fetch stores what the client reports: if the series held no
    value in the bin of a native timestamp [t] of the year, and every
    reading with a value that falls in that bin is filed at [t] with the
    value [x], one of them at least, then the series reads [x] at [t]
    after [add_year]. *)
Theorem fetched_value_is_stored self (year : Z) (force : bool) (t : Z) (x : Qc) :
  negb force && _year_fetch_attempted self year = false →
  native_timestamp (cls self) year t →
  known_values (bin_values (offset (freq_of (cls self))) t (tempC self)) = [] →
  (∃ r, r ∈ fetched self year ∧ reading_label (cls self) r = t
        ∧ temp_C r = Num x) →
  (∀ r, r ∈ fetched self year → isnull (temp_C r) = false →
        bin (offset (freq_of (cls self))) (reading_label (cls self) r) = t →
        reading_label (cls self) r = t ∧ temp_C r = Num x) →
  at_label t (tempC (add_year self year force)) = Some (Num x).
Proof.
  intros Hfetch Hn Hstored Hr Hdata.
  destruct (fetch_bin_value self year force t x Hfetch Hn Hstored Hdata)
    as (v & Hv & Hset & _).
  by rewrite Hv, (Hset Hr).
Qed.

Lemma fetched_value_is_stored_witness :
  native_timestamp (cls gsod_fresh_20) 2020 jan1_2020
  ∧ (∃ r, r ∈ fetched gsod_fresh_20 2020
          ∧ reading_label (cls gsod_fresh_20) r = jan1_2020
          ∧ temp_C r = Num (Qc_of_Z 20))
  ∧ at_label jan1_2020 (tempC (add_year gsod_fresh_20 2020 false))
    = Some (Num (Qc_of_Z 20)).
Proof.
  assert (H1 : negb false && _year_fetch_attempted gsod_fresh_20 2020 = false)
    by (vm_compute; reflexivity).
  assert (H2 : native_timestamp (cls gsod_fresh_20) 2020 jan1_2020)
    by (split; vm_compute; reflexivity).
  assert (H3 : known_values
                 (bin_values (offset (freq_of (cls gsod_fresh_20))) jan1_2020
                    (tempC gsod_fresh_20)) = []) by reflexivity.
  assert (H4 : ∃ r, r ∈ fetched gsod_fresh_20 2020
                    ∧ reading_label (cls gsod_fresh_20) r = jan1_2020
                    ∧ temp_C r = Num (Qc_of_Z 20)).
  { exists {| date := jan1_2020; temp_C := twenty |}.
    split; [by left | by split]. }
  assert (H5 : ∀ r, r ∈ fetched gsod_fresh_20 2020 → isnull (temp_C r) = false →
             bin (offset (freq_of (cls gsod_fresh_20)))
                 (reading_label (cls gsod_fresh_20) r) = jan1_2020 →
             reading_label (cls gsod_fresh_20) r = jan1_2020
             ∧ temp_C r = Num (Qc_of_Z 20)).
  { intros r Hr _ _. apply list_elem_of_singleton in Hr as ->. by split. }
  split; [exact H2|]. split; [exact H4|].
  exact (fetched_value_is_stored gsod_fresh_20 2020 false jan1_2020 (Qc_of_Z 20)
           H1 H2 H3 H4 H5).
Defined.

(** X11.  A gap stays an explicit null: if the series held no value in
    the bin of a native timestamp [t] of the year and no reading with a
    value is filed in that bin, the series holds [t] with a null after
    the fetch. *)
Theorem missing_reading_is_stored_as_null self (year : Z) (force : bool) (t : Z) :
  negb force && _year_fetch_attempted self year = false →
  native_timestamp (cls self) year t →
  known_values (bin_values (offset (freq_of (cls self))) t (tempC self)) = [] →
  (∀ r, r ∈ fetched self year → isnull (temp_C r) = false →
        bin (offset (freq_of (cls self))) (reading_label (cls self) r) ≠ t) →
  at_label t (tempC (add_year self year force)) = Some NaN.
Proof.
  intros Hfetch Hn Hstored Hnone.
  destruct (fetch_bin_value self year force t 0%Qc Hfetch Hn Hstored)
    as (v & Hv & _ & Hnull).
  { intros r Hr Hnn Hb. by destruct (Hnone r Hr Hnn). }
  rewrite Hv. f_equal. apply Hnull. intros r Hr Hnn Hl.
  apply (Hnone r Hr Hnn). rewrite Hl. apply Hn.
Qed.

Lemma missing_reading_is_stored_as_null_witness :
  native_timestamp (cls gsod_fresh_20) 2020 (jan1_2020 + 86400)
  ∧ at_label (jan1_2020 + 86400) (tempC (add_year gsod_fresh_20 2020 false))
    = Some NaN.
Proof.
  assert (H1 : negb false && _year_fetch_attempted gsod_fresh_20 2020 = false)
    by (vm_compute; reflexivity).
  assert (H2 : native_timestamp (cls gsod_fresh_20) 2020 (jan1_2020 + 86400))
    by (split; vm_compute; reflexivity).
  assert (H3 : known_values
                 (bin_values (offset (freq_of (cls gsod_fresh_20)))
                    (jan1_2020 + 86400) (tempC gsod_fresh_20)) = [])
    by reflexivity.
  assert (H4 : ∀ r, r ∈ fetched gsod_fresh_20 2020 → isnull (temp_C r) = false →
             bin (offset (freq_of (cls gsod_fresh_20)))
                 (reading_label (cls gsod_fresh_20) r) ≠ jan1_2020 + 86400).
  { intros r Hr _. apply list_elem_of_singleton in Hr as ->.
    vm_compute. discriminate. }
  split; [exact H2|].
  exact (missing_reading_is_stored_as_null gsod_fresh_20 2020 false
           (jan1_2020 + 86400) H1 H2 H3 H4).
Defined.

End FetchedData.

(** * Properties of [eemeter/weather/noaa.py]: what a year leaves in the series *)

Section YearClaims.
Import Pandas NOAA NOAAFacts NOAAExamples.

Lemma days_before_year_mono (a b : Z) :
  a < b → _days_before_year a < _days_before_year b.
Proof. unfold _days_before_year. cbv zeta. intros Hab. Z.div_mod_to_equations. lia. Qed.

Lemma year_of_year_existence (year : Z) :
  Calendar.year (year_existence year) = year.
Proof.
  pose proof (year_bounds (year_existence year)) as [Hlo Hhi].
  set (y := Calendar.year (year_existence year)) in *. clearbody y.
  rewrite !year_existence_eq in Hlo, Hhi.
  destruct (Z.lt_trichotomy y year) as [Hlt | [Heq | Hgt]]; [|done|].
  - assert (y + 1 ≤ year) as Hle by lia.
    apply Zle_lt_or_eq in Hle as [Hlt' | <-]; [|lia].
    pose proof (days_before_year_mono _ _ Hlt'). lia.
  - pose proof (days_before_year_mono _ _ Hgt). lia.
Qed.

Lemma year_existence_native c (year : Z) :
  native_timestamp c year (year_existence year).
Proof. split; [apply year_of_year_existence | apply year_existence_aligned]. Qed.

(** Through the operations of the class a year is marked as attempted
    only after its anchor has entered the series. *)
Lemma attempted_year_is_in_series self (year : Z) :
  series_invariant self →
  _year_fetch_attempted self year = true → _year_in_series self year = true.
Proof.
  intros [_ Hcov] Hatt%bool_decide_eq_true.
  apply contains_true, (Hcov year Hatt), year_existence_native.
Qed.

Lemma known_values_nil (vs : list pyfloat) :
  known_values vs = [] ↔ Forall (λ v, v = NaN) vs.
Proof.
  unfold known_values. induction vs as [|[q|] vs IH]; cbn [omap list_omap].
  - split; [constructor | done].
  - split; [discriminate | by intros [? _]%Forall_cons].
  - rewrite IH. split; [by constructor | by intros [_ ?]%Forall_cons].
Qed.



Lemma nanmean_app_null (vs nulls : list pyfloat) :
  Forall (λ v, v = NaN) nulls → nanmean (vs ++ nulls) = nanmean vs.
Proof.
  intros Hnull%known_values_nil.
  by rewrite !nanmean_known, known_values_app, Hnull, app_nil_r.
Qed.

Lemma merge_contiguous f (series batch : list (Z * pyfloat)) :
  series ++ batch ≠ [] → contiguous f (merge f series batch).
Proof.
  intros Hne. rewrite merge_unsorted.
  destruct (labels_of_nonempty _ Hne) as (lo & hi & Hlo & Hhi & Hle).
  pose proof (offset_pos f) as Hw.
  rewrite (resample_mean_unfold _ _ lo hi Hlo Hhi).
  exists (bin (offset f) lo). eexists. split; [by apply bin_idem|].
  unfold index. by rewrite <- list_fmap_compose.
Qed.



(** C10.  An unforced [add_year] for a year that is in the set of
    attempted years makes no client call and leaves that set as it is.
    If the anchor of the year is in the series, nothing changes; through
    the operations of the class this is always so.  If the anchor is
    absent (the series was assigned from outside), the all-null series of
    the year is appended, the whole is sorted by label and resampled, and
    the result saved to the cache: the labels
    of the new series are ascending on the grid without gap or repeat,
    every native timestamp of the year and the bin of every old label is
    among them, and each label reads the mean of the values that the old
    series held in its bin, null where it held none. *)
Theorem unforced_add_year_of_attempted_absent_year self (year : Z) :
  _year_fetch_attempted self year = true →
  let self' := add_year self year false in
  let w := offset (freq_of (cls self)) in
  requests self' = requests self
  ∧ _year_fetches_attempted self' = _year_fetches_attempted self
  ∧ (_year_in_series self year = true → self' = self)
  ∧ (reachable self → _year_in_series self year = true)
  ∧ (_year_in_series self year = false →
     (let sorted := sort_index (append (tempC self) (_empty_series (cls self) year)) in
      tempC self' = resample_mean (freq_of (cls self)) sorted
      ∧ Sorted (λ a b, a.1 ≤ b.1) sorted
      ∧ sorted ≡ₚ tempC self ++ _empty_series (cls self) year)
     ∧ cache_file self' = tempC self'
     ∧ contiguous (freq_of (cls self)) (tempC self')
     ∧ (∀ t, native_timestamp (cls self) year t → t ∈ index (tempC self'))
     ∧ (∀ t, t ∈ index (tempC self) → bin w t ∈ index (tempC self'))
     ∧ (∀ b, b ∈ index (tempC self') →
          at_label b (tempC self')
          = Some (nanmean (bin_values w b (tempC self))))).
Proof.
  intros Hatt self' w. subst self' w.
  split; [rewrite add_year_requests; cbn [negb andb]; by rewrite Hatt, app_nil_r|].
  split; [rewrite add_year_attempted; cbn [negb andb]; by rewrite Hatt|].
  split; [intros Hin; by apply add_year_noop|].
  split.
  { intros Hinv%reachable_invariant. by apply attempted_year_is_in_series. }
  intros Hin.
  assert (Htemp : tempC (add_year self year false)
                  = merge (freq_of (cls self)) (tempC self)
                      (_empty_series (cls self) year)
                  ∧ cache_file (add_year self year false)
                    = tempC (add_year self year false)).
  { unfold add_year, GSOD.add_year, ISD.add_year.
    destruct (cls self); cbn [negb andb]; rewrite Hatt, Hin; by split. }
  destruct Htemp as [Htemp Hcache]. rewrite Hcache, Htemp.
  split.
  { cbv zeta. split; [reflexivity|].
    split; [apply sort_index_sorted | apply sort_index_perm]. }
  split; [reflexivity|]. split.
  { apply merge_contiguous. intros [_ Hempty]%app_eq_nil.
    pose proof (year_existence_in_empty_series (cls self) year) as Hanchor.
    rewrite Hempty in Hanchor. by apply elem_of_nil in Hanchor. }
  split.
  { intros t Hn. apply merge_index_r; [|apply Hn]. by apply empty_series_covers. }
  split.
  { intros t Ht. rewrite merge_unsorted. apply bin_in_index_resample.
    rewrite index_app. apply elem_of_app. by left. }
  intros b Hb. rewrite merge_unsorted in Hb |- *.
  rewrite at_label_resample by done. f_equal.
  rewrite bin_values_app. apply nanmean_app_null.
  apply bin_values_all_null, empty_series_all_null.
Qed.

Lemma unforced_add_year_of_attempted_absent_year_witness :
  add_year (add_year gsod_fresh 2020 false) 2020 false
    = add_year gsod_fresh 2020 false
  ∧ _year_fetch_attempted gsod_assigned 2020 = true
  ∧ _year_in_series gsod_assigned 2020 = false
  ∧ requests (add_year gsod_assigned 2020 false) = requests gsod_assigned
  ∧ at_label jan1_2020 (tempC (add_year gsod_assigned 2020 false)) = Some NaN
  ∧ at_label (mk_datetime 2021 1 1 0) (tempC (add_year gsod_assigned 2020 false))
    = Some ten.
Proof.
  assert (Hfetched : _year_fetch_attempted (add_year gsod_fresh 2020 false) 2020 = true)
    by (vm_compute; reflexivity).
  assert (Hreach : reachable (add_year gsod_fresh 2020 false)).
  { apply (reachable_perform _ (op_add_year 2020 false)).
    apply reachable_restored. intros t Ht. by apply elem_of_nil in Ht. }
  destruct (unforced_add_year_of_attempted_absent_year
              (add_year gsod_fresh 2020 false) 2020 Hfetched)
    as (_ & _ & Hsame & Hanchor & _).
  split; [exact (Hsame (Hanchor Hreach))|].
  assert (Hatt : _year_fetch_attempted gsod_assigned 2020 = true)
    by (vm_compute; reflexivity).
  assert (Hin : _year_in_series gsod_assigned 2020 = false)
    by (vm_compute; reflexivity).
  destruct (unforced_add_year_of_attempted_absent_year gsod_assigned 2020 Hatt)
    as (Hrequests & _ & _ & _ & Hbranch).
  destruct (Hbranch Hin) as (_ & _ & _ & Hyear & Hold & Hvalue).
  split; [exact Hatt|]. split; [exact Hin|]. split; [exact Hrequests|].
  split.
  - rewrite Hvalue; [reflexivity|]. apply Hyear.
    split; vm_compute; reflexivity.
  - rewrite Hvalue; [qc_eval|].
    apply (Hold (mk_datetime 2021 1 1 0)). by left.
Defined.

End YearClaims.

(** * Further properties of [eemeter/weather/noaa.py]: indexed temperatures *)

Section IndexedTemperatures.
Import Pandas NOAA NOAAFacts NOAAExamples.

Lemma filter_attempted_ext (A B : gset Z) (years : list Z) :
  (∀ y, y ∈ years → (y ∉ A ↔ y ∉ B)) →
  filter (λ y, y ∉ A) years = filter (λ y, y ∉ B) years.
Proof.
  induction years as [|y years IH]; intros Hext; [reflexivity|].
  assert (Hrest : filter (λ y, y ∉ A) years = filter (λ y, y ∉ B) years)
    by (apply IH; intros y' Hy'; apply Hext; by right).
  destruct (decide (y ∉ A)) as [Hy | Hy].
  - rewrite !filter_cons_True by (done || by apply (Hext y); [left|]).
    by rewrite Hrest.
  - rewrite !filter_cons_False
      by (done || (intros Hb; apply Hy; by apply (Hext y); [left|])).
    exact Hrest.
Qed.

(** An unforced loop over distinct years asks for those that were not
    attempted before, in the order of the loop. *)
Lemma unforced_loop_requests (years : list Z) self :
  NoDup years →
  requests (foldl (λ self year, add_year self year false) self years)
  = requests self
    ++ (request_for (cls self) (station self)
          <$> filter (λ y, y ∉ _year_fetches_attempted self) years).
Proof.
  revert self. induction years as [|y years IH]; intros self Hnd; cbn [foldl].
  { by rewrite app_nil_r. }
  apply NoDup_cons in Hnd as [Hy Hnd].
  rewrite IH by done.
  rewrite add_year_requests, add_year_cls, add_year_station, add_year_attempted.
  cbn [negb andb]. unfold _year_fetch_attempted. case_bool_decide as Hatt.
  - rewrite app_nil_r. by rewrite filter_cons_False by (intros H'; by apply H').
  - rewrite filter_cons_True by done. cbn [fmap list_fmap].
    rewrite <- app_assoc. cbn [app]. do 3 f_equal.
    apply filter_attempted_ext. intros y' Hy'. split.
    + intros Hn Hin. apply Hn, elem_of_union. by right.
    + intros Hn [->%elem_of_singleton | Hin]%elem_of_union; done.
Qed.

(** X12.  [indexed_temperatures] asks the client for exactly the years of
    the timestamps of the index that were not attempted in this session,
    each once; an empty index asks for nothing. *)
Theorem indexed_temperatures_requests self (idx : DatetimeIndex) (unit : string) :
  ∃ asked,
    requests (indexed_temperatures self idx unit).1 = requests self ++ asked
    ∧ NoDup asked
    ∧ ∀ r, r ∈ asked ↔
           ∃ t, t ∈ values idx
                ∧ _year_fetch_attempted self (Calendar.year t) = false
                ∧ r = request_for (cls self) (station self) (Calendar.year t).
Proof.
  unfold indexed_temperatures. cbn [fst]. unfold _verify_index_presence.
  destruct (values idx) as [|t0 ts] eqn:Hvals.
  { exists []. rewrite app_nil_r. split; [done|]. split; [constructor|].
    intros r. split; [by intros ?%elem_of_nil|].
    by intros (t & ?%elem_of_nil & _). }
  set (years := remove_dups (Calendar.year <$> t0 :: ts)).
  assert (Hnd : NoDup years) by apply NoDup_remove_dups.
  eexists. split; [by apply unforced_loop_requests|]. split.
  - apply NoDup_fmap_2_strong; [|by apply NoDup_filter].
    intros y y' _ _ Heq. by destruct (cls self); injection Heq.
  - intros r. rewrite list_elem_of_fmap. split.
    + intros (y & -> & [Hatt Hy]%list_elem_of_filter).
      apply elem_of_remove_dups, list_elem_of_fmap in Hy as (t & -> & Ht).
      exists t. split; [done|]. split; [by apply bool_decide_eq_false | done].
    + intros (t & Ht & Hatt & ->). exists (Calendar.year t). split; [done|].
      apply list_elem_of_filter. split; [by apply bool_decide_eq_false in Hatt|].
      apply elem_of_remove_dups, list_elem_of_fmap. by exists t.
Qed.

(** After [_verify_index_presence] the series holds every timestamp of
    the index that sits on the native grid. *)
Lemma verify_index_presence_covers self idx t :
  series_invariant self → t ∈ values idx →
  bin (offset (freq_of (cls self))) t = t →
  t ∈ index (tempC (_verify_index_presence self idx)).
Proof.
  intros Hinv Ht Hal. unfold _verify_index_presence.
  destruct (values idx) as [|t0 ts] eqn:Hvals; [by apply elem_of_nil in Ht|].
  set (years := remove_dups (Calendar.year <$> t0 :: ts)).
  destruct (add_year_loop_invariant years false self Hinv) as [[_ Hcov] _].
  destruct (add_year_loop_settles years false self) as (_ & _ & Hall).
  destruct (add_year_loop_cls_station years false self) as [Hcls _].
  apply (Hcov (Calendar.year t)).
  - destruct (Hall (Calendar.year t)) as [Hatt _].
    { apply elem_of_remove_dups, list_elem_of_fmap. by exists t. }
    by apply bool_decide_eq_true in Hatt.
  - rewrite Hcls. by split.
Qed.

Lemma select_resampled f (s : list (Z * pyfloat)) (idx : DatetimeIndex) :
  (∀ t, t ∈ values idx → t ∈ index s ∧ bin (offset f) t = t) →
  select (resample_mean f s) idx
  = Ok ((λ t, (t, nanmean (bin_values (offset f) t s))) <$> values idx).
Proof.
  intros Hall. unfold select. apply for_append_ok. intros t Ht.
  destruct (Hall t Ht) as [Hin Hal].
  rewrite at_label_resample; [done|].
  rewrite <- Hal. by apply bin_in_index_resample.
Qed.

Lemma day_is_on_hour_grid t : bin 86400 t = t → bin 3600 t = t.
Proof.
  unfold bin. intros Hd. rewrite <- Hd at 1.
  replace (86400 * (t / 86400)) with (24 * (t / 86400) * 3600) by lia.
  rewrite Z.div_mul by lia. lia.
Qed.

(** X13.  On a reachable source of either class, a daily index whose
    timestamps are midnights never meets a missing label: the result is
    [_unit_convert] of the series that pairs each timestamp, in index
    order, with the mean of the values stored for that day, nulls left
    out, and null when the day has no value. *)
Theorem daily_indexed_temperatures self (idx : DatetimeIndex) (unit : string) :
  reachable self →
  freq_is idx D = true →
  (∀ t, t ∈ values idx → bin 86400 t = t) →
  (indexed_temperatures self idx unit).2
  = _unit_convert
      ((λ t, (t, nanmean (bin_values 86400 t
                            (tempC (_verify_index_presence self idx)))))
         <$> values idx)
      unit.
Proof.
  intros Hinv%reachable_invariant Hfreq Hal.
  unfold indexed_temperatures. cbn [snd].
  rewrite Hfreq.
  unfold _daily_indexed_temperatures.
  rewrite (select_resampled D); [reflexivity|].
  intros t Ht. split; [|by apply Hal].
  apply verify_index_presence_covers; [done..|].
  destruct (cls self); cbn [freq_of offset];
    [by apply Hal | by apply day_is_on_hour_grid, Hal].
Qed.

Lemma daily_indexed_temperatures_witness :
  reachable gsod_fresh
  ∧ freq_is index_two_days D = true
  ∧ (∀ t, t ∈ values index_two_days → bin 86400 t = t)
  ∧ (indexed_temperatures gsod_fresh index_two_days "degF").2
    = _unit_convert
        ((λ t, (t, nanmean (bin_values 86400 t
                   (tempC (_verify_index_presence gsod_fresh index_two_days)))))
           <$> values index_two_days)
        "degF".
Proof.
  assert (H1 : reachable gsod_fresh).
  { apply reachable_restored. intros t Ht. by apply elem_of_nil in Ht. }
  assert (H2 : freq_is index_two_days D = true) by reflexivity.
  assert (H3 : ∀ t, t ∈ values index_two_days → bin 86400 t = t).
  { intros t Ht. cbn in Ht.
    apply elem_of_cons in Ht as [-> | Ht]; [vm_compute; reflexivity|].
    apply list_elem_of_singleton in Ht as ->. vm_compute. reflexivity. }
  split; [exact H1|]. split; [exact H2|]. split; [exact H3|].
  exact (daily_indexed_temperatures gsod_fresh index_two_days "degF" H1 H2 H3).
Defined.

Lemma hourly_is_not_daily (idx : DatetimeIndex) :
  freq_is idx H = true → freq_is idx D = false.
Proof.
  unfold freq_is. destruct (Pandas.freq idx) as [[nanos text|text]|]; [|done..].
  cbn [offset_eq offset]. intros Hh%Z.eqb_eq. apply Z.eqb_neq. lia.
Qed.

(** X14.  On a reachable source of the hourly class, an hourly index
    whose timestamps are on the hour never meets a missing label: the
    result is [_unit_convert] of the series that pairs each timestamp,
    in index order, with the value stored for that hour. *)
Theorem hourly_indexed_temperatures self (idx : DatetimeIndex) (unit : string) :
  reachable self →
  cls self = ISDWeatherSource →
  freq_is idx H = true →
  (∀ t, t ∈ values idx → bin 3600 t = t) →
  (indexed_temperatures self idx unit).2
  = _unit_convert
      ((λ t, (t, nanmean (bin_values 3600 t
                            (tempC (_verify_index_presence self idx)))))
         <$> values idx)
      unit.
Proof.
  intros Hinv%reachable_invariant Hcls Hfreq Hal.
  unfold indexed_temperatures. cbn [snd].
  rewrite (hourly_is_not_daily idx Hfreq), Hfreq.
  unfold _hourly_indexed_temperatures.
  rewrite verify_index_presence_cls, Hcls.
  rewrite (select_resampled H); [reflexivity|].
  intros t Ht. split; [|by apply Hal].
  apply verify_index_presence_covers; [done..|].
  rewrite Hcls. by apply Hal.
Qed.

Lemma hourly_indexed_temperatures_witness :
  reachable isd_fresh
  ∧ cls isd_fresh = ISDWeatherSource
  ∧ freq_is index_two_hours H = true
  ∧ (∀ t, t ∈ values index_two_hours → bin 3600 t = t)
  ∧ (indexed_temperatures isd_fresh index_two_hours "degC").2
    = _unit_convert
        ((λ t, (t, nanmean (bin_values 3600 t
                   (tempC (_verify_index_presence isd_fresh index_two_hours)))))
           <$> values index_two_hours)
        "degC".
Proof.
  assert (H1 : reachable isd_fresh).
  { apply reachable_restored. intros t Ht. by apply elem_of_nil in Ht. }
  assert (H2 : cls isd_fresh = ISDWeatherSource) by reflexivity.
  assert (H3 : freq_is index_two_hours H = true) by reflexivity.
  assert (H4 : ∀ t, t ∈ values index_two_hours → bin 3600 t = t).
  { intros t Ht. cbn in Ht.
    apply elem_of_cons in Ht as [-> | Ht]; [vm_compute; reflexivity|].
    apply list_elem_of_singleton in Ht as ->. vm_compute. reflexivity. }
  split; [exact H1|]. split; [exact H2|]. split; [exact H3|]. split; [exact H4|].
  exact (hourly_indexed_temperatures isd_fresh index_two_hours "degC" H1 H2 H3 H4).
Defined.

End IndexedTemperatures.

(** * Further properties of [eemeter/weather.py] *)

Section LegacySources.
Import Legacy LegacyFiles LegacyExamples.

Lemma for_append_fmap {A B C} (f : A → B) (body : B → result C) (l : list A) :
  for_append (λ a, body (f a)) l = for_append body (f <$> l).
Proof.
  induction l as [|a l IH]; [reflexivity|].
  cbn [for_append fmap list_fmap]. rewrite IH. reflexivity.
Qed.

Lemma for_append_raise {A B} (body : A → result B) (l1 l2 : list A) (a : A) e :
  Forall (λ a, ∃ b, body a = Ok b) l1 →
  body a = Raise e →
  for_append body (l1 ++ a :: l2) = Raise e.
Proof.
  intros Hall Hraise. induction Hall as [|a' l1 [b Hb] _ IH].
  - cbn [app for_append]. rewrite Hraise. reflexivity.
  - cbn [app for_append]. rewrite Hb, IH. reflexivity.
Qed.

Lemma xrange_nonpos (n : Z) : n ≤ 0 → xrange n = [].
Proof.
  intros Hn. unfold xrange, seqZ.
  replace (Z.to_nat n) with 0%nat by lia. reflexivity.
Qed.

Lemma masked_nan_mean_known (vs : list pyfloat) :
  masked_nan_mean vs
  = match NOAA.known_values vs with
    | [] => masked
    | qs => Float (Num (arithmetic_mean qs))
    end.
Proof.
  unfold masked_nan_mean. rewrite unmasked_known.
  pose proof (fsum_Num (NOAA.known_values vs)) as Hsum.
  pose proof (length_fmap Num (NOAA.known_values vs)) as Hlen.
  destruct (NOAA.known_values vs) as [|q qs]; [reflexivity|].
  cbn [fmap list_fmap] in *. rewrite Hsum, Hlen. reflexivity.
Qed.

Lemma known_values_hourly (data : gmap string Quantity) (u unit : Unit)
    (keys : list string) :
  NOAA.known_values
    ((λ key, magnitude (to (default (Q_ NaN u) (data !! key)) unit)) <$> keys)
  = (λ v, convert v.2 unit v.1) <$> known_temperatures data keys.
Proof.
  unfold NOAA.known_values, known_temperatures.
  induction keys as [|key keys IH]; [reflexivity|].
  cbn [fmap list_fmap omap list_omap]. rewrite IH.
  destruct (data !! key) as [[[x|] u']|]; reflexivity.
Qed.

Lemma masked_nan_mean_hourly (data : gmap string Quantity) (u unit : Unit)
    (keys : list string) :
  masked_nan_mean
    ((λ key, magnitude (to (default (Q_ NaN u) (data !! key)) unit)) <$> keys)
  = match known_temperatures data keys with
    | [] => masked
    | temps => Float (Num (arithmetic_mean ((λ v, convert v.2 unit v.1) <$> temps)))
    end.
Proof.
  rewrite masked_nan_mean_known, known_values_hourly.
  by destruct (known_temperatures data keys).
Qed.

(** X15.  Over any dict and any consumption the hourly sources (ISD, and
    TMY3 under its keys without a year) raise nothing and return the
    arithmetic mean, in the target unit, of the hours of the interval that
    hold a known value; hours that are missing or [nan] do not count, and
    without a known hour the result is the [masked] constant. *)
Theorem hourly_average_is_mean_of_known_hours (c : Consumption) (unit : Unit) :
  (∀ self : ISDWeatherSource.t,
     get_consumption_average_temperature self c unit
     = Ok match known_temperatures (ISDWeatherSource._data self) (isd_keys c) with
          | [] => masked
          | temps => Float (Num (arithmetic_mean ((λ v, convert v.2 unit v.1) <$> temps)))
          end)
  ∧ (∀ self : TMY3WeatherSource.t,
     get_consumption_average_temperature self c unit
     = Ok match known_temperatures (TMY3WeatherSource._data self) (tmy3_keys c) with
          | [] => masked
          | temps => Float (Num (arithmetic_mean ((λ v, convert v.2 unit v.1) <$> temps)))
          end).
Proof.
  split; intros self; cbn [get_consumption_average_temperature
                            ISD_WeatherSource TMY3_WeatherSource].
  - unfold ISDWeatherSource.get_consumption_average_temperature. cbv zeta.
    rewrite (for_append_ok _
      (λ hours, magnitude (to (default (Q_ NaN (ISDWeatherSource._source_unit self))
         (ISDWeatherSource._data self
            !! strftime_YmdH (add_seconds (start c) (hours * 3600)))) unit)))
      by reflexivity.
    cbn [mbind result_bind]. f_equal.
    rewrite <- (masked_nan_mean_hourly _ (ISDWeatherSource._source_unit self)).
    unfold isd_keys. rewrite <- list_fmap_compose. reflexivity.
  - unfold TMY3WeatherSource.get_consumption_average_temperature. cbv zeta.
    rewrite (for_append_ok _
      (λ hours, magnitude (to (default (Q_ NaN (TMY3WeatherSource._source_unit self))
         (TMY3WeatherSource._data self
            !! strftime_mdH (add_seconds (start c) (hours * 3600)))) unit)))
      by reflexivity.
    cbn [mbind result_bind]. f_equal.
    rewrite <- (masked_nan_mean_hourly _ (TMY3WeatherSource._source_unit self)).
    unfold tmy3_keys. rewrite <- list_fmap_compose. reflexivity.
Qed.

Lemma for_append_ext {A B} (body body' : A → result B) (l : list A) :
  (∀ a, a ∈ l → body a = body' a) → for_append body l = for_append body' l.
Proof.
  induction l as [|a l IH]; intros Hext; [reflexivity|].
  cbn [for_append]. rewrite (Hext a) by left.
  rewrite IH by (intros; apply Hext; by right). reflexivity.
Qed.

Lemma gsod_average_over_keys (self : GSODWeatherSource.t) (c : Consumption)
    (unit : Unit) :
  GSODWeatherSource.get_consumption_average_temperature self c unit
  = avg_temps ←
      for_append (λ key,
          match GSODWeatherSource._data self !! key with
          | Some temp => Ok (magnitude (to temp unit))
          | None => Raise (KeyError key)
          end) (gsod_keys c);
    Ok (Float (np_mean avg_temps)).
Proof.
  unfold GSODWeatherSource.get_consumption_average_temperature, gsod_keys.
  cbv zeta. rewrite <- for_append_fmap. reflexivity.
Qed.

Lemma fsum_nan (l : list pyfloat) : NaN ∈ l → fsum l = NaN.
Proof.
  unfold fsum. induction l as [|x l IH]; intros Hin.
  - by apply elem_of_nil in Hin.
  - cbn [foldr]. apply elem_of_cons in Hin as [<- | Hin]; [reflexivity|].
    rewrite IH by exact Hin. by destruct x.
Qed.

(** X16.  The daily source raises [KeyError] with the key of the first
    day of the interval that is not in its dict, whatever the days after
    it hold. *)
Theorem daily_average_raises_at_first_missing_day
    (self : GSODWeatherSource.t) (c : Consumption) (unit : Unit)
    (before after : list string) (key : string) :
  gsod_keys c = before ++ key :: after →
  Forall (λ k, is_Some (GSODWeatherSource._data self !! k)) before →
  GSODWeatherSource._data self !! key = None →
  get_consumption_average_temperature self c unit = Raise (KeyError key).
Proof.
  intros Hkeys Hbefore Hmissing.
  cbn [get_consumption_average_temperature GSOD_WeatherSource].
  rewrite gsod_average_over_keys, Hkeys.
  rewrite (for_append_raise _ _ _ _ (KeyError key)); [reflexivity | |].
  - eapply Forall_impl; [exact Hbefore|].
    intros k [temp Hk]. rewrite Hk. by eexists.
  - rewrite Hmissing. reflexivity.
Qed.

Lemma daily_average_raises_at_first_missing_day_witness :
  get_consumption_average_temperature
    gsod_10_20 LegacyFilesExamples.three_days degF
  = Raise (KeyError "20200103").
Proof.
  apply (daily_average_raises_at_first_missing_day
           gsod_10_20 LegacyFilesExamples.three_days degF
           ["20200101"; "20200102"]%string []).
  - vm_compute. reflexivity.
  - repeat constructor; vm_compute; by eexists.
  - vm_compute. reflexivity.
Defined.

(** X17.  The daily source does not mask: when every day of the interval
    is in the dict and one of them holds [nan], the average is [nan]. *)
Theorem daily_average_with_nan_day
    (self : GSODWeatherSource.t) (c : Consumption) (unit : Unit)
    (key : string) (u : Unit) :
  Forall (λ k, is_Some (GSODWeatherSource._data self !! k)) (gsod_keys c) →
  key ∈ gsod_keys c →
  GSODWeatherSource._data self !! key = Some (Q_ NaN u) →
  get_consumption_average_temperature self c unit = Ok (Float NaN).
Proof.
  intros Hall Hin Hnan.
  cbn [get_consumption_average_temperature GSOD_WeatherSource].
  rewrite gsod_average_over_keys.
  rewrite (for_append_ok _
    (λ k, magnitude (to (default (Q_ NaN u) (GSODWeatherSource._data self !! k)) unit))).
  - cbn [mbind result_bind]. do 2 f_equal. unfold np_mean.
    rewrite fsum_nan; [reflexivity|].
    apply list_elem_of_fmap. exists key. split; [|exact Hin].
    rewrite Hnan. reflexivity.
  - intros k Hk. rewrite Forall_forall in Hall.
    destruct (Hall k Hk) as [temp ->]. reflexivity.
Qed.

Lemma daily_average_with_nan_day_witness :
  get_consumption_average_temperature
    LegacyFilesExamples.gsod_10_nan two_days degF
  = Ok (Float NaN).
Proof.
  apply (daily_average_with_nan_day
           LegacyFilesExamples.gsod_10_nan two_days degF "20200102" degC).
  - repeat constructor; vm_compute; by eexists.
  - vm_compute. right. left.
  - vm_compute. reflexivity.
Defined.

(** X18.  A consumption without a whole day gives [nan] on the daily
    sources (GSOD, Weather Underground), which read no key at all; if it
    has no whole hour either, the hourly sources (ISD, TMY3) give the
    [masked] constant.  No source raises on such an interval. *)
Theorem interval_without_a_period (c : Consumption) (unit : Unit) :
  Calendar.days (timedelta c) ≤ 0 →
  (∀ self : GSODWeatherSource.t,
     get_consumption_average_temperature self c unit = Ok (Float NaN))
  ∧ (∀ self : WeatherUndergroundWeatherSource.t,
     get_consumption_average_temperature self c unit = Ok (Float NaN))
  ∧ (Calendar.seconds (timedelta c) < 3600 →
     (∀ self : ISDWeatherSource.t,
        get_consumption_average_temperature self c unit = Ok masked)
     ∧ (∀ self : TMY3WeatherSource.t,
        get_consumption_average_temperature self c unit = Ok masked)).
Proof.
  intros Hdays. split; [|split].
  - intros self. cbn [get_consumption_average_temperature GSOD_WeatherSource].
    unfold GSODWeatherSource.get_consumption_average_temperature.
    rewrite xrange_nonpos by exact Hdays. reflexivity.
  - intros self.
    cbn [get_consumption_average_temperature WeatherUnderground_WeatherSource].
    unfold WeatherUndergroundWeatherSource.get_consumption_average_temperature.
    rewrite xrange_nonpos by exact Hdays. reflexivity.
  - intros Hseconds.
    assert (Hhours : Calendar.days (timedelta c) * 24
                     + Calendar.seconds (timedelta c) / 3600 ≤ 0)
      by (Z.div_mod_to_equations; lia).
    split; intros self.
    + cbn [get_consumption_average_temperature ISD_WeatherSource].
      unfold ISDWeatherSource.get_consumption_average_temperature. cbv zeta.
      rewrite xrange_nonpos by exact Hhours. reflexivity.
    + cbn [get_consumption_average_temperature TMY3_WeatherSource].
      unfold TMY3WeatherSource.get_consumption_average_temperature. cbv zeta.
      rewrite xrange_nonpos by exact Hhours. reflexivity.
Qed.

Lemma interval_without_a_period_witness :
  get_consumption_average_temperature
    gsod_no_data LegacyFilesExamples.half_hour degF = Ok (Float NaN)
  ∧ get_consumption_average_temperature
      isd_no_data LegacyFilesExamples.half_hour degF = Ok masked.
Proof.
  destruct (interval_without_a_period LegacyFilesExamples.half_hour degF)
    as (Hgsod & _ & Hhourly); [vm_compute; discriminate|].
  split; [apply Hgsod|].
  apply Hhourly. reflexivity.
Defined.

(** X19.  [get_average_temperature] stops at the first consumption whose
    average raises: the exception of that consumption is the outcome of
    the call, and no list is returned. *)
Theorem get_average_temperature_raises_first_exception
    {Source} `{WeatherSourceBase Source} (self : Source)
    (consumption_history : ConsumptionHistory)
    (fuel_type unit_name : string) (unit : Unit)
    (before after : list Consumption) (c : Consumption) (e : exception) :
  parse_expression unit_name = Ok unit →
  get consumption_history fuel_type = before ++ c :: after →
  Forall (λ c', ∃ t, get_consumption_average_temperature self c' unit = Ok t)
         before →
  get_consumption_average_temperature self c unit = Raise e →
  get_average_temperature self consumption_history fuel_type unit_name = Raise e.
Proof.
  intros Hunit Hget Hbefore Hraise. unfold get_average_temperature.
  rewrite Hunit. cbn [mbind result_bind]. rewrite Hget.
  by apply for_append_raise.
Qed.

Lemma get_average_temperature_raises_first_exception_witness :
  get_average_temperature gsod_10_20 LegacyFilesExamples.history_beyond_data
                          "electricity" "degF"
  = Raise (KeyError "20200103").
Proof.
  apply (get_average_temperature_raises_first_exception
           gsod_10_20 LegacyFilesExamples.history_beyond_data
           "electricity" "degF" degF [two_days] [] LegacyFilesExamples.three_days).
  - reflexivity.
  - reflexivity.
  - repeat constructor. eexists. vm_compute. reflexivity.
  - vm_compute. reflexivity.
Defined.

(** X20.  A Weather Underground source whose days all hold a
    ["meantempi"] entry answers every consumption as the daily source
    over the dict of those entries does: same average, and the same
    [KeyError] at the first missing day. *)
Theorem weather_underground_is_a_daily_source
    (self : WeatherUndergroundWeatherSource.t) (c : Consumption)
    (unit source_unit : Unit) :
  map_Forall (λ _ day, is_Some (day !! "meantempi"%string))
             (WeatherUndergroundWeatherSource._data self) →
  get_consumption_average_temperature self c unit
  = get_consumption_average_temperature
      {| GSODWeatherSource._data :=
           meantempi (WeatherUndergroundWeatherSource._data self);
         GSODWeatherSource._source_unit := source_unit |} c unit.
Proof.
  intros Hall.
  cbn [get_consumption_average_temperature GSOD_WeatherSource
       WeatherUnderground_WeatherSource].
  unfold WeatherUndergroundWeatherSource.get_consumption_average_temperature,
    GSODWeatherSource.get_consumption_average_temperature.
  cbv zeta. cbn [GSODWeatherSource._data].
  erewrite for_append_ext; [reflexivity|].
  intros d _. cbv beta. unfold meantempi. rewrite lookup_omap.
  destruct (WeatherUndergroundWeatherSource._data self !! _) as [day|] eqn:Hday;
    [|reflexivity].
  cbn [mbind option_bind].
  destruct (Hall _ _ Hday) as [temp ->]. reflexivity.
Qed.

Lemma weather_underground_is_a_daily_source_witness :
  get_consumption_average_temperature LegacyFilesExamples.wunderground_50 one_day degF
  = get_consumption_average_temperature
      {| GSODWeatherSource._data :=
           meantempi (WeatherUndergroundWeatherSource._data
                        LegacyFilesExamples.wunderground_50);
         GSODWeatherSource._source_unit := degF |} one_day degF.
Proof.
  apply (weather_underground_is_a_daily_source
           LegacyFilesExamples.wunderground_50 one_day degF degF).
  intros k day Hk. unfold LegacyFilesExamples.wunderground_50 in Hk.
  cbn [WeatherUndergroundWeatherSource._data] in Hk.
  apply lookup_singleton_Some in Hk as [_ <-].
  by eexists.
Defined.

Lemma hour_range (t : datetime) : 0 ≤ hour t < 24.
Proof. unfold hour. Z.div_mod_to_equations. lia. Qed.

Lemma pad2_hour_not_24 (h : Z) : 0 ≤ h < 24 → pad2 h ≠ "24"%string.
Proof.
  intros Hh Heq.
  assert (Hcases : h ∈ seqZ 0 24) by (apply elem_of_seqZ; lia).
  cbn in Hcases.
  repeat (apply elem_of_cons in Hcases as [-> | Hcases];
          [vm_compute in Heq; discriminate|]).
  by apply elem_of_nil in Hcases.
Qed.

Lemma slice_strftime_mdH (t : datetime) :
  slice (strftime_mdH t) 4 6 = pad2 (hour t).
Proof. reflexivity. Qed.

(** X21.  The normal-year source never reads an entry whose hour field
    is ["24"] (the last hour of a day in a TMY3 file): storing any value
    under such a key changes no average. *)
Theorem tmy3_hour_24_is_never_read
    (self : TMY3WeatherSource.t) (key : string) (q : Quantity)
    (c : Consumption) (unit : Unit) :
  slice key 4 6 = "24"%string →
  get_consumption_average_temperature
    {| TMY3WeatherSource.station_id := TMY3WeatherSource.station_id self;
       TMY3WeatherSource._data := <[key := q]> (TMY3WeatherSource._data self);
       TMY3WeatherSource._source_unit := TMY3WeatherSource._source_unit self |}
    c unit
  = get_consumption_average_temperature self c unit.
Proof.
  intros Hkey.
  cbn [get_consumption_average_temperature TMY3_WeatherSource].
  unfold TMY3WeatherSource.get_consumption_average_temperature.
  cbv zeta. cbn [TMY3WeatherSource._data TMY3WeatherSource._source_unit].
  erewrite for_append_ext; [reflexivity|].
  intros h _. cbv beta. rewrite lookup_insert_ne; [reflexivity|].
  intros ->. rewrite slice_strftime_mdH in Hkey.
  by apply (pad2_hour_not_24 _ (hour_range _)) in Hkey.
Qed.

Lemma tmy3_hour_24_is_never_read_witness :
  get_consumption_average_temperature
    {| TMY3WeatherSource.station_id := "725300";
       TMY3WeatherSource._data :=
         <["010124" := Q_ (Num (Qc_of_Z 5)) degC]> ∅;
       TMY3WeatherSource._source_unit := degC |}
    two_days degF
  = get_consumption_average_temperature
      LegacyFilesExamples.tmy3_no_data two_days degF.
Proof.
  apply (tmy3_hour_24_is_never_read
           LegacyFilesExamples.tmy3_no_data "010124" (Q_ (Num (Qc_of_Z 5)) degC)
           two_days degF).
  reflexivity.
Defined.

End LegacySources.

(** * Properties of the file readers of [eemeter/weather.py] *)

Section LegacyReaders.
Import Legacy LegacyFiles LegacyExamples LegacyFilesExamples.

Variable float : string → result pyfloat.

Lemma for_lines_app {Source}
    (body : Source → string → Source * option interruption)
    (self : Source) (l1 l2 : list string) :
  for_lines body self (l1 ++ l2)
  = match for_lines body self l1 with
    | (self', None) => for_lines body self' l2
    | stopped => stopped
    end.
Proof.
  revert self. induction l1 as [|line l1 IH]; intros self; [reflexivity|].
  cbn [app for_lines]. destruct (body self line) as [self' [stop|]];
    [reflexivity | apply IH].
Qed.

Lemma slice_short (line : string) (i j : nat) :
  (String.length line ≤ i)%nat → slice line i j = EmptyString.
Proof.
  unfold slice. generalize (j - i)%nat as m. revert i.
  induction line as [|a line IH]; intros i m Hlen.
  - by destruct i, m.
  - destruct i as [|i]; [cbn in Hlen; lia|].
    cbn [String.substring]. apply IH. cbn in Hlen. lia.
Qed.

(** The reading that a line of an ISD file stands for. *)
Lemma isd_add_line_ok (self : ISDWeatherSource.t) (line : string) (x : pyfloat) :
  float (slice line 87 92) = Ok x →
  ISDFile._add_line float self line
  = ({| ISDWeatherSource._data :=
          <[slice line 15 25 :=
              Q_ (if String.eqb (slice line 87 92) "+9999" then NaN else fdiv10 x)
                 (ISDWeatherSource._source_unit self)]>
            (ISDWeatherSource._data self);
        ISDWeatherSource._source_unit := ISDWeatherSource._source_unit self |},
     None).
Proof.
  intros Hx. unfold ISDFile._add_line. rewrite Hx. cbv zeta.
  by destruct (String.eqb _ _).
Qed.

Lemma isd_add_file_ok (lines : list string) (self : ISDWeatherSource.t) :
  Forall (λ l, ∃ y, float (slice l 87 92) = Ok y) lines →
  ∃ self',
    ISDFile._add_file float self lines = (self', None)
    ∧ ISDWeatherSource._source_unit self' = ISDWeatherSource._source_unit self
    ∧ ∀ key, Forall (λ l, slice l 15 25 ≠ key) lines →
        ISDWeatherSource._data self' !! key = ISDWeatherSource._data self !! key.
Proof.
  unfold ISDFile._add_file. intros Hall. revert self.
  induction Hall as [|line lines [y Hy] _ IH]; intros self.
  - exists self. by repeat split.
  - cbn [for_lines]. rewrite (isd_add_line_ok _ _ _ Hy).
    destruct (IH {| ISDWeatherSource._data :=
          <[slice line 15 25 :=
              Q_ (if String.eqb (slice line 87 92) "+9999" then NaN else fdiv10 y)
                 (ISDWeatherSource._source_unit self)]>
            (ISDWeatherSource._data self);
        ISDWeatherSource._source_unit := ISDWeatherSource._source_unit self |})
      as (self' & Hrun & Hunit & Hframe).
    exists self'. split; [exact Hrun|]. split; [exact Hunit|].
    intros key Hkey. apply Forall_cons in Hkey as [Hline Hkey].
    rewrite (Hframe key Hkey). cbn [ISDWeatherSource._data].
    by rewrite lookup_insert_ne.
Qed.

(** X22.  When [float] reads the temperature field of every line,
    [ISDWeatherSource._add_file] returns normally and the dict holds,
    under the date and hour of a line, the reading of the last line with
    that date and hour: a tenth of its field in the unit of the source,
    or [nan] when the field is the sentinel ["+9999"].  Keys that no line
    carries keep their entries. *)
Theorem isd_file_stores_last_reading
    (self : ISDWeatherSource.t) (before after : list string) (line : string)
    (x : pyfloat) :
  Forall (λ l, ∃ y, float (slice l 87 92) = Ok y) (before ++ line :: after) →
  float (slice line 87 92) = Ok x →
  Forall (λ l, slice l 15 25 ≠ slice line 15 25) after →
  ∃ self',
    ISDFile._add_file float self (before ++ line :: after) = (self', None)
    ∧ ISDWeatherSource._source_unit self' = ISDWeatherSource._source_unit self
    ∧ ISDWeatherSource._data self' !! slice line 15 25
      = Some (Q_ (if String.eqb (slice line 87 92) "+9999" then NaN else fdiv10 x)
                 (ISDWeatherSource._source_unit self))
    ∧ ∀ key, Forall (λ l, slice l 15 25 ≠ key) (before ++ line :: after) →
        ISDWeatherSource._data self' !! key = ISDWeatherSource._data self !! key.
Proof.
  intros Hall Hx Hafter.
  destruct (isd_add_file_ok _ self Hall) as (self' & Hrun & Hunit & Hframe).
  exists self'. split; [exact Hrun|]. split; [exact Hunit|].
  split; [|exact Hframe].
  apply Forall_app in Hall as [Hbefore Hrest].
  apply Forall_cons in Hrest as [_ Hrest].
  destruct (isd_add_file_ok _ self Hbefore) as (self1 & Hrun1 & Hunit1 & _).
  unfold ISDFile._add_file in *.
  rewrite for_lines_app, Hrun1 in Hrun. cbn [for_lines] in Hrun.
  rewrite (isd_add_line_ok _ _ _ Hx) in Hrun.
  destruct (isd_add_file_ok _
    {| ISDWeatherSource._data :=
          <[slice line 15 25 :=
              Q_ (if String.eqb (slice line 87 92) "+9999" then NaN else fdiv10 x)
                 (ISDWeatherSource._source_unit self1)]>
            (ISDWeatherSource._data self1);
        ISDWeatherSource._source_unit := ISDWeatherSource._source_unit self1 |}
    Hrest) as (self2 & Hrun2 & _ & Hframe2).
  unfold ISDFile._add_file in Hrun2. rewrite Hrun2 in Hrun.
  injection Hrun as <-.
  rewrite (Hframe2 _ Hafter). cbn [ISDWeatherSource._data].
  rewrite lookup_insert_eq, Hunit1. reflexivity.
Qed.

(** X23.  [float] is applied to the temperature field before the field
    is compared with the sentinel, and a line of fewer than 88 characters
    has an empty field: if [float] rejects the empty string, such a line
    stops [ISDWeatherSource._add_file] with that exception, the dict
    holding what the lines before it have stored. *)
Theorem isd_file_stops_at_short_line
    (self : ISDWeatherSource.t) (before after : list string) (line : string)
    (e : exception) :
  Forall (λ l, ∃ y, float (slice l 87 92) = Ok y) before →
  (String.length line ≤ 87)%nat →
  float EmptyString = Raise e →
  ISDFile._add_file float self (before ++ line :: after)
  = ((ISDFile._add_file float self before).1, Some (Exception e)).
Proof.
  intros Hbefore Hshort Hempty.
  destruct (isd_add_file_ok _ self Hbefore) as (self1 & Hrun1 & _).
  unfold ISDFile._add_file in *. rewrite for_lines_app, Hrun1.
  cbn [for_lines fst]. unfold ISDFile._add_line.
  rewrite (slice_short line 87 92 Hshort), Hempty. reflexivity.
Qed.

Lemma gsod_add_line_ok (self : GSODWeatherSource.t) (line column : string)
    (x : pyfloat) :
  split line !! 3%nat = Some column →
  float column = Ok x →
  ∃ key, split line !! 2%nat = Some key
    ∧ GSODFile._add_line float self line
      = ({| GSODWeatherSource._data :=
              <[key := Q_ x (GSODWeatherSource._source_unit self)]>
                (GSODWeatherSource._data self);
            GSODWeatherSource._source_unit := GSODWeatherSource._source_unit self |},
         None).
Proof.
  intros Hcolumn Hx.
  destruct (lookup_lt_is_Some_2 (split line) 2) as [key Hkey].
  { apply lookup_lt_Some in Hcolumn. lia. }
  exists key. split; [exact Hkey|].
  unfold GSODFile._add_line. cbv zeta. rewrite Hcolumn, Hx, Hkey. reflexivity.
Qed.

Lemma gsod_add_rows_ok (rows : list string) (self : GSODWeatherSource.t) :
  Forall (λ l, ∃ column y, split l !! 3%nat = Some column ∧ float column = Ok y)
         rows →
  ∃ self',
    for_lines (GSODFile._add_line float) self rows = (self', None)
    ∧ GSODWeatherSource._source_unit self' = GSODWeatherSource._source_unit self
    ∧ ∀ key, Forall (λ l, split l !! 2%nat ≠ Some key) rows →
        GSODWeatherSource._data self' !! key = GSODWeatherSource._data self !! key.
Proof.
  intros Hall. revert self.
  induction Hall as [|line rows (column & y & Hcolumn & Hy) _ IH]; intros self.
  - exists self. by repeat split.
  - cbn [for_lines].
    destruct (gsod_add_line_ok self _ _ _ Hcolumn Hy) as (k & Hk & ->).
    destruct (IH {| GSODWeatherSource._data :=
              <[k := Q_ y (GSODWeatherSource._source_unit self)]>
                (GSODWeatherSource._data self);
            GSODWeatherSource._source_unit := GSODWeatherSource._source_unit self |})
      as (self' & Hrun & Hunit & Hframe).
    exists self'. split; [exact Hrun|]. split; [exact Hunit|].
    intros key Hkey. apply Forall_cons in Hkey as [Hline Hkey].
    rewrite (Hframe key Hkey). cbn [GSODWeatherSource._data].
    rewrite lookup_insert_ne; [reflexivity|]. intros ->. by apply Hline.
Qed.

(** X24.  [GSODWeatherSource._add_file] skips the first line of the file.
    When every later line has a fourth column that [float] reads, it
    returns normally and the dict holds, under the third column of a
    line, the float of the fourth column of the last line with that third
    column, in the unit of the source and whatever its value: no value is
    taken for a sentinel.  Keys that no such line carries keep their
    entries. *)
Theorem gsod_file_stores_last_row
    (self : GSODWeatherSource.t) (header : string) (before after : list string)
    (line key column : string) (x : pyfloat) :
  Forall (λ l, ∃ column y, split l !! 3%nat = Some column ∧ float column = Ok y)
         (before ++ line :: after) →
  split line !! 2%nat = Some key →
  split line !! 3%nat = Some column →
  float column = Ok x →
  Forall (λ l, split l !! 2%nat ≠ Some key) after →
  ∃ self',
    GSODFile._add_file float self (header :: before ++ line :: after) = (self', None)
    ∧ GSODWeatherSource._source_unit self' = GSODWeatherSource._source_unit self
    ∧ GSODWeatherSource._data self' !! key
      = Some (Q_ x (GSODWeatherSource._source_unit self))
    ∧ ∀ key', Forall (λ l, split l !! 2%nat ≠ Some key') (before ++ line :: after) →
        GSODWeatherSource._data self' !! key' = GSODWeatherSource._data self !! key'.
Proof.
  intros Hall Hkey Hcolumn Hx Hafter.
  unfold GSODFile._add_file.
  change (drop 1 (header :: before ++ line :: after)) with (before ++ line :: after).
  destruct (gsod_add_rows_ok _ self Hall) as (self' & Hrun & Hunit & Hframe).
  exists self'. split; [exact Hrun|]. split; [exact Hunit|].
  split; [|exact Hframe].
  apply Forall_app in Hall as [Hbefore Hrest].
  apply Forall_cons in Hrest as [_ Hrest].
  destruct (gsod_add_rows_ok _ self Hbefore) as (self1 & Hrun1 & Hunit1 & _).
  rewrite for_lines_app, Hrun1 in Hrun. cbn [for_lines] in Hrun.
  destruct (gsod_add_line_ok self1 _ _ _ Hcolumn Hx) as (k & Hk & Hline).
  assert (k = key) as -> by congruence.
  rewrite Hline in Hrun.
  destruct (gsod_add_rows_ok _
    {| GSODWeatherSource._data :=
         <[key := Q_ x (GSODWeatherSource._source_unit self1)]>
           (GSODWeatherSource._data self1);
       GSODWeatherSource._source_unit := GSODWeatherSource._source_unit self1 |}
    Hrest) as (self2 & Hrun2 & _ & Hframe2).
  rewrite Hrun2 in Hrun. injection Hrun as <-.
  rewrite (Hframe2 _ Hafter). cbn [GSODWeatherSource._data].
  rewrite lookup_insert_eq, Hunit1. reflexivity.
Qed.

(** X25.  A line after the header with fewer than four columns (a blank
    line, for one) stops [GSODWeatherSource._add_file] with [IndexError];
    the dict holds what the lines before it have stored. *)
Theorem gsod_file_stops_at_short_row
    (self : GSODWeatherSource.t) (header : string) (before after : list string)
    (line : string) :
  Forall (λ l, ∃ column y, split l !! 3%nat = Some column ∧ float column = Ok y)
         before →
  (length (split line) ≤ 3)%nat →
  GSODFile._add_file float self (header :: before ++ line :: after)
  = ((GSODFile._add_file float self (header :: before)).1, Some IndexError).
Proof.
  intros Hbefore Hshort. unfold GSODFile._add_file.
  change (drop 1 (header :: before ++ line :: after)) with (before ++ line :: after).
  change (drop 1 (header :: before)) with before.
  destruct (gsod_add_rows_ok _ self Hbefore) as (self1 & Hrun1 & _).
  rewrite for_lines_app, Hrun1. cbn [for_lines fst].
  unfold GSODFile._add_line. cbv zeta.
  rewrite (lookup_ge_None_2 (split line) 3) by lia. reflexivity.
Qed.

Lemma tmy3_add_line_ok (self : TMY3WeatherSource.t) (line column : string)
    (x : pyfloat) :
  split_at comma line !! 31%nat = Some column →
  float column = Ok x →
  ∃ key, date_string (split_at comma line) = Some key
    ∧ TMY3File._add_line float self line
      = ({| TMY3WeatherSource.station_id := TMY3WeatherSource.station_id self;
            TMY3WeatherSource._data :=
              <[key := Q_ x (TMY3WeatherSource._source_unit self)]>
                (TMY3WeatherSource._data self);
            TMY3WeatherSource._source_unit := TMY3WeatherSource._source_unit self |},
         None).
Proof.
  intros Hcolumn Hx.
  destruct (lookup_lt_is_Some_2 (split_at comma line) 0) as [row0 Hrow0].
  { apply lookup_lt_Some in Hcolumn. lia. }
  destruct (lookup_lt_is_Some_2 (split_at comma line) 1) as [row1 Hrow1].
  { apply lookup_lt_Some in Hcolumn. lia. }
  assert (Hkey : date_string (split_at comma line)
                 = Some (slice row0 0 2 +:+ slice row0 3 5 +:+ slice row1 0 2)).
  { unfold date_string. rewrite Hrow0, Hrow1. reflexivity. }
  eexists. split; [exact Hkey|].
  unfold TMY3File._add_line. cbv zeta. rewrite Hkey, Hcolumn, Hx. reflexivity.
Qed.

Lemma tmy3_add_rows_ok (rows : list string) (self : TMY3WeatherSource.t) :
  Forall (λ l, ∃ column y,
            split_at comma l !! 31%nat = Some column ∧ float column = Ok y) rows →
  ∃ self',
    for_lines (TMY3File._add_line float) self rows = (self', None)
    ∧ TMY3WeatherSource._source_unit self' = TMY3WeatherSource._source_unit self
    ∧ ∀ key, Forall (λ l, date_string (split_at comma l) ≠ Some key) rows →
        TMY3WeatherSource._data self' !! key = TMY3WeatherSource._data self !! key.
Proof.
  intros Hall. revert self.
  induction Hall as [|line rows (column & y & Hcolumn & Hy) _ IH]; intros self.
  - exists self. by repeat split.
  - cbn [for_lines].
    destruct (tmy3_add_line_ok self _ _ _ Hcolumn Hy) as (k & Hk & ->).
    destruct (IH {| TMY3WeatherSource.station_id := TMY3WeatherSource.station_id self;
            TMY3WeatherSource._data :=
              <[k := Q_ y (TMY3WeatherSource._source_unit self)]>
                (TMY3WeatherSource._data self);
            TMY3WeatherSource._source_unit := TMY3WeatherSource._source_unit self |})
      as (self' & Hrun & Hunit & Hframe).
    exists self'. split; [exact Hrun|]. split; [exact Hunit|].
    intros key Hkey. apply Forall_cons in Hkey as [Hline Hkey].
    rewrite (Hframe key Hkey). cbn [TMY3WeatherSource._data].
    rewrite lookup_insert_ne; [reflexivity|]. intros ->. by apply Hline.
Qed.

Lemma masked_nan_mean_single (q : Qc) : masked_nan_mean [Num q] = Float (Num q).
Proof.
  change [Num q] with (Num <$> [q]).
  rewrite (masked_nan_mean_Num [q]) by discriminate. do 2 f_equal.
  unfold arithmetic_mean. cbn [foldr length].
  change (Z.of_nat 1) with 1. rewrite Z2Qc_inj_1. field. discriminate.
Qed.

(** X26.  The constructor of the normal-year source skips three lines of
    its file.  When every later row has a field of index 31 that [float]
    reads, the source is built, and the hour that starts at [t] averages
    to the value of the last row whose month, day and hour fields are
    those of [t], converted from degC: what the constructor stores is what
    the query reads back, for a [t] of any year. *)
Theorem tmy3_file_row_is_read_back
    (station_id : string) (l0 l1 l2 : string) (before after : list string)
    (line column : string) (q : Qc) (t : datetime) (unit : Unit) :
  Forall (λ l, ∃ column y,
            split_at comma l !! 31%nat = Some column ∧ float column = Ok y)
         (before ++ line :: after) →
  date_string (split_at comma line) = Some (strftime_mdH t) →
  split_at comma line !! 31%nat = Some column →
  float column = Ok (Num q) →
  Forall (λ l, date_string (split_at comma l) ≠ Some (strftime_mdH t)) after →
  ∃ self,
    TMY3File.__init__ float station_id (l0 :: l1 :: l2 :: before ++ line :: after)
    = inl self
    ∧ get_consumption_average_temperature self
        {| start := t; timedelta := {| days := 0; seconds := 3600 |} |} unit
      = Ok (Float (Num (convert degC unit q))).
Proof.
  intros Hall Hkey Hcolumn Hq Hafter.
  unfold TMY3File.__init__. cbv zeta.
  change (drop 1 (drop 2 (l0 :: l1 :: l2 :: before ++ line :: after)))
    with (before ++ line :: after).
  set (self := {| TMY3WeatherSource.station_id := station_id;
                  TMY3WeatherSource._data := ∅;
                  TMY3WeatherSource._source_unit := degC |}).
  destruct (tmy3_add_rows_ok _ self Hall) as (self' & Hrun & Hunit & _).
  rewrite Hrun. exists self'. split; [reflexivity|].
  apply Forall_app in Hall as [Hbefore Hrest].
  apply Forall_cons in Hrest as [_ Hrest].
  destruct (tmy3_add_rows_ok _ self Hbefore) as (self1 & Hrun1 & Hunit1 & _).
  rewrite for_lines_app, Hrun1 in Hrun. cbn [for_lines] in Hrun.
  destruct (tmy3_add_line_ok self1 _ _ _ Hcolumn Hq) as (k & Hk & Hline).
  assert (k = strftime_mdH t) as -> by congruence.
  rewrite Hline in Hrun.
  destruct (tmy3_add_rows_ok _
    {| TMY3WeatherSource.station_id := TMY3WeatherSource.station_id self1;
       TMY3WeatherSource._data :=
         <[strftime_mdH t := Q_ (Num q) (TMY3WeatherSource._source_unit self1)]>
           (TMY3WeatherSource._data self1);
       TMY3WeatherSource._source_unit := TMY3WeatherSource._source_unit self1 |}
    Hrest) as (self2 & Hrun2 & _ & Hframe2).
  rewrite Hrun2 in Hrun. injection Hrun as <-.
  cbn [get_consumption_average_temperature TMY3_WeatherSource].
  unfold TMY3WeatherSource.get_consumption_average_temperature. cbv zeta.
  cbn [start timedelta Calendar.days Calendar.seconds].
  change (0 * 24 + 3600 / 3600) with 1.
  change (xrange 1) with [0]. cbn [for_append mbind result_bind].
  unfold add_seconds. change (0 * 3600) with 0. rewrite Z.add_0_r.
  rewrite (Hframe2 _ Hafter). cbn [TMY3WeatherSource._data].
  rewrite lookup_insert_eq, Hunit1. cbn [default to magnitude units].
  unfold self. cbn [TMY3WeatherSource._source_unit].
  change (magnitude (to (id (Q_ (Num q) degC)) unit))
    with (Num (convert degC unit q)).
  rewrite masked_nan_mean_single. reflexivity.
Qed.

End LegacyReaders.

Section LegacyReadersExamples.
Import Legacy LegacyFiles LegacyExamples LegacyFilesExamples.

Lemma isd_file_stores_last_reading_witness :
  ∃ self',
    ISDFile._add_file sample_float isd_no_data
      [isd_line "2020010100" "+0215"; isd_line "2020010100" "+9999";
       isd_line "2020010101" "+0215"]
    = (self', None)
    ∧ ISDWeatherSource._data self' !! "2020010100"%string = Some (Q_ NaN degC).
Proof.
  destruct (isd_file_stores_last_reading sample_float isd_no_data
              [isd_line "2020010100" "+0215"]
              [isd_line "2020010101" "+0215"]
              (isd_line "2020010100" "+9999") (Num (Qc_of_Z 9999)))
    as (self' & Hrun & _ & Hdata & _).
  - repeat constructor; eexists; vm_compute; reflexivity.
  - vm_compute. reflexivity.
  - repeat constructor. vm_compute. discriminate.
  - exists self'. split; [exact Hrun | exact Hdata].
Defined.

Lemma isd_file_stops_at_short_line_witness :
  ISDFile._add_file sample_float isd_no_data
    [isd_line "2020010100" "+0215"; EmptyString; isd_line "2020010101" "+0215"]
  = ((ISDFile._add_file sample_float isd_no_data
        [isd_line "2020010100" "+0215"]).1,
     Some (Exception (ValueError "could not convert string to float: "))).
Proof.
  apply (isd_file_stops_at_short_line sample_float isd_no_data
           [isd_line "2020010100" "+0215"]
           [isd_line "2020010101" "+0215"] EmptyString).
  - repeat constructor; eexists; vm_compute; reflexivity.
  - cbn. lia.
  - vm_compute. reflexivity.
Defined.

Lemma gsod_file_stores_last_row_witness :
  ∃ self',
    GSODFile._add_file sample_float gsod_no_data
      [gsod_header; gsod_row "20200101" "50.0"; gsod_row "20200102" "9999.9"]
    = (self', None)
    ∧ GSODWeatherSource._data self' !! "20200102"%string
      = Some (Q_ (Num (Q2Qc (99999 # 10))) degF).
Proof.
  destruct (gsod_file_stores_last_row sample_float gsod_no_data gsod_header
              [gsod_row "20200101" "50.0"] []
              (gsod_row "20200102" "9999.9") "20200102" "9999.9"
              (Num (Q2Qc (99999 # 10))))
    as (self' & Hrun & _ & Hdata & _).
  - repeat constructor; do 2 eexists; split; vm_compute; reflexivity.
  - vm_compute. reflexivity.
  - vm_compute. reflexivity.
  - vm_compute. reflexivity.
  - constructor.
  - exists self'. split; [exact Hrun | exact Hdata].
Defined.

Lemma gsod_file_stops_at_short_row_witness :
  GSODFile._add_file sample_float gsod_no_data
    [gsod_header; gsod_row "20200101" "50.0"; EmptyString;
     gsod_row "20200102" "50.0"]
  = ((GSODFile._add_file sample_float gsod_no_data
        [gsod_header; gsod_row "20200101" "50.0"]).1,
     Some IndexError).
Proof.
  apply (gsod_file_stops_at_short_row sample_float gsod_no_data gsod_header
           [gsod_row "20200101" "50.0"] [gsod_row "20200102" "50.0"] EmptyString).
  - repeat constructor; do 2 eexists; split; vm_compute; reflexivity.
  - cbn. lia.
Defined.

Lemma tmy3_file_row_is_read_back_witness :
  ∃ self,
    TMY3File.__init__ sample_float "725300"
      ["725300,CHICAGO"; "Date (MM/DD/YYYY),Time (HH:MM)"; "01/01/1988,00:00";
       tmy3_row "01/01/1988" "01:00" "50.0"; tmy3_row "01/01/1988" "02:00" "50.0"]
    = inl self
    ∧ get_consumption_average_temperature self
        {| start := jan1_2020_1h; timedelta := {| days := 0; seconds := 3600 |} |}
        degC
      = Ok (Float (Num (convert degC degC (Qc_of_Z 50)))).
Proof.
  apply (tmy3_file_row_is_read_back sample_float "725300"
           "725300,CHICAGO" "Date (MM/DD/YYYY),Time (HH:MM)" "01/01/1988,00:00"
           [] [tmy3_row "01/01/1988" "02:00" "50.0"]
           (tmy3_row "01/01/1988" "01:00" "50.0") "50.0" (Qc_of_Z 50)
           jan1_2020_1h degC).
  - repeat constructor; do 2 eexists; split; vm_compute; reflexivity.
  - vm_compute. reflexivity.
  - vm_compute. reflexivity.
  - vm_compute. reflexivity.
  - repeat constructor. vm_compute. discriminate.
Defined.

End LegacyReadersExamples.
